(** * opera-note-exporter: a shallow embedding of [opera-note-exporter.cpp]

    The program reads an Opera notes export ([notes.adr]) line by line,
    collects [Note] records and writes one Tomboy XML file per note.

    [std::string] is modelled as [string] (a sequence of 8-bit [ascii]
    bytes), [std::vector<Note>] as [list Note], the output directory as a
    finite map from paths to file contents, [std::cout]/[std::cerr] as a
    list of messages.  Undefined behaviour of the C++ program and the
    uncaught [bad_lexical_cast] exception are explicit failures of the
    parsing monad. *)

From Stdlib Require Import Ascii ZArith Bool.
From stdpp Require Import gmap strings list fin_maps.

Local Open Scope char_scope.
Local Open Scope stdpp_scope.

(** ** Bytes and strings *)

Module Chars.
Definition tab : ascii := "009".
Definition newline : ascii := "010".
Definition stx : ascii := "002".        (* char(2) *)
Definition dquote : ascii := "034".
Definition equals : ascii := "=".
End Chars.

(** [std::string(1, c)] *)
Definition str1 (c : ascii) : string := String c EmptyString.

Definition dq : string := str1 Chars.dquote.
Definition nl : string := str1 Chars.newline.
Definition tb : string := str1 Chars.tab.

(** [s.size() == 0] *)
Definition is_empty (s : string) : bool :=
  match s with EmptyString => true | String _ _ => false end.

(** [s.substr(pos, n)] for [pos <= s.size()] (every call site below
    guarantees it): at most [n] bytes starting at [pos]. *)
Definition substr (s : string) (pos n : nat) : string := String.substring pos n s.

(** Whether [s] begins with the bytes of [pat]. *)
Fixpoint starts_with (pat s : string) {struct pat} : bool :=
  match pat with
  | EmptyString => true
  | String a pat' =>
      match s with
      | EmptyString => false
      | String b s' => Ascii.eqb a b && starts_with pat' s'
      end
  end.

(** ** [EscapeXml] *)

(** The [switch] of the loop body: what is appended to [buffer] for one byte. *)
Definition escape_case (c : ascii) : string :=
  if Ascii.eqb c "&" then "&amp;"
  else if Ascii.eqb c Chars.dquote then "&quot;"
  else if Ascii.eqb c "'" then "&apos;"
  else if Ascii.eqb c "<" then "&lt;"
  else if Ascii.eqb c ">" then "&gt;"
  else str1 c.

(** [for (pos = 0; pos != str.size(); ++pos) { switch ... buffer.append ... }] *)
Fixpoint EscapeXml_loop (str : string) (buffer : string) : string :=
  match str with
  | EmptyString => buffer
  | String c rest => EscapeXml_loop rest (buffer +:+ escape_case c)
  end.

Definition EscapeXml (str : string) : string := EscapeXml_loop str EmptyString.

(** The reverse mapping of the five entities, written from the
    specification's words (it is not part of the program): reading left to
    right, each of [&amp;] [&quot;] [&apos;] [&lt;] [&gt;] is replaced by
    the byte it stands for.  [skip] counts the bytes of an entity that
    remain to be dropped. *)
Fixpoint UnescapeXml_from (skip : nat) (s : string) : string :=
  match s with
  | EmptyString => EmptyString
  | String c rest =>
      match skip with
      | S k => UnescapeXml_from k rest
      | O =>
          if starts_with "&amp;" s then String "&" (UnescapeXml_from 4 rest)
          else if starts_with "&quot;" s then String Chars.dquote (UnescapeXml_from 5 rest)
          else if starts_with "&apos;" s then String "'" (UnescapeXml_from 5 rest)
          else if starts_with "&lt;" s then String "<" (UnescapeXml_from 3 rest)
          else if starts_with "&gt;" s then String ">" (UnescapeXml_from 3 rest)
          else String c (UnescapeXml_from 0 rest)
      end
  end.

Definition UnescapeXml (s : string) : string := UnescapeXml_from 0 s.

(** ** The line classifier *)

(** [while (line.size() > begin+len && line[begin+len] != '=') ++len;]
    Every iteration advances [len], so [line.size()] iterations suffice. *)
Fixpoint name_scan (fuel : nat) (line : string) (begin len : nat) : nat :=
  match fuel with
  | O => len
  | S fuel' =>
      match String.get (begin + len) line with
      | Some c => if Ascii.eqb c Chars.equals then len
                  else name_scan fuel' line begin (S len)
      | None => len
      end
  end.

Definition GetLinePropertyName (line : string) : string :=
  if is_empty line then EmptyString
  else
    let begin :=
      match String.get 0 line with
      | Some c => if Ascii.eqb c Chars.tab then 1 else 0
      | None => 0
      end in
    let len := name_scan (String.length line) line begin 0 in
    substr line begin len.

(** [while (line.size() > begin && line[begin] != '=') ++begin;] *)
Fixpoint value_scan (fuel : nat) (line : string) (begin : nat) : nat :=
  match fuel with
  | O => begin
  | S fuel' =>
      match String.get begin line with
      | Some c => if Ascii.eqb c Chars.equals then begin
                  else value_scan fuel' line (S begin)
      | None => begin
      end
  end.

Definition GetLinePropertyValue (line : string) : string :=
  let begin := value_scan (String.length line) line 0 in
  let begin := S begin in
  if (String.length line <=? begin)%nat then EmptyString
  else substr line begin (String.length line).

(** ** The [boost] string algorithms the parser calls *)

(** [boost::char_separator<char> sep(separators)] with the default policy
    ([drop_empty_tokens], no kept delimiters): a token is a maximal
    non-empty run of bytes that are not in [separators]. *)
Fixpoint is_dropped (separators : string) (c : ascii) : bool :=
  match separators with
  | EmptyString => false
  | String d rest => Ascii.eqb c d || is_dropped rest c
  end.

(** "skip past all dropped_delims" *)
Fixpoint skip_dropped (separators s : string) : string :=
  match s with
  | EmptyString => EmptyString
  | String c rest => if is_dropped separators c then skip_dropped separators rest else s
  end.

(** "append all the non delim characters" *)
Fixpoint take_token (separators s : string) : string :=
  match s with
  | EmptyString => EmptyString
  | String c rest =>
      if is_dropped separators c then EmptyString
      else String c (take_token separators rest)
  end.

(** [tokens.begin()]: [None] is the end iterator ([tokens.begin() ==
    tokens.end()]), [Some t] an iterator whose [*] is [t]. *)
Definition tokens_begin (separators s : string) : option string :=
  match skip_dropped separators s with
  | EmptyString => None
  | String c rest => Some (take_token separators (String c rest))
  end.

(** [boost::replace_all(input, search, format)] for a non-empty [search]:
    every occurrence found scanning left to right, occurrences not
    overlapping.  [skip] counts the bytes of a match still to be passed. *)
Fixpoint replace_all_from (skip : nat) (search format input : string) : string :=
  match input with
  | EmptyString => EmptyString
  | String c rest =>
      match skip with
      | S k => replace_all_from k search format rest
      | O =>
          if starts_with search input
          then format +:+ replace_all_from (pred (String.length search)) search format rest
          else String c (replace_all_from 0 search format rest)
      end
  end.

Definition replace_all (input search format : string) : string :=
  replace_all_from 0 search format input.

(** ** Options and notes *)

Record Options := {
  default_tag : string;
  export_trash : bool;
  input : string;
  output : string;
  convert_tags_to_notebooks : bool
}.

(** [boost::posix_time::ptime]: a default-constructed value is
    [not_a_date_time]; [local_of_time_t t] is
    [utc_to_local(from_time_t(t))], whose calendar fields depend on the
    host's time zone. *)
Inductive ptime :=
| not_a_date_time
| local_of_time_t (t : Z).

Record Note := {
  title_ : string;
  note_ : string;
  creation_time_ : ptime;
  tags_ : list string;
  uid_ : string
}.

(** [Note()] *)
Definition Note_new : Note :=
  {| title_ := EmptyString; note_ := EmptyString;
     creation_time_ := not_a_date_time; tags_ := []; uid_ := EmptyString |}.

Definition SetTitle (title : string) (n : Note) : Note :=
  {| title_ := title; note_ := note_ n; creation_time_ := creation_time_ n;
     tags_ := tags_ n; uid_ := uid_ n |}.

Definition SetNote (note : string) (n : Note) : Note :=
  {| title_ := title_ n; note_ := note; creation_time_ := creation_time_ n;
     tags_ := tags_ n; uid_ := uid_ n |}.

(** [tags_.push_back(tag)] *)
Definition AddTag (tag : string) (n : Note) : Note :=
  {| title_ := title_ n; note_ := note_ n; creation_time_ := creation_time_ n;
     tags_ := tags_ n ++ [tag]; uid_ := uid_ n |}.

Definition SetUid (uid : string) (n : Note) : Note :=
  {| title_ := title_ n; note_ := note_ n; creation_time_ := creation_time_ n;
     tags_ := tags_ n; uid_ := uid |}.

Definition SetCreationTimeFromUnixTime (time : Z) (n : Note) : Note :=
  {| title_ := title_ n; note_ := note_ n; creation_time_ := local_of_time_t time;
     tags_ := tags_ n; uid_ := uid_ n |}.

(** ** Failures of the parse pass *)

Inductive Failure :=
| bad_lexical_cast      (* the exception thrown by [boost::lexical_cast] *)
| rbegin_of_empty       (* [notes_.rbegin()->...] on an empty vector: undefined *)
| deref_end_token.      (* [*tokens.begin()] when there is no token: undefined *)

Inductive Result (A : Type) :=
| Ok (a : A)
| Fail (f : Failure).
Arguments Ok {A} a.
Arguments Fail {A} f.

#[global] Instance Result_bind : MBind Result :=
  fun A B (k : A -> Result B) (r : Result A) =>
    match r with
    | Ok a => k a
    | Fail f => Fail f
    end.

(** [notes_.rbegin()->m(...)]: apply the member function to the last
    element of the vector. *)
Fixpoint at_rbegin (m : Note -> Note) (notes : list Note) : Result (list Note) :=
  match notes with
  | [] => Fail rbegin_of_empty
  | n :: rest =>
      match rest with
      | [] => Ok [m n]
      | _ :: _ => rest' ← at_rbegin m rest; Ok (n :: rest')
      end
  end.

(** ** The parser's private helpers *)

(** [separators += char(2)] *)
Definition stx_separator : string := str1 Chars.stx.

Definition ParseFolderName (str : string) : Result string :=
  match tokens_begin stx_separator str with
  | Some tok => Ok tok
  | None => Fail deref_end_token
  end.

Definition no_title : string := "<no-title>".

Definition ParseNoteTitle (str : string) : string :=
  match tokens_begin stx_separator str with
  | Some tok => tok
  | None => no_title
  end.

Definition ParseNote (str : string) : string :=
  let separators := str1 Chars.stx +:+ str1 Chars.stx in
  let replace_with := str1 Chars.newline in
  replace_all str separators replace_with.

(** ** The state of [ParseFile]'s loop *)

Record ParseState := {
  notes_ : list Note;
  current_folder_name : string;
  in_folder : bool;
  in_trash : bool
}.

Definition ParseState_init : ParseState :=
  {| notes_ := []; current_folder_name := EmptyString;
     in_folder := false; in_trash := false |}.

Definition set_notes (ns : list Note) (st : ParseState) : ParseState :=
  {| notes_ := ns; current_folder_name := current_folder_name st;
     in_folder := in_folder st; in_trash := in_trash st |}.

Definition set_current_folder_name (name : string) (st : ParseState) : ParseState :=
  {| notes_ := notes_ st; current_folder_name := name;
     in_folder := in_folder st; in_trash := in_trash st |}.

Definition set_in_folder (b : bool) (st : ParseState) : ParseState :=
  {| notes_ := notes_ st; current_folder_name := current_folder_name st;
     in_folder := b; in_trash := in_trash st |}.

Definition set_in_trash (b : bool) (st : ParseState) : ParseState :=
  {| notes_ := notes_ st; current_folder_name := current_folder_name st;
     in_folder := in_folder st; in_trash := b |}.

(** [std::getline] over the whole file: the lines without their
    terminating newline; a last line that lacks the newline is still
    delivered when it is non-empty. *)
Fixpoint getlines (content : string) : list string :=
  match content with
  | EmptyString => []
  | String c rest =>
      if Ascii.eqb c Chars.newline then EmptyString :: getlines rest
      else match getlines rest with
           | [] => [str1 c]
           | line :: lines => String c line :: lines
           end
  end.

(** ** Output channels and the file system *)

Inductive Message :=
| cout (text : string)
| cerr (text : string).

(** How the process ends. *)
Inductive Outcome :=
| Returned (status : Z) (fs : gmap string string) (log : list Message)
    (* [return] from [main], or [exit] *)
| Terminated (fs : gmap string string) (log : list Message)
    (* [std::terminate] after the uncaught [bad_lexical_cast]: abnormal,
       non-zero termination *)
| Undefined (f : Failure).
    (* the run has executed undefined behaviour *)

Definition exited_zero (o : Outcome) : bool :=
  match o with
  | Returned status _ _ => (status =? 0)%Z
  | _ => false
  end.

Definition files_after (o : Outcome) : option (gmap string string) :=
  match o with
  | Returned _ fs _ | Terminated fs _ => Some fs
  | Undefined _ => None
  end.

(** ** The program, over the host it runs on *)

Section Program.

(** [boost::lexical_cast<boost::uint32_t>]: [None] when it throws
    [bad_lexical_cast]. *)
Variable lexical_cast_uint32 : string -> option Z.

(** Streaming a [ptime] through the [time_facet] with format
    [%Y-%m-%dT%H:%M:%S.%f]. *)
Variable format_ptime : ptime -> string.

(** Whether [std::ofstream::open] succeeds on a path (the directory
    exists and is writable). *)
Variable can_create : string -> bool.

Variable options : Options.

(** *** class Note *)

Definition GetTomboyDateString (n : Note) : string :=
  format_ptime (creation_time_ n).

(** [for (i = 0; i < tags_.size(); ++i) { ... }] *)
Fixpoint AsTomboyNote_tags (tags : list string) (str : string) : string :=
  match tags with
  | [] => str
  | tag :: rest =>
      let str := str +:+ (tb +:+ tb +:+ "<tag>") in
      let str := if convert_tags_to_notebooks options
                 then str +:+ "system:notebook:" else str in
      let str := str +:+ (EscapeXml tag +:+ "</tag>" +:+ nl) in
      AsTomboyNote_tags rest str
  end.

Definition AsTomboyNote (n : Note) : string :=
  let datestr := GetTomboyDateString n in
  let str :=
    "<note version=" +:+ dq +:+ "0.3" +:+ dq +:+
    " xmlns:link=" +:+ dq +:+ "http://beatniksoftware.com/tomboy/link" +:+ dq +:+
    " xmlns:size=" +:+ dq +:+ "http://beatniksoftware.com/tomboy/size" +:+ dq +:+
    " xmlns=" +:+ dq +:+ "http://beatniksoftware.com/tomboy" +:+ dq +:+ ">" +:+ nl in
  let str := str +:+ (tb +:+ "<title>" +:+ EscapeXml (title_ n) +:+ "</title>" +:+ nl) in
  let str := str +:+ (tb +:+ "<text xml:space=" +:+ dq +:+ "preserve" +:+ dq +:+
                      "><note-content version=" +:+ dq +:+ "0.1" +:+ dq +:+ ">" +:+
                      EscapeXml (note_ n) +:+ "</note-content></text>" +:+ nl) in
  let str := str +:+ (tb +:+ "<last-change-date>" +:+ datestr +:+
                      "</last-change-date>" +:+ nl) in
  let str := str +:+ (tb +:+ "<last-metadata-change-date>" +:+ datestr +:+
                      "</last-metadata-change-date>" +:+ nl) in
  let str := str +:+ (tb +:+ "<create-date>" +:+ datestr +:+ "</create-date>" +:+ nl) in
  let str := str +:+ (tb +:+ "<tags>" +:+ nl) in
  let str := AsTomboyNote_tags (tags_ n) str in
  let str := str +:+ (tb +:+ "</tags>" +:+ nl) in
  let str := str +:+ (tb +:+ "<cursor-position>0</cursor-position>" +:+ nl) in
  let str := str +:+ (tb +:+ "<width>450</width>" +:+ nl) in
  let str := str +:+ (tb +:+ "<height>360</height>" +:+ nl) in
  let str := str +:+ (tb +:+ "<x>0</x>" +:+ nl) in
  let str := str +:+ (tb +:+ "<y>0</y>" +:+ nl) in
  let str := str +:+ (tb +:+ "<open-on-startup>False</open-on-startup>" +:+ nl) in
  let str := str +:+ ("</note>" +:+ nl) in
  str.

(** [options.output + "/" + uid_ + ".note"] *)
Definition out_fname (n : Note) : string :=
  output options +:+ "/" +:+ uid_ n +:+ ".note".

(** The file system before the call goes in, the file system after it
    and what was printed come out.  Opening an [ofstream] creates the
    file or truncates it; [file << ... << std::endl] writes the document
    and a newline. *)
Definition CreateTomboyNote (n : Note) (fs : gmap string string)
  : gmap string string * list Message :=
  if is_empty (note_ n) then
    (fs, [cout "Skipping empty note"])
  else
    let log :=
      if is_empty (uid_ n)
      then [cerr "Failed to create note: Note does not have UID"]
      else [] in
    if negb (can_create (out_fname n)) then
      (fs, log ++ [cerr "Failed to create note: Failed to create file"])
    else
      (<[out_fname n := AsTomboyNote n +:+ nl]> fs, log).

(** *** class OperaNoteParser *)

(** The body of the [while (std::getline(file, line))] loop. *)
Definition ParseLine (st : ParseState) (line : string) : Result ParseState :=
  let prop := GetLinePropertyName line in
  if String.eqb prop "#FOLDER" then
    Ok (set_in_trash false (set_in_folder true st))
  else
    let st :=
      if String.eqb prop "TRASH FOLDER" && String.eqb (GetLinePropertyValue line) "YES"
      then set_in_trash true st else st in
    if in_trash st && negb (export_trash options) then
      Ok st
    else if String.eqb prop "#NOTE" then
      let st := set_in_folder false (set_notes (notes_ st ++ [Note_new]) st) in
      notes ← (if negb (is_empty (default_tag options))
               then at_rbegin (AddTag (default_tag options)) (notes_ st)
               else Ok (notes_ st));
      notes ← (if negb (is_empty (current_folder_name st))
               then at_rbegin (AddTag (current_folder_name st)) notes
               else Ok notes);
      Ok (set_notes notes st)
    else if negb (in_folder st) && String.eqb prop "UNIQUEID" then
      let uid := GetLinePropertyValue line in
      notes ← at_rbegin (SetUid uid) (notes_ st);
      Ok (set_notes notes st)
    else if String.eqb prop "NAME" then
      let name_str := GetLinePropertyValue line in
      if in_folder st then
        name ← ParseFolderName name_str;
        Ok (set_current_folder_name name st)
      else
        notes ← at_rbegin (SetTitle (ParseNoteTitle name_str)) (notes_ st);
        notes ← at_rbegin (SetNote (ParseNote name_str)) notes;
        Ok (set_notes notes st)
    else if String.eqb prop "CREATED" then
      let date_str := GetLinePropertyValue line in
      match lexical_cast_uint32 date_str with
      | None => Fail bad_lexical_cast
      | Some date_val =>
          notes ← at_rbegin (SetCreationTimeFromUnixTime date_val) (notes_ st);
          Ok (set_notes notes st)
      end
    else
      Ok st.

(** The loop over the lines of the file. *)
Fixpoint ParseLoop (st : ParseState) (lines : list string) : Result ParseState :=
  match lines with
  | [] => Ok st
  | line :: rest => st' ← ParseLine st line; ParseLoop st' rest
  end.

Definition ParseLines (lines : list string) : Result (list Note) :=
  st ← ParseLoop ParseState_init lines; Ok (notes_ st).

(** [ParseFile]: [None] when the input file cannot be opened (the
    process then leaves through [exit(-1)]), otherwise the notes or the
    failure of the loop. *)
Definition ParseFile (fs : gmap string string) : option (Result (list Note)) :=
  match fs !! input options with
  | None => None
  | Some content => Some (ParseLines (getlines content))
  end.

(** [for (i = 0; i < notes_.size(); ++i) notes_[i].CreateTomboyNote(options_);] *)
Fixpoint WriteFiles_loop (notes : list Note) (fs : gmap string string)
         (log : list Message) : gmap string string * list Message :=
  match notes with
  | [] => (fs, log)
  | n :: rest =>
      let '(fs', msgs) := CreateTomboyNote n fs in
      WriteFiles_loop rest fs' (log ++ msgs)
  end.

Definition WriteFiles (notes : list Note) (fs : gmap string string)
  : gmap string string * list Message :=
  WriteFiles_loop notes fs [].

(** [main] once the command line has been read into [options]:
    [parser.ParseFile(); parser.WriteFiles(); return 0;].  The message
    the C++ runtime prints on [std::terminate] is not modelled. *)
Definition main (fs : gmap string string) : Outcome :=
  match ParseFile fs with
  | None => Returned 255 fs [cerr "Failed to open input file"]
  | Some (Ok notes) =>
      let '(fs', log) := WriteFiles notes fs in
      Returned 0 fs' log
  | Some (Fail bad_lexical_cast) => Terminated fs []
  | Some (Fail f) => Undefined f
  end.

(** *** The input discipline of the note handlers

    [handlers_follow_note] walks the lines with the flags of the loop and
    a flag [seen_note] that records whether a [#NOTE] line has reached
    its handler.  It answers [false] when a line reaches the [UNIQUEID]
    handler, the [NAME] handler outside a folder header or the [CREATED]
    handler while [seen_note] is still [false].  Lines behind the point
    where the loop is left ([bad_lexical_cast], a folder name without
    token) are never reached and are not inspected. *)
Fixpoint handlers_follow_note (folder trash seen_note : bool)
         (lines : list string) : bool :=
  match lines with
  | [] => true
  | line :: rest =>
      let prop := GetLinePropertyName line in
      if String.eqb prop "#FOLDER" then
        handlers_follow_note true false seen_note rest
      else
        let trash :=
          if String.eqb prop "TRASH FOLDER" && String.eqb (GetLinePropertyValue line) "YES"
          then true else trash in
        if trash && negb (export_trash options) then
          handlers_follow_note folder trash seen_note rest
        else if String.eqb prop "#NOTE" then
          handlers_follow_note false trash true rest
        else if negb folder && String.eqb prop "UNIQUEID" then
          seen_note && handlers_follow_note folder trash seen_note rest
        else if String.eqb prop "NAME" then
          if folder then
            match tokens_begin stx_separator (GetLinePropertyValue line) with
            | Some _ => handlers_follow_note folder trash seen_note rest
            | None => true
            end
          else seen_note && handlers_follow_note folder trash seen_note rest
        else if String.eqb prop "CREATED" then
          seen_note &&
          match lexical_cast_uint32 (GetLinePropertyValue line) with
          | Some _ => handlers_follow_note folder trash seen_note rest
          | None => true
          end
        else handlers_follow_note folder trash seen_note rest
  end.

End Program.

(** ** A host for worked examples

    One host the program can run on: the numeral reader of Boost, UTC as
    the local time zone, and an output directory in which every file can
    be created. *)

Module Host.

Definition digit (c : ascii) : option Z :=
  let n := Z.of_nat (nat_of_ascii c) in
  if (48 <=? n)%Z && (n <=? 57)%Z then Some (n - 48)%Z else None.

Fixpoint decimal_loop (s : string) (acc : Z) : option Z :=
  match s with
  | EmptyString => Some acc
  | String c rest =>
      match digit c with
      | Some d => decimal_loop rest (10 * acc + d)%Z
      | None => None
      end
  end.

(** One or more decimal digits whose value fits 32 bits (leading zeros
    are allowed). *)
Definition unsigned_digits (s : string) : option Z :=
  if is_empty s then None
  else match decimal_loop s 0 with
       | Some v => if (v <? 2 ^ 32)%Z then Some v else None
       | None => None
       end.

(** [boost::lexical_cast<boost::uint32_t>] as Boost's converter for
    unsigned targets reads a numeral: an optional sign [+] or [-], then
    the digits, and nothing else (no blanks, no trailing text).  Behind a
    [-] the value read is negated modulo [2^32] ([0u - output]), so [-1]
    is read as 4294967295. *)
Definition decimal_uint32 (s : string) : option Z :=
  match s with
  | EmptyString => None
  | String c rest =>
      if Ascii.eqb c "-" then
        match unsigned_digits rest with
        | Some v => Some ((- v) mod 2 ^ 32)%Z
        | None => None
        end
      else if Ascii.eqb c "+" then unsigned_digits rest
      else unsigned_digits s
  end.

Definition digit_char (d : Z) : ascii := ascii_of_nat (Z.to_nat (48 + d mod 10)).

(** [width] decimal digits of [v], zero padded. *)
Fixpoint digits (width : nat) (v : Z) (tail : string) : string :=
  match width with
  | O => tail
  | S w => digits w (v / 10) (String (digit_char v) tail)
  end.

(** Proleptic Gregorian date of a day count since 1970-01-01. *)
Definition civil_from_days (days : Z) : Z * Z * Z :=
  let z := (days + 719468)%Z in
  let era := (z / 146097)%Z in
  let doe := (z - era * 146097)%Z in
  let yoe := ((doe - doe / 1460 + doe / 36524 - doe / 146096) / 365)%Z in
  let doy := (doe - (365 * yoe + yoe / 4 - yoe / 100))%Z in
  let mp := ((5 * doy + 2) / 153)%Z in
  let d := (doy - (153 * mp + 2) / 5 + 1)%Z in
  let m := (if (mp <? 10)%Z then mp + 3 else mp - 9)%Z in
  let y := (yoe + era * 400 + (if (m <=? 2)%Z then 1 else 0))%Z in
  (y, m, d).

Definition utc_format (t : ptime) : string :=
  match t with
  | not_a_date_time => "not-a-date-time"
  | local_of_time_t secs =>
      let '(y, m, d) := civil_from_days (secs / 86400) in
      let sod := (secs mod 86400)%Z in
      digits 4 y ("-" +:+ digits 2 m ("-" +:+ digits 2 d ("T" +:+
      digits 2 (sod / 3600) (":" +:+ digits 2 (sod / 60 mod 60) (":" +:+
      digits 2 (sod mod 60) ".000000")))))
  end.

Definition writable (path : string) : bool := true.

End Host.

(** ** Vocabulary of the statements *)

(** Whether byte [c] occurs in [s]. *)
Fixpoint has_byte (c : ascii) (s : string) : bool :=
  match s with
  | EmptyString => false
  | String d rest => Ascii.eqb d c || has_byte c rest
  end.

(** Whether [s] consists of STX bytes only (the empty string does). *)
Fixpoint only_stx (s : string) : bool :=
  match s with
  | EmptyString => true
  | String c rest => Ascii.eqb c Chars.stx && only_stx rest
  end.

(** The line without its leading tab, if it has one. *)
Definition strip_tab (line : string) : string :=
  match line with
  | EmptyString => EmptyString
  | String c rest => if Ascii.eqb c Chars.tab then rest else line
  end.

(** Number of bytes in front of the first [=] (all of them if there is none). *)
Fixpoint eq_index (s : string) : nat :=
  match s with
  | EmptyString => 0
  | String c rest => if Ascii.eqb c Chars.equals then 0 else S (eq_index rest)
  end.

Fixpoint string_drop (n : nat) (s : string) : string :=
  match n, s with
  | S k, String _ rest => string_drop k rest
  | _, _ => s
  end.

(** What follows the first occurrence of [pat] in [s]. *)
Fixpoint after_first (pat s : string) : option string :=
  if starts_with pat s then Some (string_drop (String.length pat) s)
  else match s with
       | EmptyString => None
       | String _ rest => after_first pat rest
       end.

(** What precedes the first occurrence of [pat] in [s]. *)
Fixpoint before_first (pat s : string) : option string :=
  if starts_with pat s then Some EmptyString
  else match s with
       | EmptyString => None
       | String c rest => String c <$> before_first pat rest
       end.

(** The text of the first element of [doc] that opens with the tag
    [open] and is closed by [close]. *)
Definition element_text (open close doc : string) : option string :=
  after_first open doc ≫= before_first close.

(** Lines by their classification. *)
Definition is_folder_line (line : string) : bool :=
  String.eqb (GetLinePropertyName line) "#FOLDER".

Definition is_note_line (line : string) : bool :=
  String.eqb (GetLinePropertyName line) "#NOTE".

Definition is_trash_line (line : string) : bool :=
  String.eqb (GetLinePropertyName line) "TRASH FOLDER"
  && String.eqb (GetLinePropertyValue line) "YES".

(** A folder block whose header carries [TRASH FOLDER=YES]: the [#FOLDER]
    line, header lines, the trash line, and whatever the folder holds up
    to the next [#FOLDER] line. *)
Definition trashed_block (block : list string) : Prop :=
  exists folder header trash body,
    block = folder :: header ++ trash :: body
    /\ is_folder_line folder = true
    /\ Forall (fun l => is_folder_line l = false /\ is_note_line l = false) header
    /\ is_trash_line trash = true
    /\ Forall (fun l => is_folder_line l = false) body.

(** A folder block without any [TRASH FOLDER=YES] line. *)
Definition untrashed_block (block : list string) : Prop :=
  exists folder rest,
    block = folder :: rest
    /\ is_folder_line folder = true
    /\ Forall (fun l => is_folder_line l = false /\ is_trash_line l = false) rest.

(** Two notes that agree on identifier, title and body. *)
Definition same_record (n n' : Note) : Prop :=
  uid_ n = uid_ n' /\ title_ n = title_ n' /\ note_ n = note_ n'.

(** The paths at which [WriteFiles] creates a file for [notes]. *)
Definition created_paths (can_create : string -> bool) (options : Options)
           (notes : list Note) : gset string :=
  list_to_set
    (out_fname options <$>
       filter (fun n => negb (is_empty (note_ n)) && can_create (out_fname options n) = true)
              notes).

(** The tag elements [AsTomboyNote] emits, one per tag. *)
Definition tag_element (options : Options) (tag : string) : string :=
  tb +:+ tb +:+ "<tag>" +:+
  (if convert_tags_to_notebooks options then "system:notebook:" else EmptyString) +:+
  EscapeXml tag +:+ "</tag>" +:+ nl.

Fixpoint concat_strings (l : list string) : string :=
  match l with
  | [] => EmptyString
  | s :: rest => s +:+ concat_strings rest
  end.

(** What [AsTomboyNote] emits in front of the tag elements, and behind them. *)
Definition document_head (format_ptime : ptime -> string) (n : Note) : string :=
  let datestr := format_ptime (creation_time_ n) in
  "<note version=" +:+ dq +:+ "0.3" +:+ dq +:+
  " xmlns:link=" +:+ dq +:+ "http://beatniksoftware.com/tomboy/link" +:+ dq +:+
  " xmlns:size=" +:+ dq +:+ "http://beatniksoftware.com/tomboy/size" +:+ dq +:+
  " xmlns=" +:+ dq +:+ "http://beatniksoftware.com/tomboy" +:+ dq +:+ ">" +:+ nl +:+
  tb +:+ "<title>" +:+ EscapeXml (title_ n) +:+ "</title>" +:+ nl +:+
  tb +:+ "<text xml:space=" +:+ dq +:+ "preserve" +:+ dq +:+
  "><note-content version=" +:+ dq +:+ "0.1" +:+ dq +:+ ">" +:+
  EscapeXml (note_ n) +:+ "</note-content></text>" +:+ nl +:+
  tb +:+ "<last-change-date>" +:+ datestr +:+ "</last-change-date>" +:+ nl +:+
  tb +:+ "<last-metadata-change-date>" +:+ datestr +:+
  "</last-metadata-change-date>" +:+ nl +:+
  tb +:+ "<create-date>" +:+ datestr +:+ "</create-date>" +:+ nl +:+
  tb +:+ "<tags>" +:+ nl.

Definition document_tail : string :=
  tb +:+ "</tags>" +:+ nl +:+
  tb +:+ "<cursor-position>0</cursor-position>" +:+ nl +:+
  tb +:+ "<width>450</width>" +:+ nl +:+
  tb +:+ "<height>360</height>" +:+ nl +:+
  tb +:+ "<x>0</x>" +:+ nl +:+
  tb +:+ "<y>0</y>" +:+ nl +:+
  tb +:+ "<open-on-startup>False</open-on-startup>" +:+ nl +:+
  "</note>" +:+ nl.

(** Two runs that fail alike or succeed with related results. *)
Definition Result_rel {A B : Type} (R : A -> B -> Prop)
           (r1 : Result A) (r2 : Result B) : Prop :=
  match r1, r2 with
  | Ok a, Ok b => R a b
  | Fail f, Fail g => f = g
  | _, _ => False
  end.

(** Number of lines that satisfy [p]. *)
Fixpoint count_lines (p : string -> bool) (lines : list string) : nat :=
  match lines with
  | [] => 0
  | l :: rest => (if p l then 1 else 0) + count_lines p rest
  end.

(** The state once the trash test of the loop body has been made. *)
Definition enter_trash (line : string) (st : ParseState) : ParseState :=
  if is_trash_line line then set_in_trash true st else st.

(** [in_trash && !options_.export_trash] *)
Definition skipping (options : Options) (st : ParseState) : bool :=
  in_trash st && negb (export_trash options).

Definition has_prop (name line : string) : bool :=
  String.eqb (GetLinePropertyName line) name.

(** The note a [#NOTE] line appends while the current folder is [folder]. *)
Definition fresh_note (options : Options) (folder : string) : Note :=
  let n := if is_empty (default_tag options) then Note_new
           else AddTag (default_tag options) Note_new in
  if is_empty folder then n else AddTag folder n.

(** The successful passes through the loop body, one constructor per
    path. *)
Inductive Step (lexical_cast_uint32 : string -> option Z) (options : Options)
          (st : ParseState) (line : string) : ParseState -> Prop :=
| Step_folder :
    is_folder_line line = true ->
    Step lexical_cast_uint32 options st line (set_in_trash false (set_in_folder true st))
| Step_skip :
    is_folder_line line = false ->
    skipping options (enter_trash line st) = true ->
    Step lexical_cast_uint32 options st line (enter_trash line st)
| Step_note :
    is_folder_line line = false ->
    skipping options (enter_trash line st) = false ->
    is_note_line line = true ->
    Step lexical_cast_uint32 options st line
         (set_notes (notes_ st ++ [fresh_note options (current_folder_name st)])
                    (set_in_folder false (enter_trash line st)))
| Step_uid init n :
    is_folder_line line = false ->
    skipping options (enter_trash line st) = false ->
    is_note_line line = false ->
    in_folder st = false ->
    has_prop "UNIQUEID" line = true ->
    notes_ st = init ++ [n] ->
    Step lexical_cast_uint32 options st line
         (set_notes (init ++ [SetUid (GetLinePropertyValue line) n]) (enter_trash line st))
| Step_folder_name tok :
    is_folder_line line = false ->
    skipping options (enter_trash line st) = false ->
    is_note_line line = false ->
    in_folder st = true ->
    has_prop "NAME" line = true ->
    tokens_begin stx_separator (GetLinePropertyValue line) = Some tok ->
    Step lexical_cast_uint32 options st line
         (set_current_folder_name tok (enter_trash line st))
| Step_name init n :
    is_folder_line line = false ->
    skipping options (enter_trash line st) = false ->
    is_note_line line = false ->
    in_folder st = false ->
    has_prop "NAME" line = true ->
    notes_ st = init ++ [n] ->
    Step lexical_cast_uint32 options st line
         (set_notes (init ++ [SetNote (ParseNote (GetLinePropertyValue line))
                                (SetTitle (ParseNoteTitle (GetLinePropertyValue line)) n)])
                    (enter_trash line st))
| Step_created init n date_val :
    is_folder_line line = false ->
    skipping options (enter_trash line st) = false ->
    is_note_line line = false ->
    has_prop "CREATED" line = true ->
    lexical_cast_uint32 (GetLinePropertyValue line) = Some date_val ->
    notes_ st = init ++ [n] ->
    Step lexical_cast_uint32 options st line
         (set_notes (init ++ [SetCreationTimeFromUnixTime date_val n]) (enter_trash line st))
| Step_other :
    is_folder_line line = false ->
    skipping options (enter_trash line st) = false ->
    is_note_line line = false ->
    has_prop "UNIQUEID" line = false \/ in_folder st = true ->
    has_prop "NAME" line = false ->
    has_prop "CREATED" line = false ->
    Step lexical_cast_uint32 options st line (enter_trash line st).

(** Two loop states with the same flags whose notes agree on identifier,
    title and body. *)
Definition same_parse (st1 st2 : ParseState) : Prop :=
  in_folder st1 = in_folder st2
  /\ in_trash st1 = in_trash st2
  /\ Forall2 same_record (notes_ st1) (notes_ st2).

(** The options [main] starts from when no option is given. *)
Definition default_options (input output : string) : Options :=
  {| default_tag := EmptyString; export_trash := false;
     input := input; output := output; convert_tags_to_notebooks := false |}.

(** ** Worked inputs *)

Module Example.

Definition stx : string := str1 Chars.stx.

(** The export of the soup scenario. *)
Definition soup_input : string :=
  "#FOLDER" +:+ nl +:+
  "NAME=Recipes" +:+ stx +:+ nl +:+
  "#NOTE" +:+ nl +:+
  "UNIQUEID=abc123" +:+ nl +:+
  "NAME=Soup" +:+ stx +:+ "Boil" +:+ stx +:+ stx +:+ "Serve" +:+ nl +:+
  "CREATED=1000000000" +:+ nl.

(** The note the parser makes of it. *)
Definition soup_note : Note :=
  {| title_ := "Soup";
     note_ := "Soup" +:+ stx +:+ "Boil" +:+ nl +:+ "Serve";
     creation_time_ := local_of_time_t 1000000000;
     tags_ := ["Recipes"];
     uid_ := "abc123" |}.

Definition note_content_open : string :=
  "<note-content version=" +:+ dq +:+ "0.1" +:+ dq +:+ ">".

(** A trashed folder with one note, and a folder with two. *)
Definition trashed_lines : list string :=
  ["#FOLDER"; tb +:+ "NAME=Trash"; tb +:+ "TRASH FOLDER=YES";
   "#NOTE"; tb +:+ "UNIQUEID=t1"; tb +:+ "NAME=Old"].

Definition normal_lines : list string :=
  ["#FOLDER"; tb +:+ "NAME=Work";
   "#NOTE"; tb +:+ "UNIQUEID=w1"; tb +:+ "NAME=Plan";
   "#NOTE"; tb +:+ "UNIQUEID=w2"; tb +:+ "NAME=Todo"].

Definition normal_notes : list Note :=
  [ {| title_ := "Plan"; note_ := "Plan"; creation_time_ := not_a_date_time;
       tags_ := ["Work"]; uid_ := "w1" |};
    {| title_ := "Todo"; note_ := "Todo"; creation_time_ := not_a_date_time;
       tags_ := ["Work"]; uid_ := "w2" |} ].

(** The file whose lines are [lines]. *)
Fixpoint unlines (lines : list string) : string :=
  match lines with
  | [] => EmptyString
  | l :: rest => l +:+ nl +:+ unlines rest
  end.

Definition options : Options := default_options "notes.adr" "exported".

End Example.

(** ** Vocabulary of further statements *)

(** [parts] with [sep] between neighbours. *)
Fixpoint join_with (sep : string) (parts : list string) : string :=
  match parts with
  | [] => EmptyString
  | p :: rest =>
      match rest with
      | [] => p
      | _ :: _ => p +:+ sep +:+ join_with sep rest
      end
  end.

(** The document around an escaped title and an escaped body: the text
    [AsTomboyNote] emits up to the end of the [text] element, then [rest]. *)
Definition document_layout (title body rest : string) : string :=
  "<note version=" +:+ dq +:+ "0.3" +:+ dq +:+
  " xmlns:link=" +:+ dq +:+ "http://beatniksoftware.com/tomboy/link" +:+ dq +:+
  " xmlns:size=" +:+ dq +:+ "http://beatniksoftware.com/tomboy/size" +:+ dq +:+
  " xmlns=" +:+ dq +:+ "http://beatniksoftware.com/tomboy" +:+ dq +:+ ">" +:+ nl +:+
  tb +:+ "<title>" +:+ title +:+ "</title>" +:+ nl +:+
  tb +:+ "<text xml:space=" +:+ dq +:+ "preserve" +:+ dq +:+
  "><note-content version=" +:+ dq +:+ "0.1" +:+ dq +:+ ">" +:+
  body +:+ "</note-content></text>" +:+ nl +:+ rest.

(** What [AsTomboyNote] emits behind the [text] element. *)
Definition document_rest (format_ptime : ptime -> string) (options : Options)
           (n : Note) : string :=
  let datestr := format_ptime (creation_time_ n) in
  tb +:+ "<last-change-date>" +:+ datestr +:+ "</last-change-date>" +:+ nl +:+
  tb +:+ "<last-metadata-change-date>" +:+ datestr +:+
  "</last-metadata-change-date>" +:+ nl +:+
  tb +:+ "<create-date>" +:+ datestr +:+ "</create-date>" +:+ nl +:+
  tb +:+ "<tags>" +:+ nl +:+
  concat_strings (tag_element options <$> tags_ n) +:+ document_tail.

(** The tags a note gets from the default tag and the folder [folder]. *)
Definition note_tags (options : Options) (folder : string) : list string :=
  (if is_empty (default_tag options) then [] else [default_tag options])
  ++ (if is_empty folder then [] else [folder]).

(** Two loop states that differ at most in the trash flag. *)
Definition same_but_trash (st1 st2 : ParseState) : Prop :=
  notes_ st1 = notes_ st2
  /\ current_folder_name st1 = current_folder_name st2
  /\ in_folder st1 = in_folder st2.

(** Whether [CreateTomboyNote] writes a file for [n]. *)
Definition written (can_create : string -> bool) (options : Options) (n : Note) : bool :=
  negb (is_empty (note_ n)) && can_create (out_fname options n).

(** ** Vocabulary of the statements on files and timestamps *)

(** [<output>/<uid>.note], the file a note with identifier [uid] belongs in. *)
Definition note_path (options : Options) (uid : string) : string :=
  output options +:+ "/" +:+ uid +:+ ".note".

(** A note with a body, an identifier and a file that can be created. *)
Definition well_formed (can_create : string -> bool) (options : Options) (n : Note) : bool :=
  negb (is_empty (note_ n)) && negb (is_empty (uid_ n))
  && can_create (note_path options (uid_ n)).

(** Whether [c] is one of the digits [0] to [9]. *)
Definition is_digit (c : ascii) : bool :=
  match Host.digit c with Some _ => true | None => false end.

Fixpoint all_digits (s : string) : bool :=
  match s with
  | EmptyString => true
  | String c rest => is_digit c && all_digits rest
  end.

(** The number a string of digits denotes, digit by position. *)
Fixpoint positional_value (s : string) : Z :=
  match s with
  | EmptyString => 0
  | String c rest =>
      ((Z.of_nat (nat_of_ascii c) - 48) * 10 ^ Z.of_nat (String.length rest)
       + positional_value rest)%Z
  end.

(** An unsigned decimal integer representable in 32 bits: one or more
    digits that denote a number below [2^32]. *)
Definition is_uint32_decimal (s : string) : bool :=
  negb (is_empty s) && all_digits s && (positional_value s <? 2 ^ 32)%Z.

(** Such an integer behind an optional sign. *)
Definition signed_uint32_decimal (v : string) : Prop :=
  exists sign digits,
    v = sign +:+ digits
    /\ (sign = EmptyString \/ sign = "+" \/ sign = "-")
    /\ is_uint32_decimal digits = true.

(** No [NAME] line ahead of the first [#NOTE] line of [lines]. *)
Fixpoint no_name_before_note (lines : list string) : bool :=
  match lines with
  | [] => true
  | l :: rest =>
      if is_note_line l then true
      else negb (has_prop "NAME" l) && no_name_before_note rest
  end.

(** Two further inputs: a folder whose two notes share an identifier, and
    a folder whose note carries a timestamp that cannot be read. *)
Module Scenario.

Definition shared_uid_lines : list string :=
  ["#FOLDER"; tb +:+ "NAME=Work";
   "#NOTE"; tb +:+ "UNIQUEID=w1"; tb +:+ "NAME=Plan";
   "#NOTE"; tb +:+ "UNIQUEID=w1"; tb +:+ "NAME=Todo"].

Definition shared_uid_notes : list Note :=
  [ {| title_ := "Plan"; note_ := "Plan"; creation_time_ := not_a_date_time;
       tags_ := ["Work"]; uid_ := "w1" |};
    {| title_ := "Todo"; note_ := "Todo"; creation_time_ := not_a_date_time;
       tags_ := ["Work"]; uid_ := "w1" |} ].

Definition record_lines : list string :=
  ["#NOTE"; tb +:+ "UNIQUEID=w1"; tb +:+ "NAME=Plan"].

Definition record_note : Note :=
  {| title_ := "Plan"; note_ := "Plan"; creation_time_ := not_a_date_time;
     tags_ := []; uid_ := "w1" |}.

End Scenario.

(** * Properties *)

(** ** Strings *)

#[local] Arguments String.append : simpl nomatch.

Section StringFacts.

Lemma append_nil_r (s : string) : s +:+ EmptyString = s.
Proof. induction s as [|c s IH]; simpl; [reflexivity | now rewrite IH]. Qed.

Lemma append_assoc (a b c : string) : (a +:+ b) +:+ c = a +:+ (b +:+ c).
Proof. induction a as [|x a IH]; simpl; [reflexivity | now rewrite IH]. Qed.

Lemma append_length (a b : string) :
  String.length (a +:+ b) = String.length a + String.length b.
Proof. induction a as [|x a IH]; simpl; [reflexivity | now rewrite IH]. Qed.

Lemma append_snoc (a : string) (c : ascii) (b : string) :
  a +:+ String c b = (a +:+ str1 c) +:+ b.
Proof. now rewrite append_assoc. Qed.

Lemma get_end (a : string) : String.get (String.length a) a = None.
Proof. induction a as [|x a IH]; simpl; [reflexivity | exact IH]. Qed.

Lemma get_middle (a : string) (c : ascii) (b : string) :
  String.get (String.length a) (a +:+ String c b) = Some c.
Proof. induction a as [|x a IH]; simpl; [reflexivity | exact IH]. Qed.

Lemma substring_all (s : string) (m : nat) :
  String.length s <= m -> String.substring 0 m s = s.
Proof.
  revert m; induction s as [|x s IH]; intros [|m] Hm; simpl in *;
    try reflexivity; try lia.
  rewrite IH by lia; reflexivity.
Qed.

Lemma substring_skip (a b : string) (m : nat) :
  String.substring (String.length a) m (a +:+ b) = String.substring 0 m b.
Proof.
  induction a as [|x a IH]; simpl; [reflexivity|].
  rewrite IH. reflexivity.
Qed.

Lemma substring_take (a b : string) :
  String.substring 0 (String.length a) (a +:+ b) = a.
Proof.
  induction a as [|x a IH]; simpl.
  - destruct b; reflexivity.
  - now rewrite IH.
Qed.

Lemma is_empty_true (s : string) : is_empty s = true <-> s = EmptyString.
Proof. destruct s; simpl; split; congruence. Qed.

Lemma is_empty_false (s : string) : is_empty s = false <-> s <> EmptyString.
Proof. destruct s; simpl; split; congruence. Qed.

End StringFacts.

(** ** [EscapeXml] *)

Section Escaping.

Lemma EscapeXml_loop_buffer (str buffer : string) :
  EscapeXml_loop str buffer = buffer +:+ EscapeXml str.
Proof.
  unfold EscapeXml. revert buffer.
  induction str as [|c str IH]; intros buffer; simpl.
  - now rewrite append_nil_r.
  - rewrite (IH (escape_case c)), IH, append_assoc. reflexivity.
Qed.

Lemma EscapeXml_cons (c : ascii) (s : string) :
  EscapeXml (String c s) = escape_case c +:+ EscapeXml s.
Proof. unfold EscapeXml at 1; simpl. apply EscapeXml_loop_buffer. Qed.

Lemma EscapeXml_app (a b : string) :
  EscapeXml (a +:+ b) = EscapeXml a +:+ EscapeXml b.
Proof.
  induction a as [|c a IH]; [reflexivity|].
  simpl. rewrite !EscapeXml_cons, IH, append_assoc. reflexivity.
Qed.

Lemma escape_case_other (c : ascii) :
  c <> "&"%char -> c <> Chars.dquote -> c <> "'"%char -> c <> "<"%char -> c <> ">"%char ->
  escape_case c = str1 c.
Proof.
  intros H1 H2 H3 H4 H5. unfold escape_case.
  repeat match goal with
         | |- context [Ascii.eqb c ?d] =>
             destruct (Ascii.eqb_spec c d); [congruence|]
         end.
  reflexivity.
Qed.

Lemma prefix_other_head (p : string) (a c : ascii) (t : string) :
  c <> a -> starts_with (String a p) (String c t) = false.
Proof. intros Hne. simpl. destruct (Ascii.eqb_spec a c); [congruence | reflexivity]. Qed.

(** Reading back what one byte was turned into yields that byte. *)
Lemma UnescapeXml_entity (c : ascii) (t : string) :
  UnescapeXml_from 0 (escape_case c +:+ t) = String c (UnescapeXml_from 0 t).
Proof.
  unfold escape_case.
  repeat match goal with
         | |- context [Ascii.eqb c ?d] =>
             destruct (Ascii.eqb_spec c d); [subst c; reflexivity|]
         end.
  unfold str1. cbn [String.append UnescapeXml_from].
  rewrite !prefix_other_head by assumption. reflexivity.
Qed.

Lemma UnescapeXml_EscapeXml (s : string) : UnescapeXml (EscapeXml s) = s.
Proof.
  unfold UnescapeXml. induction s as [|c s IH]; [reflexivity|].
  rewrite EscapeXml_cons, UnescapeXml_entity, IH. reflexivity.
Qed.

(** C5: [EscapeXml] turns each of the five special bytes into its entity
    wherever it stands, leaves every other byte as it is and where it
    is, and mapping the five entities back recovers the input, for every
    string. *)
Theorem EscapeXml_entities_roundtrip :
  (forall a b, EscapeXml (a +:+ "&" +:+ b) = EscapeXml a +:+ "&amp;" +:+ EscapeXml b)
  /\ (forall a b, EscapeXml (a +:+ dq +:+ b) = EscapeXml a +:+ "&quot;" +:+ EscapeXml b)
  /\ (forall a b, EscapeXml (a +:+ "'" +:+ b) = EscapeXml a +:+ "&apos;" +:+ EscapeXml b)
  /\ (forall a b, EscapeXml (a +:+ "<" +:+ b) = EscapeXml a +:+ "&lt;" +:+ EscapeXml b)
  /\ (forall a b, EscapeXml (a +:+ ">" +:+ b) = EscapeXml a +:+ "&gt;" +:+ EscapeXml b)
  /\ (forall a c b,
         c <> "&"%char -> c <> Chars.dquote -> c <> "'"%char -> c <> "<"%char -> c <> ">"%char ->
         EscapeXml (a +:+ str1 c +:+ b) = EscapeXml a +:+ str1 c +:+ EscapeXml b)
  /\ (forall s, UnescapeXml (EscapeXml s) = s).
Proof.
  repeat split; intros;
    try (rewrite !EscapeXml_app; reflexivity);
    try apply UnescapeXml_EscapeXml.
  rewrite EscapeXml_app. unfold str1 at 1. simpl String.append at 2.
  rewrite EscapeXml_cons, escape_case_other by assumption. reflexivity.
Qed.

Lemma EscapeXml_entities_roundtrip_witness :
  EscapeXml ("a" +:+ str1 "b" +:+ "<c>") = EscapeXml "a" +:+ str1 "b" +:+ EscapeXml "<c>"
  /\ UnescapeXml (EscapeXml ("<a href=" +:+ dq +:+ "x&y" +:+ dq +:+ ">'</a>"))
     = "<a href=" +:+ dq +:+ "x&y" +:+ dq +:+ ">'</a>".
Proof.
  destruct EscapeXml_entities_roundtrip as (_ & _ & _ & _ & _ & Hother & Hback).
  split.
  - apply (Hother "a" "b"%char "<c>"); discriminate.
  - apply Hback.
Defined.

End Escaping.

(** ** The line classifier *)

Section LineClassifier.

Lemma value_scan_spec (b a : string) (fuel : nat) :
  String.length b <= fuel ->
  value_scan fuel (a +:+ b) (String.length a) = String.length a + eq_index b.
Proof.
  revert a fuel. induction b as [|c b IH]; intros a fuel Hfuel.
  - rewrite append_nil_r. destruct fuel; simpl; [lia|].
    rewrite get_end. lia.
  - destruct fuel as [|fuel]; simpl in Hfuel; [lia|].
    simpl. rewrite get_middle.
    destruct (Ascii.eqb c Chars.equals); [lia|].
    rewrite append_snoc.
    replace (S (String.length a)) with (String.length (a +:+ str1 c))
      by (rewrite append_length; simpl; lia).
    rewrite IH by lia. rewrite append_length. simpl. lia.
Qed.

Lemma name_scan_spec (b a : string) (fuel begin len : nat) :
  String.length a = begin + len ->
  String.length b <= fuel ->
  name_scan fuel (a +:+ b) begin len = len + eq_index b.
Proof.
  revert a fuel len. induction b as [|c b IH]; intros a fuel len Ha Hfuel.
  - rewrite append_nil_r. destruct fuel; simpl; [lia|].
    rewrite <- Ha, get_end. lia.
  - destruct fuel as [|fuel]; simpl in Hfuel; [lia|].
    simpl. rewrite <- Ha, get_middle.
    destruct (Ascii.eqb c Chars.equals); [lia|].
    rewrite append_snoc, IH.
    + lia.
    + rewrite append_length. simpl. lia.
    + lia.
Qed.

Lemma eq_index_none (s : string) :
  has_byte Chars.equals s = false -> eq_index s = String.length s.
Proof.
  induction s as [|c s IH]; simpl; [reflexivity|].
  destruct (Ascii.eqb c Chars.equals); simpl; [discriminate|].
  intros H. now rewrite IH.
Qed.

Lemma eq_index_first (pre post : string) :
  has_byte Chars.equals pre = false ->
  eq_index (pre +:+ String Chars.equals post) = String.length pre.
Proof.
  induction pre as [|c pre IH]; simpl; [reflexivity|].
  destruct (Ascii.eqb c Chars.equals); simpl; [discriminate|].
  intros H. now rewrite IH.
Qed.

Lemma value_without_equals (line : string) :
  has_byte Chars.equals line = false -> GetLinePropertyValue line = EmptyString.
Proof.
  intros H. unfold GetLinePropertyValue.
  rewrite (value_scan_spec line EmptyString) by lia.
  rewrite eq_index_none by assumption. simpl.
  destruct (Nat.leb_spec (String.length line) (S (String.length line)));
    [reflexivity | lia].
Qed.

Lemma name_without_equals (line : string) :
  has_byte Chars.equals line = false -> GetLinePropertyName line = strip_tab line.
Proof.
  intros H. destruct line as [|c rest]; [reflexivity|].
  unfold GetLinePropertyName, strip_tab, substr.
  cbn [is_empty String.get].
  destruct (Ascii.eqb c Chars.tab) eqn:Htab.
  - simpl in H. apply orb_false_elim in H as [_ H].
    change (String c rest) with (str1 c +:+ rest).
    rewrite (name_scan_spec rest (str1 c)) by (simpl; lia).
    rewrite eq_index_none by assumption. simpl.
    apply substring_all. lia.
  - rewrite (name_scan_spec (String c rest) EmptyString) by (simpl; lia).
    rewrite eq_index_none by assumption.
    apply substring_all. simpl. lia.
Qed.

Lemma value_after_equals (pre post : string) :
  has_byte Chars.equals pre = false ->
  GetLinePropertyValue (pre +:+ String Chars.equals post) = post.
Proof.
  intros H. unfold GetLinePropertyValue, substr.
  rewrite (value_scan_spec (pre +:+ String Chars.equals post) EmptyString) by lia.
  rewrite eq_index_first by assumption.
  change (String.length EmptyString + String.length pre) with (String.length pre).
  assert (Hlen : String.length (pre +:+ String Chars.equals post)
                 = S (String.length pre) + String.length post).
  { rewrite append_length. simpl. lia. }
  rewrite Hlen.
  destruct (Nat.leb_spec (S (String.length pre) + String.length post)
                         (S (String.length pre))) as [Hle|Hgt].
  - destruct post; simpl in *; [reflexivity | lia].
  - rewrite append_snoc.
    replace (S (String.length pre)) with (String.length (pre +:+ str1 Chars.equals))
      by (rewrite append_length; simpl; lia).
    rewrite substring_skip. apply substring_all. lia.
Qed.

(** C6: a line without [=] has the empty value and, as its name, the
    line without its one leading tab; the empty line has the empty
    name; a line with [=] has as value what follows the first [=]. *)
Theorem line_classifier_split :
  (forall line, has_byte Chars.equals line = false ->
      GetLinePropertyValue line = EmptyString
      /\ GetLinePropertyName line = strip_tab line)
  /\ GetLinePropertyName EmptyString = EmptyString
  /\ (forall pre post, has_byte Chars.equals pre = false ->
        GetLinePropertyValue (pre +:+ String Chars.equals post) = post).
Proof.
  split; [|split].
  - intros line H. split;
      [apply value_without_equals | apply name_without_equals]; assumption.
  - reflexivity.
  - apply value_after_equals.
Qed.

Lemma line_classifier_split_witness :
  (GetLinePropertyValue (tb +:+ "#NOTE") = EmptyString
   /\ GetLinePropertyName (tb +:+ "#NOTE") = "#NOTE")
  /\ GetLinePropertyValue ((tb +:+ "NAME") +:+ String Chars.equals "a=b") = "a=b".
Proof.
  destruct line_classifier_split as (Hnone & _ & Hsome).
  split.
  - apply (Hnone (tb +:+ "#NOTE")). reflexivity.
  - apply (Hsome (tb +:+ "NAME") "a=b"). reflexivity.
Defined.

End LineClassifier.

(** ** Tokens of a [NAME] value *)

Section Tokens.

Lemma is_dropped_stx (c : ascii) :
  is_dropped stx_separator c = Ascii.eqb c Chars.stx.
Proof. simpl. apply orb_false_r. Qed.

Lemma tokens_begin_only_stx (v : string) :
  only_stx v = true -> tokens_begin stx_separator v = None.
Proof.
  unfold tokens_begin. induction v as [|c v IH]; [reflexivity|].
  cbn [only_stx skip_dropped]. rewrite is_dropped_stx.
  destruct (Ascii.eqb c Chars.stx); [exact IH | discriminate].
Qed.

Lemma skip_dropped_lead (lead s : string) :
  only_stx lead = true ->
  skip_dropped stx_separator (lead +:+ s) = skip_dropped stx_separator s.
Proof.
  induction lead as [|c lead IH]; [reflexivity|].
  cbn [only_stx String.append skip_dropped]. rewrite is_dropped_stx.
  destruct (Ascii.eqb c Chars.stx); [exact IH | discriminate].
Qed.

Lemma take_token_stops (tok rest : string) :
  has_byte Chars.stx tok = false ->
  rest = EmptyString \/ starts_with stx_separator rest = true ->
  take_token stx_separator (tok +:+ rest) = tok.
Proof.
  intros Htok Hrest. induction tok as [|c tok IH].
  - destruct Hrest as [->|Hrest]; [reflexivity|].
    destruct rest as [|d rest]; [reflexivity|].
    cbn [String.append take_token]. rewrite is_dropped_stx.
    unfold stx_separator, str1 in Hrest. cbn [starts_with] in Hrest.
    rewrite Ascii.eqb_sym.
    destruct (Ascii.eqb Chars.stx d); [reflexivity | discriminate].
  - cbn [has_byte] in Htok. apply orb_false_elim in Htok as [Hc Htok].
    cbn [String.append take_token]. rewrite is_dropped_stx, Hc, IH by assumption.
    reflexivity.
Qed.

Lemma tokens_begin_first (lead tok rest : string) :
  only_stx lead = true ->
  tok <> EmptyString ->
  has_byte Chars.stx tok = false ->
  rest = EmptyString \/ starts_with stx_separator rest = true ->
  tokens_begin stx_separator (lead +:+ tok +:+ rest) = Some tok.
Proof.
  intros Hlead Hne Htok Hrest. unfold tokens_begin.
  rewrite skip_dropped_lead by assumption.
  destruct tok as [|c tok]; [congruence|].
  pose proof Htok as Hc. cbn [has_byte] in Hc.
  apply orb_false_elim in Hc as [Hc _].
  cbn [String.append skip_dropped]. rewrite is_dropped_stx, Hc.
  change (String c (tok +:+ rest)) with (String c tok +:+ rest).
  rewrite take_token_stops by assumption. reflexivity.
Qed.

(** Every value either holds STX bytes only or has a first token. *)
Lemma value_shape (v : string) :
  only_stx v = true
  \/ exists lead tok rest,
       v = lead +:+ tok +:+ rest
       /\ only_stx lead = true /\ tok <> EmptyString
       /\ has_byte Chars.stx tok = false
       /\ (rest = EmptyString \/ starts_with stx_separator rest = true).
Proof.
  assert (Hsplit : forall s, exists tok rest,
             s = tok +:+ rest /\ has_byte Chars.stx tok = false
             /\ (rest = EmptyString \/ starts_with stx_separator rest = true)).
  { induction s as [|c s (tok & rest & -> & Htok & Hrest)].
    - exists EmptyString, EmptyString. auto.
    - destruct (Ascii.eqb c Chars.stx) eqn:Hc.
      + exists EmptyString, (String c (tok +:+ rest)). repeat split.
        right. unfold stx_separator, str1. cbn [starts_with].
        rewrite Ascii.eqb_sym, Hc. reflexivity.
      + exists (String c tok), rest. repeat split; [|assumption].
        cbn [has_byte]. rewrite Hc, Htok. reflexivity. }
  induction v as [|c v IH]; [left; reflexivity|].
  destruct (Ascii.eqb_spec c Chars.stx) as [->|Hc].
  - destruct IH as [IH|(lead & tok & rest & -> & H1 & H2 & H3 & H4)].
    + left. exact IH.
    + right. exists (String Chars.stx lead), tok, rest. repeat split; assumption.
  - right. destruct (Hsplit v) as (tok & rest & -> & Htok & Hrest).
    exists EmptyString, (String c tok), rest. repeat split; try assumption.
    + discriminate.
    + cbn [has_byte]. apply Ascii.eqb_neq in Hc. rewrite Hc, Htok. reflexivity.
Qed.

End Tokens.

(** ** The last note of the vector *)

Section LastNote.

Lemma bind_Ok {A B : Type} (a : A) (k : A -> Result B) : (Ok a ≫= k) = k a.
Proof. reflexivity. Qed.

Lemma bind_Fail {A B : Type} (f : Failure) (k : A -> Result B) :
  (Fail f ≫= k) = Fail f.
Proof. reflexivity. Qed.

Lemma bind_Ok_inv {A B : Type} (r : Result A) (k : A -> Result B) (b : B) :
  (r ≫= k) = Ok b -> exists a, r = Ok a /\ k a = Ok b.
Proof. destruct r as [a|f]; [eauto | discriminate]. Qed.

Lemma at_rbegin_snoc (m : Note -> Note) (notes : list Note) (n : Note) :
  at_rbegin m (notes ++ [n]) = Ok (notes ++ [m n]).
Proof.
  induction notes as [|a notes IH]; [reflexivity|].
  change ((a :: notes) ++ [n]) with (a :: (notes ++ [n])).
  cbn [at_rbegin]. rewrite IH.
  destruct (notes ++ [n]) eqn:E; [|reflexivity].
  destruct notes; discriminate.
Qed.

Lemma at_rbegin_nil (m : Note -> Note) : at_rbegin m [] = Fail rbegin_of_empty.
Proof. reflexivity. Qed.

Lemma at_rbegin_Ok (m : Note -> Note) (notes notes' : list Note) :
  at_rbegin m notes = Ok notes' ->
  exists init n, notes = init ++ [n] /\ notes' = init ++ [m n].
Proof.
  destruct notes as [|a notes] using rev_ind; [discriminate|].
  rewrite at_rbegin_snoc. intros [= <-]. eauto.
Qed.

Lemma at_rbegin_Fail (m : Note -> Note) (notes : list Note) (f : Failure) :
  at_rbegin m notes = Fail f -> notes = [] /\ f = rbegin_of_empty.
Proof.
  destruct notes as [|a notes] using rev_ind.
  - intros [= <-]. auto.
  - rewrite at_rbegin_snoc. discriminate.
Qed.

Lemma at_rbegin_nonempty (m : Note -> Note) (notes : list Note) :
  notes <> [] -> exists notes', at_rbegin m notes = Ok notes'.
Proof.
  destruct notes as [|a notes] using rev_ind; [congruence|].
  rewrite at_rbegin_snoc. eauto.
Qed.

(** A member function that keeps [key] keeps it on the whole vector. *)
Lemma at_rbegin_fmap {K : Type} (key : Note -> K) (m : Note -> Note)
      (notes notes' : list Note) :
  (forall n, key (m n) = key n) ->
  at_rbegin m notes = Ok notes' -> key <$> notes' = key <$> notes.
Proof.
  intros Hkey H. apply at_rbegin_Ok in H as (init & n & -> & ->).
  rewrite !fmap_app. simpl. now rewrite Hkey.
Qed.

Lemma at_rbegin_length (m : Note -> Note) (notes notes' : list Note) :
  at_rbegin m notes = Ok notes' -> length notes' = length notes.
Proof.
  intros H. apply at_rbegin_Ok in H as (init & n & -> & ->).
  rewrite !length_app. reflexivity.
Qed.

(** Related vectors stay related under member functions that respect
    the relation, and fail together. *)
Lemma at_rbegin_rel (R : Note -> Note -> Prop) (m1 m2 : Note -> Note)
      (notes1 notes2 : list Note) :
  (forall a b, R a b -> R (m1 a) (m2 b)) ->
  Forall2 R notes1 notes2 ->
  Result_rel (Forall2 R) (at_rbegin m1 notes1) (at_rbegin m2 notes2).
Proof.
  intros Hm H.
  destruct notes1 as [|a notes1 _] using rev_ind.
  - apply Forall2_nil_inv_l in H as ->. reflexivity.
  - apply Forall2_app_inv_l in H as (k1 & k2 & H1 & H2 & ->).
    apply Forall2_cons_inv_l in H2 as (b & k3 & Hab & H3 & ->).
    apply Forall2_nil_inv_l in H3 as ->.
    rewrite !at_rbegin_snoc. simpl.
    apply Forall2_app; [assumption|]. constructor; [auto | constructor].
Qed.

End LastNote.

(** ** The loop body *)

Section Parser.
Variable lexical_cast_uint32 : string -> option Z.
Variable options : Options.

Lemma enter_trash_notes l st : notes_ (enter_trash l st) = notes_ st.
Proof. unfold enter_trash. destruct (is_trash_line l); reflexivity. Qed.

Lemma enter_trash_in_folder l st : in_folder (enter_trash l st) = in_folder st.
Proof. unfold enter_trash. destruct (is_trash_line l); reflexivity. Qed.

Lemma enter_trash_folder_name l st :
  current_folder_name (enter_trash l st) = current_folder_name st.
Proof. unfold enter_trash. destruct (is_trash_line l); reflexivity. Qed.

(** The loop body written over the line classes. *)
Lemma ParseLine_unfold st l :
  ParseLine lexical_cast_uint32 options st l =
  if is_folder_line l then Ok (set_in_trash false (set_in_folder true st))
  else
    let st1 := enter_trash l st in
    if skipping options st1 then Ok st1
    else if is_note_line l then
      Ok (set_notes (notes_ st ++ [fresh_note options (current_folder_name st)])
                    (set_in_folder false st1))
    else if negb (in_folder st) && has_prop "UNIQUEID" l then
      notes ← at_rbegin (SetUid (GetLinePropertyValue l)) (notes_ st);
      Ok (set_notes notes st1)
    else if has_prop "NAME" l then
      if in_folder st then
        name ← ParseFolderName (GetLinePropertyValue l);
        Ok (set_current_folder_name name st1)
      else
        notes ← at_rbegin (SetTitle (ParseNoteTitle (GetLinePropertyValue l))) (notes_ st);
        notes ← at_rbegin (SetNote (ParseNote (GetLinePropertyValue l))) notes;
        Ok (set_notes notes st1)
    else if has_prop "CREATED" l then
      match lexical_cast_uint32 (GetLinePropertyValue l) with
      | None => Fail bad_lexical_cast
      | Some date_val =>
          notes ← at_rbegin (SetCreationTimeFromUnixTime date_val) (notes_ st);
          Ok (set_notes notes st1)
      end
    else Ok st1.
Proof.
  unfold ParseLine, is_folder_line, is_note_line, has_prop, skipping.
  destruct (String.eqb (GetLinePropertyName l) "#FOLDER"); [reflexivity|].
  fold (is_trash_line l). fold (enter_trash l st).
  cbv zeta.
  rewrite ?enter_trash_notes, ?enter_trash_in_folder, ?enter_trash_folder_name.
  destruct (in_trash (enter_trash l st) && negb (export_trash options)); [reflexivity|].
  destruct (String.eqb (GetLinePropertyName l) "#NOTE"); [|reflexivity].
  cbn [notes_ set_notes set_in_folder current_folder_name].
  rewrite ?enter_trash_notes, ?enter_trash_in_folder, ?enter_trash_folder_name.
  unfold fresh_note.
  destruct (is_empty (default_tag options)), (is_empty (current_folder_name st));
    cbn [negb]; rewrite ?at_rbegin_snoc, ?bind_Ok, ?at_rbegin_snoc, ?bind_Ok; reflexivity.
Qed.

Lemma ParseLine_Step st l st' :
  ParseLine lexical_cast_uint32 options st l = Ok st' ->
  Step lexical_cast_uint32 options st l st'.
Proof.
  rewrite ParseLine_unfold. cbv zeta.
  destruct (is_folder_line l) eqn:Hfolder.
  { intros [= <-]. now constructor. }
  destruct (skipping options (enter_trash l st)) eqn:Hskip.
  { intros [= <-]. now constructor. }
  destruct (is_note_line l) eqn:Hnote.
  { intros [= <-]. now constructor. }
  destruct (in_folder st) eqn:Hin; cbn [negb andb].
  - destruct (has_prop "NAME" l) eqn:Hname.
    + intros H. apply bind_Ok_inv in H as (tok & Htok & [= <-]).
      unfold ParseFolderName in Htok.
      destruct (tokens_begin stx_separator (GetLinePropertyValue l)) eqn:E;
        [|discriminate].
      injection Htok as ->. now apply Step_folder_name.
    + destruct (has_prop "CREATED" l) eqn:Hcreated.
      * destruct (lexical_cast_uint32 (GetLinePropertyValue l)) eqn:Hcast;
          [|discriminate].
        intros H. apply bind_Ok_inv in H as (notes & Hnotes & [= <-]).
        apply at_rbegin_Ok in Hnotes as (init & n & Hinit & ->).
        now apply Step_created.
      * intros [= <-]. apply Step_other; auto.
  - destruct (has_prop "UNIQUEID" l) eqn:Huid.
    + intros H. apply bind_Ok_inv in H as (notes & Hnotes & [= <-]).
      apply at_rbegin_Ok in Hnotes as (init & n & Hinit & ->).
      now apply Step_uid.
    + destruct (has_prop "NAME" l) eqn:Hname.
      * intros H. apply bind_Ok_inv in H as (notes1 & Hnotes1 & H).
        apply bind_Ok_inv in H as (notes2 & Hnotes2 & [= <-]).
        apply at_rbegin_Ok in Hnotes1 as (init & n & Hinit & ->).
        rewrite at_rbegin_snoc in Hnotes2. injection Hnotes2 as <-.
        now apply Step_name.
      * destruct (has_prop "CREATED" l) eqn:Hcreated.
        -- destruct (lexical_cast_uint32 (GetLinePropertyValue l)) eqn:Hcast;
             [|discriminate].
           intros H. apply bind_Ok_inv in H as (notes & Hnotes & [= <-]).
           apply at_rbegin_Ok in Hnotes as (init & n & Hinit & ->).
           now apply Step_created.
        -- intros [= <-]. apply Step_other; auto.
Qed.

Lemma ParseLoop_app st pre post :
  ParseLoop lexical_cast_uint32 options st (pre ++ post) =
  (ParseLoop lexical_cast_uint32 options st pre
     ≫= fun st' => ParseLoop lexical_cast_uint32 options st' post).
Proof.
  revert st. induction pre as [|l pre IH]; intros st; [reflexivity|].
  cbn [app ParseLoop].
  destruct (ParseLine lexical_cast_uint32 options st l) as [st1|f]; [|reflexivity].
  rewrite !bind_Ok. apply IH.
Qed.

Lemma ParseLoop_cons st l rest :
  ParseLoop lexical_cast_uint32 options st (l :: rest) =
  (ParseLine lexical_cast_uint32 options st l
     ≫= fun st' => ParseLoop lexical_cast_uint32 options st' rest).
Proof. reflexivity. Qed.

(** An invariant of the successful steps holds along the loop. *)
Lemma ParseLoop_ind (P : ParseState -> ParseState -> Prop) :
  (forall st, P st st) ->
  (forall st l st' st'',
      Step lexical_cast_uint32 options st l st' -> P st' st'' -> P st st'') ->
  forall lines st st',
    ParseLoop lexical_cast_uint32 options st lines = Ok st' -> P st st'.
Proof.
  intros Hrefl Hstep. induction lines as [|l lines IH]; intros st st' H.
  - injection H as <-. apply Hrefl.
  - rewrite ParseLoop_cons in H. apply bind_Ok_inv in H as (st1 & H1 & H2).
    eapply Hstep; [apply ParseLine_Step; eassumption | eauto].
Qed.

End Parser.

(** ** The [NAME] handler of a note *)

Section NoteTitle.

Lemma has_prop_other (name name' line : string) :
  has_prop name line = true -> has_prop name' line = String.eqb name name'.
Proof. unfold has_prop. intros H. apply String.eqb_eq in H. now rewrite H. Qed.

Lemma has_prop_classes (name line : string) :
  has_prop name line = true ->
  is_folder_line line = String.eqb name "#FOLDER"
  /\ is_note_line line = String.eqb name "#NOTE"
  /\ is_trash_line line
     = String.eqb name "TRASH FOLDER" && String.eqb (GetLinePropertyValue line) "YES".
Proof.
  intros H. unfold is_folder_line, is_note_line, is_trash_line.
  fold (has_prop "#FOLDER" line) (has_prop "#NOTE" line) (has_prop "TRASH FOLDER" line).
  rewrite !(has_prop_other name) by assumption. auto.
Qed.

Lemma ParseLine_name (lexical_cast_uint32 : string -> option Z) (options : Options)
      (st : ParseState) (line : string) (init : list Note) (n : Note) :
  has_prop "NAME" line = true ->
  in_folder st = false ->
  skipping options st = false ->
  notes_ st = init ++ [n] ->
  ParseLine lexical_cast_uint32 options st line =
  Ok (set_notes
        (init ++ [SetNote (ParseNote (GetLinePropertyValue line))
                    (SetTitle (ParseNoteTitle (GetLinePropertyValue line)) n)])
        st).
Proof.
  intros Hname Hin Hskip Hnotes. rewrite ParseLine_unfold.
  destruct (has_prop_classes _ _ Hname) as (-> & -> & Htrash).
  unfold enter_trash. rewrite Htrash.
  rewrite (has_prop_other _ "UNIQUEID" _ Hname), Hname.
  cbn -[GetLinePropertyValue at_rbegin]. rewrite Hskip, Hin, Hnotes.
  cbn [negb andb]. rewrite at_rbegin_snoc, bind_Ok, at_rbegin_snoc. reflexivity.
Qed.

(** C4, as the program has it: outside a folder header a [NAME] line
    gives the current note the title [ParseNoteTitle] of the value, and
    that title is the first token, the first non-empty run of non-STX
    bytes, leading STX bytes being passed over; it is the placeholder
    when the value has no token, which is when it holds STX bytes only
    (or nothing).  Every value is of one of the two shapes. *)
Theorem note_title_first_token :
  (forall lexical_cast_uint32 options st line init n,
      has_prop "NAME" line = true ->
      in_folder st = false ->
      skipping options st = false ->
      notes_ st = init ++ [n] ->
      exists n',
        ParseLine lexical_cast_uint32 options st line = Ok (set_notes (init ++ [n']) st)
        /\ title_ n' = ParseNoteTitle (GetLinePropertyValue line))
  /\ (forall v, only_stx v = true -> ParseNoteTitle v = no_title)
  /\ (forall lead tok rest,
         only_stx lead = true ->
         tok <> EmptyString ->
         has_byte Chars.stx tok = false ->
         rest = EmptyString \/ starts_with stx_separator rest = true ->
         ParseNoteTitle (lead +:+ tok +:+ rest) = tok)
  /\ (forall v,
         only_stx v = true
         \/ exists lead tok rest,
             v = lead +:+ tok +:+ rest
             /\ only_stx lead = true /\ tok <> EmptyString
             /\ has_byte Chars.stx tok = false
             /\ (rest = EmptyString \/ starts_with stx_separator rest = true)).
Proof.
  repeat split.
  - intros lex options st line init n Hname Hin Hskip Hnotes.
    eexists. split; [apply ParseLine_name; eassumption|]. reflexivity.
  - intros v Hv. unfold ParseNoteTitle. now rewrite tokens_begin_only_stx.
  - intros lead tok rest H1 H2 H3 H4. unfold ParseNoteTitle.
    now rewrite tokens_begin_first.
  - apply value_shape.
Qed.

Lemma note_title_first_token_witness :
  ParseNoteTitle (stx_separator +:+ "Soup" +:+ (stx_separator +:+ "Boil")) = "Soup"
  /\ ParseNoteTitle (stx_separator +:+ stx_separator) = no_title.
Proof.
  destruct note_title_first_token as (_ & Hnone & Hfirst & _).
  split.
  - apply (Hfirst stx_separator "Soup" (stx_separator +:+ "Boil"));
      [reflexivity | discriminate | reflexivity | right; reflexivity].
  - apply (Hnone (stx_separator +:+ stx_separator)). reflexivity.
Defined.

(** C4 as worded fails: the value [Soup] has no STX byte, yet its title
    is [Soup], not the placeholder; and the value made of one STX byte
    has one, yet its title is the placeholder. *)
Lemma note_title_placeholder_counterexample :
  ~ (forall v, ParseNoteTitle v = no_title <-> has_byte Chars.stx v = false).
Proof.
  intros H. destruct (H "Soup") as [_ Hback].
  specialize (Hback eq_refl). discriminate Hback.
Qed.

End NoteTitle.

(** ** The serializer *)

#[local] Set Warnings "-clear-no-such-hyp".

Section Serializer.

Variable format_ptime : ptime -> string.
Variable can_create : string -> bool.
Variable options : Options.

Lemma AsTomboyNote_tags_spec (tags : list string) (str : string) :
  AsTomboyNote_tags options tags str
  = str +:+ concat_strings (tag_element options <$> tags).
Proof.
  revert str. induction tags as [|tag tags IH]; intros str.
  - simpl. now rewrite append_nil_r.
  - cbn [AsTomboyNote_tags fmap list_fmap concat_strings]. rewrite IH.
    unfold tag_element.
    destruct (convert_tags_to_notebooks options);
      rewrite !append_assoc; reflexivity.
Qed.

Lemma AsTomboyNote_document (n : Note) :
  AsTomboyNote format_ptime options n
  = document_head format_ptime n
    +:+ concat_strings (tag_element options <$> tags_ n)
    +:+ document_tail.
Proof.
  unfold AsTomboyNote, GetTomboyDateString, document_head, document_tail.
  cbv zeta. rewrite AsTomboyNote_tags_spec, !append_assoc. reflexivity.
Qed.

Lemma CreateTomboyNote_empty (n : Note) (fs : gmap string string) :
  note_ n = EmptyString ->
  CreateTomboyNote format_ptime can_create options n fs
  = (fs, [cout "Skipping empty note"]).
Proof. intros H. unfold CreateTomboyNote. now rewrite H. Qed.

Lemma CreateTomboyNote_well_formed (n : Note) (fs : gmap string string) :
  note_ n <> EmptyString ->
  uid_ n <> EmptyString ->
  can_create (out_fname options n) = true ->
  CreateTomboyNote format_ptime can_create options n fs
  = (<[out_fname options n := AsTomboyNote format_ptime options n +:+ nl]> fs, []).
Proof.
  intros Hnote Huid Hcan. unfold CreateTomboyNote.
  apply is_empty_false in Hnote, Huid. now rewrite Hnote, Huid, Hcan.
Qed.

Lemma CreateTomboyNote_dom (n : Note) (fs : gmap string string) :
  dom (CreateTomboyNote format_ptime can_create options n fs).1
  = dom fs ∪ created_paths can_create options [n].
Proof.
  unfold created_paths, CreateTomboyNote.
  rewrite filter_cons, filter_nil.
  destruct (is_empty (note_ n)); cbn [negb andb].
  - rewrite decide_False by discriminate. simpl. set_solver.
  - destruct (can_create (out_fname options n)) eqn:Hcan; cbn [negb].
    + rewrite decide_True by reflexivity. simpl.
      rewrite dom_insert_L. set_solver.
    + rewrite decide_False by discriminate. simpl. set_solver.
Qed.

Lemma created_paths_cons (n : Note) (notes : list Note) :
  created_paths can_create options (n :: notes)
  = created_paths can_create options [n] ∪ created_paths can_create options notes.
Proof.
  unfold created_paths. rewrite !filter_cons, filter_nil.
  destruct (decide _); simpl; set_solver.
Qed.

Lemma WriteFiles_loop_dom (notes : list Note) (fs : gmap string string)
      (log : list Message) :
  dom (WriteFiles_loop format_ptime can_create options notes fs log).1
  = dom fs ∪ created_paths can_create options notes.
Proof.
  revert fs log. induction notes as [|n notes IH]; intros fs log.
  - unfold created_paths. simpl. set_solver.
  - cbn [WriteFiles_loop].
    pose proof (CreateTomboyNote_dom n fs) as Hn.
    destruct (CreateTomboyNote format_ptime can_create options n fs) as [fs' msgs].
    simpl in Hn. rewrite IH, Hn, (created_paths_cons n notes). set_solver.
Qed.

Lemma created_paths_same (notes notes' : list Note) :
  Forall2 same_record notes notes' ->
  created_paths can_create options notes = created_paths can_create options notes'.
Proof.
  induction 1 as [|n n' notes notes' (Huid & _ & Hnote) _ IH]; [reflexivity|].
  rewrite (created_paths_cons n), (created_paths_cons n'), IH. f_equal.
  unfold created_paths, out_fname. rewrite !filter_cons, !filter_nil.
  rewrite Huid, Hnote. destruct (decide _); simpl; [rewrite Huid|]; reflexivity.
Qed.

(** C9: a note whose body is empty is passed over with the message
    [Skipping empty note] on standard output and nothing on standard
    error, the file system is left as it was, whatever the note's
    other fields hold, and the loop goes on with the next note. *)
Theorem empty_body_skipped (n : Note) (fs : gmap string string) :
  note_ n = EmptyString ->
  CreateTomboyNote format_ptime can_create options n fs
    = (fs, [cout "Skipping empty note"])
  /\ forall rest log,
      WriteFiles_loop format_ptime can_create options (n :: rest) fs log
      = WriteFiles_loop format_ptime can_create options rest fs
          (log ++ [cout "Skipping empty note"]).
Proof.
  intros H. split; [now apply CreateTomboyNote_empty|].
  intros rest log. cbn [WriteFiles_loop].
  now rewrite CreateTomboyNote_empty.
Qed.

(** C1, what the program does: for a note with a body and an empty
    identifier the error is printed, but control then goes on to open
    and write the file [<output>/.note] when that file can be created. *)
Theorem empty_uid_still_written (n : Note) (fs : gmap string string) :
  note_ n <> EmptyString ->
  uid_ n = EmptyString ->
  can_create (output options +:+ "/.note") = true ->
  CreateTomboyNote format_ptime can_create options n fs
  = (<[output options +:+ "/.note" := AsTomboyNote format_ptime options n +:+ nl]> fs,
     [cerr "Failed to create note: Note does not have UID"]).
Proof.
  intros Hnote Huid Hcan. unfold CreateTomboyNote, out_fname.
  apply is_empty_false in Hnote. rewrite Hnote, Huid.
  change (output options +:+ "/" +:+ EmptyString +:+ ".note")
    with (output options +:+ "/.note").
  rewrite Hcan. reflexivity.
Qed.

End Serializer.

Lemma empty_body_skipped_witness :
  CreateTomboyNote Host.utc_format Host.writable (default_options "notes.adr" "exported")
                   (SetUid "abc123" (SetTitle "Soup" Note_new)) ∅
  = (∅, [cout "Skipping empty note"])
  /\ forall rest log,
      WriteFiles_loop Host.utc_format Host.writable (default_options "notes.adr" "exported")
                      (SetUid "abc123" (SetTitle "Soup" Note_new) :: rest) ∅ log
      = WriteFiles_loop Host.utc_format Host.writable (default_options "notes.adr" "exported")
                        rest ∅ (log ++ [cout "Skipping empty note"]).
Proof.
  apply (empty_body_skipped Host.utc_format Host.writable
           (default_options "notes.adr" "exported")
           (SetUid "abc123" (SetTitle "Soup" Note_new)) ∅).
  reflexivity.
Defined.

Lemma empty_uid_still_written_witness :
  CreateTomboyNote Host.utc_format Host.writable (default_options "notes.adr" "exported")
                   (SetNote "Boil" (SetTitle "Soup" Note_new)) ∅
  = (<["exported/.note" :=
         AsTomboyNote Host.utc_format (default_options "notes.adr" "exported")
                      (SetNote "Boil" (SetTitle "Soup" Note_new)) +:+ nl]> ∅,
     [cerr "Failed to create note: Note does not have UID"]).
Proof.
  apply (empty_uid_still_written Host.utc_format Host.writable
           (default_options "notes.adr" "exported")
           (SetNote "Boil" (SetTitle "Soup" Note_new)) ∅).
  - discriminate.
  - reflexivity.
  - reflexivity.
Defined.

(** ** Tags *)

Section Tags.

Variable lexical_cast_uint32 : string -> option Z.
Variable options : Options.

Lemma enter_trash_not_trash (line : string) (st : ParseState) :
  is_trash_line line = false -> enter_trash line st = st.
Proof. unfold enter_trash. now intros ->. Qed.

Lemma Step_tags (st st' : ParseState) (line : string) :
  Step lexical_cast_uint32 options st line st' ->
  exists extra, tags_ <$> notes_ st' = (tags_ <$> notes_ st) ++ extra.
Proof.
  destruct 1;
    cbn [notes_ set_notes set_in_folder set_in_trash set_current_folder_name];
    rewrite ?enter_trash_notes;
    try (exists []; now rewrite app_nil_r).
  - eexists. now rewrite fmap_app.
  - exists []. rewrite app_nil_r.
    match goal with H : notes_ _ = _ ++ _ |- _ => rewrite H end.
    now rewrite !fmap_app.
  - exists []. rewrite app_nil_r.
    match goal with H : notes_ _ = _ ++ _ |- _ => rewrite H end.
    now rewrite !fmap_app.
  - exists []. rewrite app_nil_r.
    match goal with H : notes_ _ = _ ++ _ |- _ => rewrite H end.
    now rewrite !fmap_app.
Qed.

Lemma ParseLoop_tags (lines : list string) (st st' : ParseState) :
  ParseLoop lexical_cast_uint32 options st lines = Ok st' ->
  exists extra, tags_ <$> notes_ st' = (tags_ <$> notes_ st) ++ extra.
Proof.
  apply (ParseLoop_ind lexical_cast_uint32 options
           (fun st st' => exists extra,
                tags_ <$> notes_ st' = (tags_ <$> notes_ st) ++ extra)).
  - intros s. exists []. now rewrite app_nil_r.
  - intros s l s1 s2 Hstep (extra2 & H2).
    apply Step_tags in Hstep as (extra1 & H1).
    exists (extra1 ++ extra2). now rewrite H2, H1, app_assoc.
Qed.

Lemma ParseLine_note (st : ParseState) (line : string) :
  is_note_line line = true ->
  skipping options st = false ->
  ParseLine lexical_cast_uint32 options st line
  = Ok (set_notes (notes_ st ++ [fresh_note options (current_folder_name st)])
                  (set_in_folder false st)).
Proof.
  intros Hnote Hskip. rewrite ParseLine_unfold. cbv zeta.
  destruct (has_prop_classes "#NOTE" line Hnote) as (-> & _ & Htrash).
  rewrite Hnote, (enter_trash_not_trash _ _ Htrash), Hskip. reflexivity.
Qed.

End Tags.

(** ** Accesses to the last note *)

Section Guard.

Variable lexical_cast_uint32 : string -> option Z.
Variable options : Options.

Lemma enter_trash_in_trash (line : string) (st : ParseState) :
  in_trash (enter_trash line st) = if is_trash_line line then true else in_trash st.
Proof. unfold enter_trash. destruct (is_trash_line line); reflexivity. Qed.

Lemma handlers_follow_note_cons (folder trash seen : bool) (line : string)
      (rest : list string) :
  handlers_follow_note lexical_cast_uint32 options folder trash seen (line :: rest) =
  if is_folder_line line then
    handlers_follow_note lexical_cast_uint32 options true false seen rest
  else
    let trash := if is_trash_line line then true else trash in
    if trash && negb (export_trash options) then
      handlers_follow_note lexical_cast_uint32 options folder trash seen rest
    else if is_note_line line then
      handlers_follow_note lexical_cast_uint32 options false trash true rest
    else if negb folder && has_prop "UNIQUEID" line then
      seen && handlers_follow_note lexical_cast_uint32 options folder trash seen rest
    else if has_prop "NAME" line then
      if folder then
        match tokens_begin stx_separator (GetLinePropertyValue line) with
        | Some _ => handlers_follow_note lexical_cast_uint32 options folder trash seen rest
        | None => true
        end
      else seen && handlers_follow_note lexical_cast_uint32 options folder trash seen rest
    else if has_prop "CREATED" line then
      seen &&
      match lexical_cast_uint32 (GetLinePropertyValue line) with
      | Some _ => handlers_follow_note lexical_cast_uint32 options folder trash seen rest
      | None => true
      end
    else handlers_follow_note lexical_cast_uint32 options folder trash seen rest.
Proof. reflexivity. Qed.

Lemma at_rbegin_defined (m : Note -> Note) (notes : list Note) :
  notes <> [] ->
  exists notes', at_rbegin m notes = Ok notes' /\ notes' <> [].
Proof.
  intros Hne. destruct (at_rbegin_nonempty m notes Hne) as [ns Hns].
  exists ns. split; [assumption|].
  apply at_rbegin_Ok in Hns as (init & n & _ & ->). now destruct init.
Qed.

Lemma guarded_loop (lines : list string) (st : ParseState) (seen : bool) :
  (seen = true -> notes_ st <> []) ->
  handlers_follow_note lexical_cast_uint32 options
                       (in_folder st) (in_trash st) seen lines = true ->
  ParseLoop lexical_cast_uint32 options st lines <> Fail rbegin_of_empty.
Proof.
  revert st seen. induction lines as [|l lines IH]; intros st seen Hinv Hcheck.
  - discriminate.
  - rewrite handlers_follow_note_cons in Hcheck.
    rewrite ParseLoop_cons, ParseLine_unfold. cbv zeta in *.
    destruct (is_folder_line l).
    { rewrite bind_Ok. apply (IH _ seen); assumption. }
    rewrite <- enter_trash_in_trash in Hcheck.
    fold (skipping options (enter_trash l st)) in Hcheck.
    pose proof (enter_trash_notes l st) as Hn.
    pose proof (enter_trash_in_folder l st) as Hf.
    set (st1 := enter_trash l st) in *.
    assert (Hnext : forall notes,
               notes <> [] ->
               handlers_follow_note lexical_cast_uint32 options
                 (in_folder st) (in_trash st1) seen lines = true ->
               ParseLoop lexical_cast_uint32 options (set_notes notes st1) lines
               <> Fail rbegin_of_empty).
    { intros notes Hne Hrest. apply (IH _ seen); [intros _; exact Hne|].
      cbn [in_folder in_trash set_notes]. now rewrite Hf. }
    destruct (skipping options st1).
    { rewrite bind_Ok. apply (IH _ seen); [rewrite Hn; exact Hinv | now rewrite Hf]. }
    destruct (is_note_line l).
    { rewrite bind_Ok. apply (IH _ true); [|exact Hcheck].
      intros _. cbn [notes_ set_notes]. now destruct (notes_ st). }
    destruct (in_folder st) eqn:Hin; cbn [negb andb] in *.
    + destruct (has_prop "NAME" l).
      * unfold ParseFolderName.
        destruct (tokens_begin stx_separator (GetLinePropertyValue l));
          [|discriminate].
        rewrite !bind_Ok. apply (IH _ seen).
        -- cbn [notes_ set_current_folder_name]. rewrite Hn. exact Hinv.
        -- cbn [in_folder in_trash set_current_folder_name]. now rewrite Hf.
      * destruct (has_prop "CREATED" l).
        -- apply andb_prop in Hcheck as [Hseen Hrest].
           destruct (lexical_cast_uint32 (GetLinePropertyValue l)) as [date_val|];
             [|discriminate].
           destruct (at_rbegin_defined (SetCreationTimeFromUnixTime date_val) _ (Hinv Hseen))
             as (ns & -> & Hne).
           rewrite !bind_Ok. now apply Hnext.
        -- rewrite bind_Ok. apply (IH _ seen);
             [rewrite Hn; exact Hinv | now rewrite Hf].
    + destruct (has_prop "UNIQUEID" l).
      * apply andb_prop in Hcheck as [Hseen Hrest].
        destruct (at_rbegin_defined (SetUid (GetLinePropertyValue l)) _ (Hinv Hseen))
          as (ns & -> & Hne).
        rewrite !bind_Ok. now apply Hnext.
      * destruct (has_prop "NAME" l).
        -- apply andb_prop in Hcheck as [Hseen Hrest].
           destruct (at_rbegin_defined
                       (SetTitle (ParseNoteTitle (GetLinePropertyValue l))) _ (Hinv Hseen))
             as (ns & -> & Hne).
           rewrite bind_Ok.
           destruct (at_rbegin_defined
                       (SetNote (ParseNote (GetLinePropertyValue l))) _ Hne)
             as (ns' & -> & Hne').
           rewrite !bind_Ok. now apply Hnext.
        -- destruct (has_prop "CREATED" l).
           ++ apply andb_prop in Hcheck as [Hseen Hrest].
              destruct (lexical_cast_uint32 (GetLinePropertyValue l)) as [date_val|];
             [|discriminate].
              destruct (at_rbegin_defined (SetCreationTimeFromUnixTime date_val) _ (Hinv Hseen))
                as (ns & -> & Hne).
              rewrite !bind_Ok. now apply Hnext.
           ++ rewrite bind_Ok. apply (IH _ seen);
                [rewrite Hn; exact Hinv | now rewrite Hf].
Qed.

(** C10: when every line that reaches the [UNIQUEID] handler, the
    [NAME] handler outside a folder header or the [CREATED] handler comes
    after a [#NOTE] line that reached its handler, no access to the last
    note finds the vector empty. *)
Theorem last_note_access_guarded (lines : list string) :
  handlers_follow_note lexical_cast_uint32 options false false false lines = true ->
  ParseLines lexical_cast_uint32 options lines <> Fail rbegin_of_empty.
Proof.
  intros Hcheck. unfold ParseLines.
  pose proof (guarded_loop lines ParseState_init false) as Hloop.
  destruct (ParseLoop lexical_cast_uint32 options ParseState_init lines) as [st|f].
  - discriminate.
  - rewrite bind_Fail. intros [= ->]. apply Hloop; [discriminate | exact Hcheck | reflexivity].
Qed.

End Guard.

Lemma last_note_access_guarded_witness :
  ParseLines Host.decimal_uint32 (default_options "notes.adr" "exported")
    ["#FOLDER"; tb +:+ "NAME=Work"; tb +:+ "UNIQUEID=F1"; "#NOTE"; tb +:+ "UNIQUEID=abc123";
     tb +:+ "NAME=Soup"; tb +:+ "CREATED=1000000000"]
  <> Fail rbegin_of_empty.
Proof.
  apply (last_note_access_guarded Host.decimal_uint32
           (default_options "notes.adr" "exported")).
  reflexivity.
Defined.


(** ** A timestamp that cannot be read *)

Section Timestamp.

Variable lexical_cast_uint32 : string -> option Z.
Variable format_ptime : ptime -> string.
Variable can_create : string -> bool.
Variable options : Options.

Lemma ParseLine_created_unreadable (st : ParseState) (line : string) :
  has_prop "CREATED" line = true ->
  skipping options st = false ->
  lexical_cast_uint32 (GetLinePropertyValue line) = None ->
  ParseLine lexical_cast_uint32 options st line = Fail bad_lexical_cast.
Proof.
  intros Hcreated Hskip Hcast. rewrite ParseLine_unfold. cbv zeta.
  destruct (has_prop_classes _ _ Hcreated) as (-> & -> & Htrash).
  rewrite (enter_trash_not_trash _ _ Htrash), Hskip.
  rewrite (has_prop_other _ "UNIQUEID" _ Hcreated), (has_prop_other _ "NAME" _ Hcreated).
  rewrite Hcreated, Hcast, andb_false_r. reflexivity.
Qed.

End Timestamp.

(** ** Trash folders *)

Section Trash.

Variable lexical_cast_uint32 : string -> option Z.
Variable format_ptime : ptime -> string.
Variable can_create : string -> bool.
Variable options : Options.
Hypothesis no_export : export_trash options = false.

Lemma same_record_refl (n : Note) : same_record n n.
Proof. repeat split. Qed.

Lemma Forall2_same_record_refl (notes : list Note) : Forall2 same_record notes notes.
Proof. induction notes; constructor; auto using same_record_refl. Qed.

Lemma Forall2_same_record_sym (l k : list Note) :
  Forall2 same_record l k -> Forall2 same_record k l.
Proof.
  induction 1 as [|a b l k (H1 & H2 & H3)]; constructor; [|assumption].
  repeat split; congruence.
Qed.

Lemma Forall2_same_record_trans (l k m : list Note) :
  Forall2 same_record l k -> Forall2 same_record k m -> Forall2 same_record l m.
Proof.
  intros H. revert m. induction H as [|a b l k (H1 & H2 & H3) _ IH]; intros m Hm.
  - apply Forall2_nil_inv_l in Hm as ->. constructor.
  - apply Forall2_cons_inv_l in Hm as (c & m' & (H4 & H5 & H6) & Hm' & ->).
    constructor; [repeat split; congruence | auto].
Qed.

Lemma enter_trash_in_trash_true (line : string) (st : ParseState) :
  in_trash st = true -> enter_trash line st = st.
Proof.
  intros H. unfold enter_trash. destruct (is_trash_line line); [|reflexivity].
  destruct st; simpl in *; subst; reflexivity.
Qed.

Lemma trash_line_not_folder (line : string) :
  is_trash_line line = true -> is_folder_line line = false.
Proof.
  unfold is_trash_line. intros H. apply andb_prop in H as [H _].
  apply (has_prop_classes "TRASH FOLDER" line H).
Qed.

Lemma folder_line_classes (line : string) :
  is_folder_line line = true -> is_note_line line = false /\ is_trash_line line = false.
Proof.
  intros H. destruct (has_prop_classes "#FOLDER" line H) as (_ & -> & ->). auto.
Qed.

(** Inside a trashed folder a line that is not [#FOLDER] changes nothing. *)
Lemma ParseLine_in_trash (st : ParseState) (line : string) :
  is_folder_line line = false ->
  in_trash st = true ->
  ParseLine lexical_cast_uint32 options st line = Ok st.
Proof.
  intros Hfolder Htrash. rewrite ParseLine_unfold, Hfolder. cbv zeta.
  rewrite enter_trash_in_trash_true by assumption.
  unfold skipping. now rewrite Htrash, no_export.
Qed.

Lemma ParseLoop_in_trash (lines : list string) (st : ParseState) :
  Forall (fun l => is_folder_line l = false) lines ->
  in_trash st = true ->
  ParseLoop lexical_cast_uint32 options st lines = Ok st.
Proof.
  induction 1 as [|l lines Hl _ IH]; intros Htrash; [reflexivity|].
  rewrite ParseLoop_cons, ParseLine_in_trash, bind_Ok by assumption. auto.
Qed.

Lemma ParseLine_trash_line (st : ParseState) (line : string) :
  is_trash_line line = true ->
  ParseLine lexical_cast_uint32 options st line = Ok (set_in_trash true st).
Proof.
  intros Htrash. rewrite ParseLine_unfold, (trash_line_not_folder _ Htrash). cbv zeta.
  unfold enter_trash, skipping. rewrite Htrash, no_export. reflexivity.
Qed.

Lemma ParseLine_folder (st : ParseState) (line : string) :
  is_folder_line line = true ->
  ParseLine lexical_cast_uint32 options st line
  = Ok (set_in_trash false (set_in_folder true st)).
Proof. intros H. now rewrite ParseLine_unfold, H. Qed.

(** A header line leaves identifier, title and body of every note alone. *)
Lemma Step_header (st st' : ParseState) (line : string) :
  Step lexical_cast_uint32 options st line st' ->
  in_folder st = true ->
  is_note_line line = false ->
  in_folder st' = true /\ Forall2 same_record (notes_ st') (notes_ st).
Proof.
  destruct 1; intros Hin Hnote;
    cbn [notes_ in_folder set_notes set_in_folder set_in_trash set_current_folder_name];
    rewrite ?enter_trash_notes, ?enter_trash_in_folder;
    try congruence;
    try (split; [assumption | apply Forall2_same_record_refl]).
  - split; [reflexivity | apply Forall2_same_record_refl].
  - split; [assumption|].
    match goal with H : notes_ _ = _ ++ _ |- _ => rewrite H end.
    apply Forall2_app; [apply Forall2_same_record_refl|].
    constructor; [repeat split | constructor].
Qed.

Lemma ParseLoop_header (lines : list string) (st st' : ParseState) :
  Forall (fun l => is_folder_line l = false /\ is_note_line l = false) lines ->
  in_folder st = true ->
  ParseLoop lexical_cast_uint32 options st lines = Ok st' ->
  in_folder st' = true /\ Forall2 same_record (notes_ st') (notes_ st).
Proof.
  intros Hlines. revert st. induction Hlines as [|l lines [_ Hl] _ IH]; intros st Hin H.
  - injection H as <-. split; [assumption | apply Forall2_same_record_refl].
  - rewrite ParseLoop_cons in H. apply bind_Ok_inv in H as (st1 & H1 & H2).
    apply ParseLine_Step in H1.
    destruct (Step_header _ _ _ H1 Hin Hl) as [Hin1 Hsame1].
    destruct (IH _ Hin1 H2) as [Hin' Hsame'].
    split; [assumption|]. eapply Forall2_same_record_trans; eassumption.
Qed.

(** A trashed folder block adds no note and changes no identifier,
    title or body. *)
Lemma ParseLoop_trashed_block (block : list string) (st st' : ParseState) :
  trashed_block block ->
  ParseLoop lexical_cast_uint32 options st block = Ok st' ->
  Forall2 same_record (notes_ st') (notes_ st).
Proof.
  intros (folder & header & trash & body & -> & Hfolder & Hheader & Htrash & Hbody) H.
  rewrite ParseLoop_cons, ParseLine_folder, bind_Ok in H by assumption.
  rewrite ParseLoop_app in H. apply bind_Ok_inv in H as (st1 & H1 & H2).
  apply ParseLoop_header in H1 as [_ Hsame]; [|assumption|reflexivity].
  rewrite ParseLoop_cons, ParseLine_trash_line, bind_Ok in H2 by assumption.
  rewrite ParseLoop_in_trash in H2 by (assumption || reflexivity).
  injection H2 as <-. exact Hsame.
Qed.

Lemma bind_rel {A B A' B' : Type} (RA : A -> A' -> Prop) (RB : B -> B' -> Prop)
      (r1 : Result A) (r2 : Result A') (k1 : A -> Result B) (k2 : A' -> Result B') :
  Result_rel RA r1 r2 ->
  (forall a b, RA a b -> Result_rel RB (k1 a) (k2 b)) ->
  Result_rel RB (r1 ≫= k1) (r2 ≫= k2).
Proof.
  destruct r1 as [a|f], r2 as [b|g]; simpl; intros H Hk; try contradiction; auto.
Qed.

Lemma same_parse_set_notes (st1 st2 : ParseState) (l : string) (ns1 ns2 : list Note) :
  same_parse st1 st2 ->
  Forall2 same_record ns1 ns2 ->
  same_parse (set_notes ns1 (enter_trash l st1)) (set_notes ns2 (enter_trash l st2)).
Proof.
  intros (Hf & Ht & _) Hns. repeat split; cbn [in_folder in_trash notes_ set_notes].
  - now rewrite !enter_trash_in_folder.
  - now rewrite !enter_trash_in_trash, Ht.
  - assumption.
Qed.

Lemma same_parse_enter_trash (st1 st2 : ParseState) (l : string) :
  same_parse st1 st2 -> same_parse (enter_trash l st1) (enter_trash l st2).
Proof.
  intros (Hf & Ht & Hn). repeat split.
  - now rewrite !enter_trash_in_folder.
  - now rewrite !enter_trash_in_trash, Ht.
  - now rewrite !enter_trash_notes.
Qed.

(** From states that agree up to tags, timestamps and the folder name, a
    line fails alike or leads to states that agree again. *)
Lemma ParseLine_same_parse (st1 st2 : ParseState) (l : string) :
  same_parse st1 st2 ->
  Result_rel same_parse (ParseLine lexical_cast_uint32 options st1 l)
             (ParseLine lexical_cast_uint32 options st2 l).
Proof.
  intros HR. pose proof HR as (Hf & Ht & Hn).
  rewrite !ParseLine_unfold. cbv zeta.
  destruct (is_folder_line l).
  { repeat split; assumption. }
  unfold skipping. rewrite !enter_trash_in_trash, <- Ht.
  destruct ((if is_trash_line l then true else in_trash st1)
            && negb (export_trash options)).
  { now apply same_parse_enter_trash. }
  destruct (is_note_line l).
  { repeat split; cbn [in_folder in_trash notes_ set_notes set_in_folder].
    - now rewrite !enter_trash_in_trash, Ht.
    - apply Forall2_app; [assumption|].
      constructor; [|constructor].
      unfold fresh_note.
      destruct (is_empty (default_tag options)),
        (is_empty (current_folder_name st1)), (is_empty (current_folder_name st2));
        repeat split. }
  rewrite <- Hf.
  assert (Hset : forall m : Note -> Note,
             (forall a b, same_record a b -> same_record (m a) (m b)) ->
             Result_rel same_parse
               (at_rbegin m (notes_ st1) ≫= fun notes => Ok (set_notes notes (enter_trash l st1)))
               (at_rbegin m (notes_ st2) ≫= fun notes => Ok (set_notes notes (enter_trash l st2)))).
  { intros m Hm. apply (bind_rel (Forall2 same_record)).
    - now apply at_rbegin_rel.
    - intros a b Hab. now apply same_parse_set_notes. }
  destruct (negb (in_folder st1) && has_prop "UNIQUEID" l).
  { apply Hset. intros a b (H1 & H2 & H3). repeat split; assumption. }
  destruct (has_prop "NAME" l).
  { destruct (in_folder st1).
    - destruct (ParseFolderName (GetLinePropertyValue l)) as [name|f]; [|reflexivity].
      rewrite !bind_Ok.
      apply (same_parse_enter_trash _ _ l) in HR as (Hf' & Ht' & Hn').
      repeat split; assumption.
    - apply (bind_rel (Forall2 same_record)).
      + apply at_rbegin_rel; [|assumption].
        intros a b (H1 & H2 & H3). repeat split; assumption.
      + intros ns1 ns2 Hns. apply (bind_rel (Forall2 same_record)).
        * apply at_rbegin_rel; [|assumption].
          intros a b (H1 & H2 & H3). repeat split; assumption.
        * intros a b Hab. now apply same_parse_set_notes. }
  destruct (has_prop "CREATED" l).
  { destruct (lexical_cast_uint32 (GetLinePropertyValue l)) as [date_val|];
      [|reflexivity].
    apply Hset. intros a b (H1 & H2 & H3). repeat split; assumption. }
  now apply same_parse_enter_trash.
Qed.

Lemma ParseLoop_same_parse (lines : list string) (st1 st2 : ParseState) :
  same_parse st1 st2 ->
  Result_rel same_parse (ParseLoop lexical_cast_uint32 options st1 lines)
             (ParseLoop lexical_cast_uint32 options st2 lines).
Proof.
  revert st1 st2. induction lines as [|l lines IH]; intros st1 st2 HR; [exact HR|].
  rewrite !ParseLoop_cons. apply (bind_rel same_parse).
  - now apply ParseLine_same_parse.
  - exact IH.
Qed.

(** Outside trash every [#NOTE] line adds one note and no other line
    adds or removes one. *)
Lemma Step_count (st st' : ParseState) (line : string) :
  Step lexical_cast_uint32 options st line st' ->
  is_trash_line line = false ->
  in_trash st = false ->
  in_trash st' = false
  /\ length (notes_ st') = length (notes_ st) + (if is_note_line line then 1 else 0).
Proof.
  intros Hstep Htrash Hin.
  pose proof (enter_trash_not_trash line st Htrash) as Henter.
  destruct Hstep; rewrite ?Henter in *;
    cbn [notes_ in_trash set_notes set_in_folder set_in_trash set_current_folder_name].
  - destruct (folder_line_classes line) as [-> _]; [assumption|]. split; [reflexivity | lia].
  - unfold skipping in *. rewrite Hin in *. discriminate.
  - match goal with H : is_note_line _ = true |- _ => rewrite H end.
    rewrite length_app. simpl. split; [assumption | lia].
  - match goal with H : is_note_line _ = false |- _ => rewrite H end.
    match goal with H : notes_ _ = _ ++ _ |- _ => rewrite H end.
    rewrite !length_app. simpl. split; [assumption | lia].
  - match goal with H : is_note_line _ = false |- _ => rewrite H end.
    split; [assumption | lia].
  - match goal with H : is_note_line _ = false |- _ => rewrite H end.
    match goal with H : notes_ _ = _ ++ _ |- _ => rewrite H end.
    rewrite !length_app. simpl. split; [assumption | lia].
  - match goal with H : is_note_line _ = false |- _ => rewrite H end.
    match goal with H : notes_ _ = _ ++ _ |- _ => rewrite H end.
    rewrite !length_app. simpl. split; [assumption | lia].
  - match goal with H : is_note_line _ = false |- _ => rewrite H end.
    split; [assumption | lia].
Qed.

Lemma ParseLoop_count (lines : list string) (st st' : ParseState) :
  Forall (fun l => is_trash_line l = false) lines ->
  in_trash st = false ->
  ParseLoop lexical_cast_uint32 options st lines = Ok st' ->
  length (notes_ st') = length (notes_ st) + count_lines is_note_line lines.
Proof.
  intros Hlines. revert st. induction Hlines as [|l lines Hl _ IH]; intros st Hin H.
  - injection H as <-. simpl. lia.
  - rewrite ParseLoop_cons in H. apply bind_Ok_inv in H as (st1 & H1 & H2).
    apply ParseLine_Step in H1.
    destruct (Step_count _ _ _ H1 Hl Hin) as [Hin1 Hlen1].
    rewrite (IH _ Hin1 H2), Hlen1. simpl. lia.
Qed.


Lemma ParseLines_untrashed_count (block : list string) (notes : list Note) :
  untrashed_block block ->
  ParseLines lexical_cast_uint32 options block = Ok notes ->
  length notes = count_lines is_note_line block.
Proof.
  intros (folder & rest & -> & Hfolder & Hrest) H.
  unfold ParseLines in H. apply bind_Ok_inv in H as (st & H & [= <-]).
  apply ParseLoop_count in H; [exact H| |reflexivity].
  constructor.
  - apply (folder_line_classes folder Hfolder).
  - eapply Forall_impl; [exact Hrest|]. now intros l [_ Hl].
Qed.

(** Whichever of the two blocks comes first, the notes of the run are
    those of the untrashed block. *)
Lemma ParseLines_two_blocks (trashed normal lines : list string) (notes : list Note) :
  trashed_block trashed ->
  untrashed_block normal ->
  lines = trashed ++ normal \/ lines = normal ++ trashed ->
  ParseLines lexical_cast_uint32 options lines = Ok notes ->
  exists notes_normal,
    ParseLines lexical_cast_uint32 options normal = Ok notes_normal
    /\ Forall2 same_record notes notes_normal.
Proof.
  intros Htrashed Hnormal Horder H.
  unfold ParseLines in H. apply bind_Ok_inv in H as (final & H & [= <-]).
  destruct Horder as [-> | ->]; rewrite ParseLoop_app in H;
    apply bind_Ok_inv in H as (mid & H1 & H2).
  - pose proof (ParseLoop_trashed_block _ _ _ Htrashed H1) as Hmid.
    apply Forall2_nil_inv_r in Hmid.
    destruct Hnormal as (folder & rest & -> & Hfolder & _).
    rewrite ParseLoop_cons, ParseLine_folder, bind_Ok in H2 by assumption.
    pose proof (ParseLoop_same_parse rest
                  (set_in_trash false (set_in_folder true mid))
                  (set_in_trash false (set_in_folder true ParseState_init))) as Hsim.
    rewrite H2 in Hsim.
    unfold ParseLines. rewrite ParseLoop_cons, ParseLine_folder, bind_Ok by assumption.
    destruct (ParseLoop lexical_cast_uint32 options
                (set_in_trash false (set_in_folder true ParseState_init)) rest)
      as [final'|f].
    + exists (notes_ final'). split; [reflexivity|].
      apply Hsim. repeat split. cbn [notes_ set_in_trash set_in_folder].
      rewrite Hmid. constructor.
    + exfalso. apply Hsim. repeat split. cbn [notes_ set_in_trash set_in_folder].
      rewrite Hmid. constructor.
  - exists (notes_ mid). unfold ParseLines. rewrite H1. split; [reflexivity|].
    exact (ParseLoop_trashed_block _ _ _ Htrashed H2).
Qed.

End Trash.

(** ** The soup scenario *)

Section Soup.

Variable lexical_cast_uint32 : string -> option Z.
Variable format_ptime : ptime -> string.
Variable can_create : string -> bool.
Variables inp out : string.

Hypothesis reads_timestamp : lexical_cast_uint32 "1000000000" = Some 1000000000%Z.
Hypothesis creates_file : can_create (out +:+ "/abc123.note") = true.

Lemma soup_parsed :
  ParseLines lexical_cast_uint32 (default_options inp out) (getlines Example.soup_input)
  = Ok [Example.soup_note].
Proof.
  cbv -[Z.pow]. rewrite reads_timestamp. reflexivity.
Qed.

Lemma soup_run (fs : gmap string string) :
  fs !! inp = Some Example.soup_input ->
  main lexical_cast_uint32 format_ptime can_create (default_options inp out) fs
  = Returned 0
      (<[out +:+ "/abc123.note" :=
           AsTomboyNote format_ptime (default_options inp out) Example.soup_note +:+ nl]> fs)
      [].
Proof.
  intros Hfile. unfold main, ParseFile. cbn [input default_options].
  rewrite Hfile, soup_parsed. unfold WriteFiles. cbn [WriteFiles_loop].
  rewrite CreateTomboyNote_well_formed; [reflexivity|discriminate|discriminate|].
  exact creates_file.
Qed.

Lemma soup_title :
  element_text "<title>" "</title>"
    (AsTomboyNote format_ptime (default_options inp out) Example.soup_note +:+ nl)
  = Some "Soup".
Proof. reflexivity. Qed.

Lemma soup_body :
  UnescapeXml <$>
    element_text Example.note_content_open "</note-content>"
      (AsTomboyNote format_ptime (default_options inp out) Example.soup_note +:+ nl)
  = Some ("Soup" +:+ Example.stx +:+ "Boil" +:+ nl +:+ "Serve").
Proof. reflexivity. Qed.

(** C2, as the program has it: from the soup export and the default
    options the run returns 0 having created the one file
    [<output>/abc123.note]; its title element is [Soup]; its
    note-content element, unescaped, is the whole [NAME] value with the
    doubled STX turned into a newline, that is [Soup], one STX byte,
    [Boil], newline, [Serve]; and its tag list holds the one tag
    [Recipes]. *)
Theorem soup_scenario (fs : gmap string string) :
  fs !! inp = Some Example.soup_input ->
  main lexical_cast_uint32 format_ptime can_create (default_options inp out) fs
  = Returned 0
      (<[out +:+ "/abc123.note" :=
           AsTomboyNote format_ptime (default_options inp out) Example.soup_note +:+ nl]> fs)
      []
  /\ element_text "<title>" "</title>"
       (AsTomboyNote format_ptime (default_options inp out) Example.soup_note +:+ nl)
     = Some "Soup"
  /\ UnescapeXml <$>
       element_text Example.note_content_open "</note-content>"
         (AsTomboyNote format_ptime (default_options inp out) Example.soup_note +:+ nl)
     = Some ("Soup" +:+ Example.stx +:+ "Boil" +:+ nl +:+ "Serve")
  /\ AsTomboyNote format_ptime (default_options inp out) Example.soup_note +:+ nl
     = document_head format_ptime Example.soup_note
       +:+ (tb +:+ tb +:+ "<tag>Recipes</tag>" +:+ nl)
       +:+ document_tail +:+ nl.
Proof.
  intros Hfile. split; [now apply soup_run|]. split; [apply soup_title|].
  split; [apply soup_body|].
  rewrite AsTomboyNote_document, !append_assoc. reflexivity.
Qed.

End Soup.

Lemma soup_scenario_witness :
  main Host.decimal_uint32 Host.utc_format Host.writable Example.options
       (<["notes.adr" := Example.soup_input]> ∅)
  = Returned 0
      (<["exported/abc123.note" :=
           AsTomboyNote Host.utc_format Example.options Example.soup_note +:+ nl]>
         (<["notes.adr" := Example.soup_input]> ∅))
      []
  /\ element_text "<title>" "</title>"
       (AsTomboyNote Host.utc_format Example.options Example.soup_note +:+ nl)
     = Some "Soup"
  /\ UnescapeXml <$>
       element_text Example.note_content_open "</note-content>"
         (AsTomboyNote Host.utc_format Example.options Example.soup_note +:+ nl)
     = Some ("Soup" +:+ Example.stx +:+ "Boil" +:+ nl +:+ "Serve")
  /\ AsTomboyNote Host.utc_format Example.options Example.soup_note +:+ nl
     = document_head Host.utc_format Example.soup_note
       +:+ (tb +:+ tb +:+ "<tag>Recipes</tag>" +:+ nl)
       +:+ document_tail +:+ nl.
Proof.
  apply (soup_scenario Host.decimal_uint32 Host.utc_format Host.writable
           "notes.adr" "exported" eq_refl eq_refl
           (<["notes.adr" := Example.soup_input]> ∅)).
  apply lookup_insert_eq.
Defined.

(** C2 as worded fails on the body: the file the run creates does not
    have [Boil], newline, [Serve] as its unescaped note-content. *)
Lemma soup_body_counterexample :
  ~ (exists doc,
        main Host.decimal_uint32 Host.utc_format Host.writable Example.options
             (<["notes.adr" := Example.soup_input]> ∅)
        = Returned 0
            (<["exported/abc123.note" := doc]> (<["notes.adr" := Example.soup_input]> ∅))
            []
        /\ UnescapeXml <$> element_text Example.note_content_open "</note-content>" doc
           = Some ("Boil" +:+ nl +:+ "Serve")).
Proof.
  intros (doc & Hmain & Hbody).
  unfold Example.options in Hmain.
  rewrite (soup_run Host.decimal_uint32 Host.utc_format Host.writable
             "notes.adr" "exported" eq_refl eq_refl) in Hmain
    by apply lookup_insert_eq.
  apply (f_equal (fun o => match o with
                           | Returned _ fs _ => default EmptyString (fs !! "exported/abc123.note")
                           | _ => EmptyString
                           end)) in Hmain.
  cbv beta iota in Hmain.
  change ("exported" +:+ "/abc123.note") with "exported/abc123.note" in Hmain.
  rewrite !lookup_insert_eq in Hmain. cbn [default from_option] in Hmain.
  unfold id in Hmain. subst doc.
  rewrite (soup_body Host.utc_format "notes.adr" "exported") in Hbody.
  apply (f_equal (fun o => match o with
                           | Some (String c _) => Some c
                           | _ => None
                           end)) in Hbody.
  discriminate Hbody.
Qed.

(** * Further properties *)

(** ** The two halves of a line *)

Section LineHalves.

Lemma name_before_equals (pre post : string) :
  has_byte Chars.equals pre = false ->
  GetLinePropertyName (pre +:+ String Chars.equals post) = strip_tab pre.
Proof.
  intros H. destruct pre as [|c pre].
  - reflexivity.
  - unfold GetLinePropertyName, strip_tab, substr.
    change (String c pre +:+ String Chars.equals post)
      with (String c (pre +:+ String Chars.equals post)).
    cbn [is_empty String.get].
    destruct (Ascii.eqb c Chars.tab) eqn:Htab.
    + cbn [has_byte] in H. apply orb_false_elim in H as [_ H].
      change (String c (pre +:+ String Chars.equals post))
        with (str1 c +:+ (pre +:+ String Chars.equals post)).
      rewrite (name_scan_spec _ (str1 c)) by (simpl; lia).
      rewrite eq_index_first by assumption.
      change (str1 c +:+ (pre +:+ String Chars.equals post))
        with (String c (pre +:+ String Chars.equals post)).
      cbn [Nat.add String.substring]. apply substring_take.
    + rewrite (name_scan_spec (String c (pre +:+ String Chars.equals post)) EmptyString)
        by (simpl; lia).
      change (String c (pre +:+ String Chars.equals post))
        with (String c pre +:+ String Chars.equals post).
      rewrite eq_index_first by assumption.
      cbn [Nat.add]. apply substring_take.
Qed.

Lemma strip_tab_app (pre post : string) :
  strip_tab (pre +:+ String Chars.equals post)
  = strip_tab pre +:+ String Chars.equals post.
Proof.
  destruct pre as [|c pre]; [reflexivity|].
  change (String c pre +:+ String Chars.equals post)
    with (String c (pre +:+ String Chars.equals post)).
  unfold strip_tab.
  destruct (Ascii.eqb c Chars.tab); reflexivity.
Qed.

Lemma has_byte_strip_tab (c : ascii) (s : string) :
  has_byte c s = false -> has_byte c (strip_tab s) = false.
Proof.
  destruct s as [|d s]; [auto|]. unfold strip_tab.
  destruct (Ascii.eqb d Chars.tab); [|auto].
  cbn [has_byte]. intros H. now apply orb_false_elim in H as [_ H].
Qed.

(** X1: on a line with an [=] the name is what stands in front of the first
    [=], less one leading tab, and holds no [=]; the value is what stands
    behind it; name, [=] and value put together give the line back, less
    its leading tab. *)
Theorem line_halves_rejoin (pre post : string) :
  has_byte Chars.equals pre = false ->
  GetLinePropertyName (pre +:+ String Chars.equals post) = strip_tab pre
  /\ has_byte Chars.equals (GetLinePropertyName (pre +:+ String Chars.equals post)) = false
  /\ GetLinePropertyName (pre +:+ String Chars.equals post)
       +:+ String Chars.equals (GetLinePropertyValue (pre +:+ String Chars.equals post))
     = strip_tab (pre +:+ String Chars.equals post).
Proof.
  intros H. rewrite name_before_equals, value_after_equals by assumption.
  repeat split.
  - now apply has_byte_strip_tab.
  - now rewrite strip_tab_app.
Qed.

Lemma line_halves_rejoin_witness :
  GetLinePropertyName ((tb +:+ "TRASH FOLDER") +:+ String Chars.equals "YES") = "TRASH FOLDER"
  /\ has_byte Chars.equals
       (GetLinePropertyName ((tb +:+ "TRASH FOLDER") +:+ String Chars.equals "YES")) = false
  /\ GetLinePropertyName ((tb +:+ "TRASH FOLDER") +:+ String Chars.equals "YES")
       +:+ String Chars.equals
             (GetLinePropertyValue ((tb +:+ "TRASH FOLDER") +:+ String Chars.equals "YES"))
     = "TRASH FOLDER=YES".
Proof.
  apply (line_halves_rejoin (tb +:+ "TRASH FOLDER") "YES"). reflexivity.
Defined.

End LineHalves.

(** ** What [EscapeXml] leaves in its output *)

Section EscapedText.

Lemma has_byte_app (c : ascii) (a b : string) :
  has_byte c (a +:+ b) = has_byte c a || has_byte c b.
Proof.
  induction a as [|d a IH]; [reflexivity|].
  cbn [String.append has_byte]. now rewrite IH, orb_assoc.
Qed.

Lemma escape_case_clean (c d : ascii) :
  d = "<"%char \/ d = ">"%char \/ d = Chars.dquote \/ d = "'"%char ->
  has_byte d (escape_case c) = false.
Proof.
  intros Hd. unfold escape_case.
  repeat match goal with
         | |- context [Ascii.eqb c ?x] => destruct (Ascii.eqb_spec c x)
         end;
    try (destruct Hd as [-> | [-> | [-> | ->]]]; reflexivity).
  unfold str1. cbn [has_byte]. rewrite orb_false_r.
  apply Ascii.eqb_neq. destruct Hd as [-> | [-> | [-> | ->]]]; assumption.
Qed.

Lemma EscapeXml_clean (d : ascii) (s : string) :
  d = "<"%char \/ d = ">"%char \/ d = Chars.dquote \/ d = "'"%char ->
  has_byte d (EscapeXml s) = false.
Proof.
  intros Hd. induction s as [|c s IH]; [reflexivity|].
  rewrite EscapeXml_cons, has_byte_app, IH, escape_case_clean by assumption.
  reflexivity.
Qed.

(** X2: the output of [EscapeXml] holds none of the bytes [<], [>], the
    double quote and the apostrophe, whatever the input. *)
Theorem EscapeXml_output_has_no_markup (s : string) :
  has_byte "<" (EscapeXml s) = false
  /\ has_byte ">" (EscapeXml s) = false
  /\ has_byte Chars.dquote (EscapeXml s) = false
  /\ has_byte "'" (EscapeXml s) = false.
Proof. repeat split; apply EscapeXml_clean; auto. Qed.

Lemma escape_case_length (c : ascii) :
  1 <= String.length (escape_case c)
  /\ (escape_case c = str1 c
      \/ (1 < String.length (escape_case c)
          /\ (c = "&"%char \/ c = Chars.dquote \/ c = "'"%char \/ c = "<"%char
              \/ c = ">"%char))).
Proof.
  unfold escape_case.
  repeat match goal with
         | |- context [Ascii.eqb c ?x] =>
             destruct (Ascii.eqb_spec c x); [subst c; simpl; split; [lia|right; split; [lia|auto 6]]|]
         end.
  simpl. split; [lia | left; reflexivity].
Qed.

Lemma EscapeXml_length (s : string) : String.length s <= String.length (EscapeXml s).
Proof.
  induction s as [|c s IH]; [reflexivity|].
  rewrite EscapeXml_cons, append_length. simpl.
  destruct (escape_case_length c) as [H _]. lia.
Qed.

(** X3: [EscapeXml] gives its input back exactly when the input holds none
    of the five bytes it replaces; otherwise the output is longer. *)
Theorem EscapeXml_fixes_plain_text (s : string) :
  (EscapeXml s = s
   <-> has_byte "&" s = false /\ has_byte Chars.dquote s = false
       /\ has_byte "'" s = false /\ has_byte "<" s = false /\ has_byte ">" s = false)
  /\ String.length s <= String.length (EscapeXml s).
Proof.
  split; [|apply EscapeXml_length].
  assert (Hgrow : forall t,
             (has_byte "&" t = false /\ has_byte Chars.dquote t = false
              /\ has_byte "'" t = false /\ has_byte "<" t = false /\ has_byte ">" t = false
              /\ EscapeXml t = t)
             \/ String.length t < String.length (EscapeXml t)).
  { induction t as [|c t IH].
    - left. repeat split.
    - rewrite EscapeXml_cons, append_length. cbn [has_byte String.length].
      pose proof (EscapeXml_length t) as Hlen.
      destruct (escape_case_length c) as [H1 [Hplain|[Hlong _]]]; [|right; lia].
      destruct IH as [(Ha & Hq & Hp & Hl & Hg & Heq)|IH]; [|right; lia].
      unfold escape_case in Hplain.
      repeat match type of Hplain with
             | context [Ascii.eqb c ?x] =>
                 destruct (Ascii.eqb_spec c x); [subst c; discriminate Hplain|]
             end.
      left. rewrite Ha, Hq, Hp, Hl, Hg, Heq. unfold escape_case, str1.
      repeat match goal with
             | H : c <> _ |- _ => apply Ascii.eqb_neq in H; rewrite H; clear H
             end.
      repeat split. }
  split.
  - intros Heq. destruct (Hgrow s) as [(Ha & Hq & Hp & Hl & Hg & _)|Hlt]; [auto|].
    rewrite Heq in Hlt. lia.
  - intros (Ha & Hq & Hp & Hl & Hg).
    destruct (Hgrow s) as [(_ & _ & _ & _ & _ & Heq)|Hlt]; [assumption|].
    exfalso. clear Hgrow. revert Ha Hq Hp Hl Hg Hlt.
    induction s as [|c s IH]; [simpl; lia|].
    cbn [has_byte]. intros Ha Hq Hp Hl Hg.
    apply orb_false_elim in Ha as [Ha1 Ha], Hq as [Hq1 Hq], Hp as [Hp1 Hp],
        Hl as [Hl1 Hl], Hg as [Hg1 Hg].
    rewrite EscapeXml_cons. unfold escape_case.
    rewrite Ha1, Hq1, Hp1, Hl1, Hg1, append_length. simpl. intros Hlt.
    apply IH; try assumption. lia.
Qed.

End EscapedText.

(** ** Reading title and body back from the document *)

Section DocumentElements.

Lemma starts_with_app (pat r : string) : starts_with pat (pat +:+ r) = true.
Proof.
  induction pat as [|c pat IH]; [reflexivity|].
  cbn [String.append starts_with]. now rewrite Ascii.eqb_refl, IH.
Qed.

Lemma starts_with_head (h c : ascii) (p s : string) :
  Ascii.eqb c h = false -> starts_with (String h p) (String c s) = false.
Proof. intros H. cbn [starts_with]. now rewrite Ascii.eqb_sym, H. Qed.

(** Text without the first byte of [pat] holds no occurrence of [pat]. *)
Lemma before_first_found (h : ascii) (p a r : string) :
  has_byte h a = false ->
  before_first (String h p) (a +:+ String h p +:+ r) = Some a.
Proof.
  intros Ha. induction a as [|c a IH].
  - change (EmptyString +:+ String h p +:+ r) with (String h p +:+ r).
    destruct (String h p +:+ r) eqn:E; [discriminate|].
    cbn [before_first]. rewrite <- E, starts_with_app. reflexivity.
  - cbn [has_byte] in Ha. apply orb_false_elim in Ha as [Hc Ha].
    change (String c a +:+ String h p +:+ r) with (String c (a +:+ String h p +:+ r)).
    cbn [before_first]. rewrite starts_with_head, IH by assumption. reflexivity.
Qed.

Lemma after_first_skip (h : ascii) (p a r : string) :
  has_byte h a = false ->
  after_first (String h p) (a +:+ r) = after_first (String h p) r.
Proof.
  intros Ha. induction a as [|c a IH]; [reflexivity|].
  cbn [has_byte] in Ha. apply orb_false_elim in Ha as [Hc Ha].
  change (String c a +:+ r) with (String c (a +:+ r)).
  cbn [after_first]. rewrite starts_with_head by assumption. now apply IH.
Qed.

Lemma AsTomboyNote_layout (format_ptime : ptime -> string) (options : Options) (n : Note) :
  AsTomboyNote format_ptime options n
  = document_layout (EscapeXml (title_ n)) (EscapeXml (note_ n))
                    (document_rest format_ptime options n).
Proof.
  rewrite AsTomboyNote_document.
  unfold document_head, document_layout, document_rest. cbv zeta.
  rewrite !append_assoc. reflexivity.
Qed.

Lemma layout_title (title body rest : string) :
  has_byte "<" title = false ->
  element_text "<title>" "</title>" (document_layout title body rest) = Some title.
Proof.
  intros Ht. unfold element_text, document_layout.
  lazymatch goal with
  | |- after_first _ ?doc ≫= _ = _ =>
      lazymatch doc with
      | context [title +:+ ?tail] =>
          change (after_first "<title>" doc) with (Some (title +:+ tail))
      end
  end.
  cbn [mbind option_bind].
  apply (before_first_found "<" "/title>"). exact Ht.
Qed.

Lemma layout_body (title body rest : string) :
  has_byte "<" title = false ->
  has_byte "<" body = false ->
  element_text Example.note_content_open "</note-content>"
               (document_layout title body rest) = Some body.
Proof.
  intros Ht Hb. unfold element_text, document_layout.
  lazymatch goal with
  | |- after_first _ ?doc ≫= _ = _ =>
      lazymatch doc with
      | context [title +:+ ?tail] =>
          change (after_first Example.note_content_open doc)
            with (after_first (String "<" ("note-content version=" +:+ dq +:+ "0.1" +:+ dq +:+ ">"))
                              (title +:+ tail))
      end
  end.
  rewrite after_first_skip by exact Ht.
  lazymatch goal with
  | |- after_first ?pat ?doc ≫= _ = _ =>
      lazymatch doc with
      | context [body +:+ ?tail] =>
          change (after_first pat doc) with (Some (body +:+ tail))
      end
  end.
  cbn [mbind option_bind].
  change ("</note-content></text>" +:+ nl +:+ rest)
    with (String "<" "/note-content>" +:+ "</text>" +:+ nl +:+ rest).
  apply (before_first_found "<" "/note-content>"). exact Hb.
Qed.

(** X4: whatever title and body a note has, the text of the [title]
    element and of the [note-content] element of its document, with the
    five entities mapped back, are that title and that body. *)
Theorem document_keeps_title_and_body
        (format_ptime : ptime -> string) (options : Options) (n : Note) :
  UnescapeXml <$> element_text "<title>" "</title>" (AsTomboyNote format_ptime options n)
  = Some (title_ n)
  /\ UnescapeXml <$>
       element_text Example.note_content_open "</note-content>"
                    (AsTomboyNote format_ptime options n)
     = Some (note_ n).
Proof.
  rewrite AsTomboyNote_layout.
  pose proof (EscapeXml_clean "<" (title_ n) (or_introl eq_refl)) as Ht.
  pose proof (EscapeXml_clean "<" (note_ n) (or_introl eq_refl)) as Hb.
  rewrite layout_title, layout_body by assumption.
  cbn [fmap option_fmap option_map]. now rewrite !UnescapeXml_EscapeXml.
Qed.

End DocumentElements.

(** ** The body of a note *)

Section NoteBody.

Lemma ParseNote_pair (r : string) :
  ParseNote (String Chars.stx (String Chars.stx r)) = String Chars.newline (ParseNote r).
Proof. reflexivity. Qed.

Lemma ParseNote_plain (c : ascii) (r : string) :
  Ascii.eqb c Chars.stx = false ->
  ParseNote (String c r) = String c (ParseNote r).
Proof.
  intros Hc. unfold ParseNote, replace_all, str1.
  cbn [replace_all_from String.append starts_with].
  now rewrite Ascii.eqb_sym, Hc.
Qed.

Lemma ParseNote_plain_app (a r : string) :
  has_byte Chars.stx a = false -> ParseNote (a +:+ r) = a +:+ ParseNote r.
Proof.
  intros Ha. induction a as [|c a IH]; [reflexivity|].
  cbn [has_byte] in Ha. apply orb_false_elim in Ha as [Hc Ha].
  change (String c a +:+ r) with (String c (a +:+ r)).
  rewrite ParseNote_plain, IH by assumption. reflexivity.
Qed.

(** X5: lines without STX bytes that are joined by doubled STX bytes come
    out of [ParseNote] joined by newlines. *)
Theorem ParseNote_decodes_lines (parts : list string) :
  Forall (fun p => has_byte Chars.stx p = false) parts ->
  ParseNote (join_with (str1 Chars.stx +:+ str1 Chars.stx) parts)
  = join_with (str1 Chars.newline) parts.
Proof.
  induction 1 as [|p parts Hp Hparts IH]; [reflexivity|].
  destruct parts as [|q parts].
  - cbn [join_with]. rewrite <- (append_nil_r p) at 1.
    rewrite ParseNote_plain_app by assumption. cbn. apply append_nil_r.
  - change (join_with (str1 Chars.stx +:+ str1 Chars.stx) (p :: q :: parts))
      with (p +:+ String Chars.stx (String Chars.stx
              (join_with (str1 Chars.stx +:+ str1 Chars.stx) (q :: parts)))).
    rewrite ParseNote_plain_app, ParseNote_pair, IH by assumption. reflexivity.
Qed.

Lemma ParseNote_decodes_lines_witness :
  ParseNote (join_with (str1 Chars.stx +:+ str1 Chars.stx) ["Soup"; EmptyString; "Boil"; "Serve"])
  = join_with (str1 Chars.newline) ["Soup"; EmptyString; "Boil"; "Serve"].
Proof.
  apply (ParseNote_decodes_lines ["Soup"; EmptyString; "Boil"; "Serve"]).
  repeat (constructor; [reflexivity|]). constructor.
Defined.

(** X6: the body is empty only for the empty value, text without STX
    bytes is kept as it is, and of three STX bytes in a row the first two
    become the newline and the third stays. *)
Theorem ParseNote_edges :
  (forall v, ParseNote v = EmptyString <-> v = EmptyString)
  /\ (forall v, has_byte Chars.stx v = false -> ParseNote v = v)
  /\ (forall r, starts_with (str1 Chars.stx) r = false ->
                ParseNote (String Chars.stx (String Chars.stx (String Chars.stx r)))
                = String Chars.newline (String Chars.stx (ParseNote r))).
Proof.
  split; [|split].
  - intros v. split; [|now intros ->].
    destruct v as [|c v]; [reflexivity|].
    unfold ParseNote, replace_all. cbn [replace_all_from].
    destruct (starts_with _ _); discriminate.
  - intros v Hv. rewrite <- (append_nil_r v) at 1.
    rewrite ParseNote_plain_app by assumption. cbn. apply append_nil_r.
  - intros r Hr. rewrite ParseNote_pair. f_equal.
    destruct r as [|c r]; [reflexivity|].
    unfold ParseNote, replace_all, str1 in *.
    cbn [replace_all_from String.append starts_with] in *.
    rewrite andb_true_r in Hr. now rewrite Hr.
Qed.

Lemma ParseNote_edges_witness :
  ParseNote "Serve" = "Serve"
  /\ ParseNote (String Chars.stx (String Chars.stx (String Chars.stx "Serve")))
     = String Chars.newline (String Chars.stx (ParseNote "Serve")).
Proof.
  destruct ParseNote_edges as (_ & Hplain & Hthree).
  split; [apply (Hplain "Serve") | apply (Hthree "Serve")]; reflexivity.
Defined.

End NoteBody.

(** ** Titles and folder names *)

Section Names.

Lemma take_token_clean (s : string) :
  has_byte Chars.stx (take_token stx_separator s) = false.
Proof.
  induction s as [|c s IH]; [reflexivity|].
  cbn [take_token]. rewrite is_dropped_stx.
  destruct (Ascii.eqb c Chars.stx) eqn:Hc; [reflexivity|].
  cbn [has_byte]. now rewrite Hc, IH.
Qed.

Lemma tokens_begin_Some (v tok : string) :
  tokens_begin stx_separator v = Some tok ->
  tok <> EmptyString /\ has_byte Chars.stx tok = false /\ only_stx v = false.
Proof.
  unfold tokens_begin. intros H.
  assert (Honly : only_stx v = false).
  { destruct (only_stx v) eqn:E; [|reflexivity].
    pose proof (tokens_begin_only_stx v E) as Hnone. unfold tokens_begin in Hnone.
    rewrite Hnone in H. discriminate. }
  destruct (skip_dropped stx_separator v) as [|c rest] eqn:E; [discriminate|].
  injection H as Htok.
  change (take_token stx_separator (String c rest) = tok) in Htok. subst tok.
  repeat split; [|apply take_token_clean|assumption].
  assert (Hc : is_dropped stx_separator c = false).
  { clear -E. induction v as [|d v IH]; [discriminate|].
    cbn [skip_dropped] in E.
    destruct (is_dropped stx_separator d) eqn:Hd; [auto|].
    injection E as -> _. exact Hd. }
  cbn [take_token]. rewrite Hc. discriminate.
Qed.

(** X7: a title is never empty and never holds an STX byte;
    [ParseFolderName] runs into the end iterator exactly on the values that
    hold STX bytes only (the empty one among them); and where it yields a
    name, the name is the title [ParseNoteTitle] gives for the same value. *)
Theorem titles_and_folder_names (v : string) :
  ParseNoteTitle v <> EmptyString
  /\ has_byte Chars.stx (ParseNoteTitle v) = false
  /\ (ParseFolderName v = Fail deref_end_token <-> only_stx v = true)
  /\ (forall name, ParseFolderName v = Ok name ->
                   ParseNoteTitle v = name /\ name <> EmptyString
                   /\ has_byte Chars.stx name = false).
Proof.
  unfold ParseNoteTitle, ParseFolderName.
  destruct (tokens_begin stx_separator v) as [tok|] eqn:E.
  - destruct (tokens_begin_Some _ _ E) as (Hne & Hclean & Honly).
    split; [exact Hne|]. split; [exact Hclean|]. split.
    + rewrite Honly. split; discriminate.
    + intros name [= <-]. auto.
  - split; [discriminate|]. split; [reflexivity|]. split.
    + split; [intros _|reflexivity].
      destruct (value_shape v) as [Honly|(lead & tok & rest & -> & H1 & H2 & H3 & H4)];
        [assumption|].
      rewrite tokens_begin_first in E by assumption. discriminate.
    + intros name H. discriminate.
Qed.

End Names.

(** ** Lines of the input file *)

Section Lines.

Lemma getlines_line (l rest : string) :
  has_byte Chars.newline l = false ->
  getlines (l +:+ nl +:+ rest) = l :: getlines rest.
Proof.
  intros Hl. induction l as [|c l IH]; [reflexivity|].
  cbn [has_byte] in Hl. apply orb_false_elim in Hl as [Hc Hl].
  change (String c l +:+ nl +:+ rest) with (String c (l +:+ nl +:+ rest)).
  cbn [getlines]. now rewrite Hc, IH.
Qed.

Lemma getlines_last (l : string) :
  l <> EmptyString -> has_byte Chars.newline l = false -> getlines l = [l].
Proof.
  induction l as [|c l IH]; [congruence|]. intros _ Hl.
  cbn [has_byte] in Hl. apply orb_false_elim in Hl as [Hc Hl].
  cbn [getlines]. rewrite Hc.
  destruct l as [|d l]; [reflexivity|].
  now rewrite IH.
Qed.

Lemma unlines_app (lines : list string) (tail : string) :
  Forall (fun l => has_byte Chars.newline l = false) lines ->
  getlines (Example.unlines lines +:+ tail) = lines ++ getlines tail.
Proof.
  induction 1 as [|l lines Hl _ IH]; [reflexivity|].
  cbn [Example.unlines]. rewrite !append_assoc, getlines_line, IH by assumption.
  reflexivity.
Qed.

Lemma getlines_clean (content : string) :
  Forall (fun l => has_byte Chars.newline l = false) (getlines content).
Proof.
  induction content as [|c content IH]; [constructor|].
  cbn [getlines]. destruct (Ascii.eqb c Chars.newline) eqn:Hc.
  - now constructor.
  - destruct (getlines content) as [|l lines].
    + constructor; [|constructor]. unfold str1. cbn [has_byte]. now rewrite Hc.
    + inversion IH; subst. constructor; [|assumption].
      cbn [has_byte]. rewrite Hc. assumption.
Qed.

(** X8: a file made of newline-terminated lines is read back as exactly
    those lines; a last line without its newline is still delivered when
    it is not empty; and no line that is delivered holds a newline. *)
Theorem getlines_reads_lines_back (lines : list string) :
  Forall (fun l => has_byte Chars.newline l = false) lines ->
  getlines (Example.unlines lines) = lines
  /\ (forall l, l <> EmptyString -> has_byte Chars.newline l = false ->
                getlines (Example.unlines lines +:+ l) = lines ++ [l])
  /\ (forall content,
         Forall (fun l => has_byte Chars.newline l = false) (getlines content)).
Proof.
  intros Hlines. split; [|split].
  - rewrite <- (append_nil_r (Example.unlines lines)), unlines_app by assumption.
    apply app_nil_r.
  - intros l Hne Hl. now rewrite unlines_app, getlines_last.
  - apply getlines_clean.
Qed.

Lemma getlines_reads_lines_back_witness :
  getlines (Example.unlines ["#NOTE"; EmptyString; tb +:+ "NAME=Soup"])
  = ["#NOTE"; EmptyString; tb +:+ "NAME=Soup"]
  /\ getlines (Example.unlines ["#NOTE"; EmptyString; tb +:+ "NAME=Soup"] +:+ "CREATED=1")
     = ["#NOTE"; EmptyString; tb +:+ "NAME=Soup"] ++ ["CREATED=1"].
Proof.
  destruct (getlines_reads_lines_back ["#NOTE"; EmptyString; tb +:+ "NAME=Soup"])
    as (Hback & Hlast & _).
  - repeat (constructor; [reflexivity|]). constructor.
  - split; [exact Hback|]. apply (Hlast "CREATED=1"); [discriminate | reflexivity].
Defined.

End Lines.

(** ** Notes that are finished *)

Section Finished.

Variable lexical_cast_uint32 : string -> option Z.
Variable options : Options.

Lemma lookup_but_last (init : list Note) (n n' : Note) (i : nat) :
  S i < length (init ++ [n]) -> (init ++ [n']) !! i = (init ++ [n]) !! i.
Proof.
  rewrite length_app. simpl. intros Hi.
  rewrite !lookup_app_l by lia. reflexivity.
Qed.

Lemma Step_keeps_earlier (st st' : ParseState) (line : string) :
  Step lexical_cast_uint32 options st line st' ->
  length (notes_ st) <= length (notes_ st')
  /\ forall i, S i < length (notes_ st) -> notes_ st' !! i = notes_ st !! i.
Proof.
  destruct 1;
    cbn [notes_ set_notes set_in_folder set_in_trash set_current_folder_name];
    rewrite ?enter_trash_notes;
    try (split; [lia | reflexivity]).
  - rewrite length_app. split; [lia|]. intros i Hi. apply lookup_app_l. lia.
  - match goal with H : notes_ _ = _ ++ _ |- _ => rewrite H end.
    split; [rewrite !length_app; simpl; lia|]. intros i. apply lookup_but_last.
  - match goal with H : notes_ _ = _ ++ _ |- _ => rewrite H end.
    split; [rewrite !length_app; simpl; lia|]. intros i. apply lookup_but_last.
  - match goal with H : notes_ _ = _ ++ _ |- _ => rewrite H end.
    split; [rewrite !length_app; simpl; lia|]. intros i. apply lookup_but_last.
Qed.

Lemma ParseLoop_keeps_earlier (lines : list string) (st st' : ParseState) :
  ParseLoop lexical_cast_uint32 options st lines = Ok st' ->
  length (notes_ st) <= length (notes_ st')
  /\ forall i, S i < length (notes_ st) -> notes_ st' !! i = notes_ st !! i.
Proof.
  apply (ParseLoop_ind lexical_cast_uint32 options
           (fun st st' =>
              length (notes_ st) <= length (notes_ st')
              /\ forall i, S i < length (notes_ st) -> notes_ st' !! i = notes_ st !! i)).
  - intros s. split; [lia | reflexivity].
  - intros s l s1 s2 Hstep [Hlen2 Hkeep2].
    apply Step_keeps_earlier in Hstep as [Hlen1 Hkeep1].
    split; [lia|]. intros i Hi. rewrite Hkeep2 by lia. now apply Hkeep1.
Qed.

(** X9: the loop only ever changes the note started last.  Of the notes
    there are after a prefix of the input, all but the last are in the
    final result as they were, at the same positions; and when the next
    line is a [#NOTE] line that reaches its handler, the last one is too. *)
Theorem earlier_notes_are_final
        (pre post : list string) (st : ParseState) (notes : list Note) :
  ParseLoop lexical_cast_uint32 options ParseState_init pre = Ok st ->
  ParseLines lexical_cast_uint32 options (pre ++ post) = Ok notes ->
  length (notes_ st) <= length notes
  /\ (forall i, S i < length (notes_ st) -> notes !! i = notes_ st !! i)
  /\ (forall line rest,
         post = line :: rest ->
         is_note_line line = true ->
         skipping options st = false ->
         forall i, i < length (notes_ st) -> notes !! i = notes_ st !! i).
Proof.
  intros Hpre Hparse. unfold ParseLines in Hparse.
  apply bind_Ok_inv in Hparse as (final & Hloop & [= <-]).
  rewrite ParseLoop_app, Hpre, bind_Ok in Hloop.
  destruct (ParseLoop_keeps_earlier _ _ _ Hloop) as [Hlen Hkeep].
  split; [assumption|]. split; [assumption|].
  intros line rest -> Hline Hskip i Hi.
  rewrite ParseLoop_cons, ParseLine_note, bind_Ok in Hloop by assumption.
  apply ParseLoop_keeps_earlier in Hloop as [_ Hkeep'].
  cbn [notes_ set_notes] in Hkeep'.
  rewrite Hkeep' by (rewrite length_app; simpl; lia).
  apply lookup_app_l. exact Hi.
Qed.

End Finished.

Lemma earlier_notes_are_final_witness :
  length [SetNote "Plan" (SetTitle "Plan" (SetUid "w1" Note_new))]
  <= length [SetNote "Plan" (SetTitle "Plan" (SetUid "w1" Note_new));
             SetUid "w2" Note_new]
  /\ [SetNote "Plan" (SetTitle "Plan" (SetUid "w1" Note_new)); SetUid "w2" Note_new] !! 0
     = [SetNote "Plan" (SetTitle "Plan" (SetUid "w1" Note_new))] !! 0.
Proof.
  destruct (earlier_notes_are_final Host.decimal_uint32 Example.options
              ["#NOTE"; "UNIQUEID=w1"; "NAME=Plan"] ["#NOTE"; "UNIQUEID=w2"]
              {| notes_ := [SetNote "Plan" (SetTitle "Plan" (SetUid "w1" Note_new))];
                 current_folder_name := EmptyString;
                 in_folder := false; in_trash := false |}
              [SetNote "Plan" (SetTitle "Plan" (SetUid "w1" Note_new));
               SetUid "w2" Note_new]
              eq_refl eq_refl) as (Hlen & _ & Hfinal).
  split; [exact Hlen|].
  apply (Hfinal "#NOTE" ["UNIQUEID=w2"] eq_refl eq_refl eq_refl 0). simpl. lia.
Defined.

(** ** The tags a note starts with *)

Section EveryTag.

Variable lexical_cast_uint32 : string -> option Z.
Variable options : Options.

Lemma fresh_note_tags (folder : string) :
  tags_ (fresh_note options folder) = note_tags options folder.
Proof.
  unfold fresh_note, note_tags.
  destruct (is_empty (default_tag options)), (is_empty folder); reflexivity.
Qed.

Lemma Step_note_tags (st st' : ParseState) (line : string) :
  Step lexical_cast_uint32 options st line st' ->
  Forall (fun n => exists folder, tags_ n = note_tags options folder) (notes_ st) ->
  Forall (fun n => exists folder, tags_ n = note_tags options folder) (notes_ st').
Proof.
  destruct 1;
    cbn [notes_ set_notes set_in_folder set_in_trash set_current_folder_name];
    rewrite ?enter_trash_notes; try (intros; assumption).
  - intros Hall. apply Forall_app. split; [assumption|].
    constructor; [|constructor]. eexists. apply fresh_note_tags.
  - match goal with H : notes_ _ = _ ++ _ |- _ => rewrite H end.
    rewrite !Forall_app, !Forall_singleton. intros [Hinit Hn]. auto.
  - match goal with H : notes_ _ = _ ++ _ |- _ => rewrite H end.
    rewrite !Forall_app, !Forall_singleton. intros [Hinit Hn]. auto.
  - match goal with H : notes_ _ = _ ++ _ |- _ => rewrite H end.
    rewrite !Forall_app, !Forall_singleton. intros [Hinit Hn]. auto.
Qed.

End EveryTag.

(** ** How many notes *)

Section HowMany.

Variable lexical_cast_uint32 : string -> option Z.
Variable options : Options.

Lemma Step_adds_at_most_one (st st' : ParseState) (line : string) :
  Step lexical_cast_uint32 options st line st' ->
  length (notes_ st') <= length (notes_ st) + (if is_note_line line then 1 else 0)
  /\ (export_trash options = true ->
      length (notes_ st') = length (notes_ st) + (if is_note_line line then 1 else 0)).
Proof.
  destruct 1;
    cbn [notes_ set_notes set_in_folder set_in_trash set_current_folder_name];
    rewrite ?enter_trash_notes;
    repeat match goal with
           | H : is_note_line _ = _ |- _ => rewrite H
           | H : notes_ _ = _ ++ _ |- _ => rewrite H
           end;
    rewrite ?length_app; simpl; try (split; [lia | intros; lia]).
  - destruct (folder_line_classes line) as [-> _]; [assumption|]. split; [lia | intros; lia].
  - split; [destruct (is_note_line line); lia|].
    intros Hexport. unfold skipping in *. rewrite Hexport, andb_false_r in *. discriminate.
Qed.

(** X11: a completed parse holds at most one note per [#NOTE] line of the
    input, and with export-trash on exactly one per [#NOTE] line. *)
Theorem notes_per_note_line (lines : list string) (notes : list Note) :
  ParseLines lexical_cast_uint32 options lines = Ok notes ->
  length notes <= count_lines is_note_line lines
  /\ (export_trash options = true -> length notes = count_lines is_note_line lines).
Proof.
  intros Hparse. unfold ParseLines in Hparse.
  apply bind_Ok_inv in Hparse as (final & Hloop & [= <-]).
  change (count_lines is_note_line lines)
    with (length (notes_ ParseState_init) + count_lines is_note_line lines).
  revert Hloop. generalize ParseState_init as st. revert final.
  induction lines as [|l lines IH]; intros final st Hloop.
  - injection Hloop as <-. simpl. split; [lia | intros; lia].
  - rewrite ParseLoop_cons in Hloop. apply bind_Ok_inv in Hloop as (st1 & H1 & H2).
    apply ParseLine_Step, Step_adds_at_most_one in H1 as [Hle Heq].
    destruct (IH _ _ H2) as [IHle IHeq]. cbn [count_lines].
    split; [lia|]. intros Hexport. specialize (Heq Hexport). specialize (IHeq Hexport). lia.
Qed.

End HowMany.

Lemma notes_per_note_line_witness :
  length Example.normal_notes
  <= count_lines is_note_line (Example.trashed_lines ++ Example.normal_lines)
  /\ (export_trash Example.options = true ->
      length Example.normal_notes
      = count_lines is_note_line (Example.trashed_lines ++ Example.normal_lines)).
Proof.
  apply (notes_per_note_line Host.decimal_uint32 Example.options
           (Example.trashed_lines ++ Example.normal_lines) Example.normal_notes).
  reflexivity.
Defined.

(** ** Export of the trash *)

Section ExportTrash.

Variable lexical_cast_uint32 : string -> option Z.
Variable options : Options.
Hypothesis export : export_trash options = true.

Lemma skipping_off (st : ParseState) : skipping options st = false.
Proof. unfold skipping. rewrite export. apply andb_false_r. Qed.

Lemma ParseLine_trash_line_exported (st : ParseState) (line : string) :
  is_trash_line line = true ->
  ParseLine lexical_cast_uint32 options st line = Ok (set_in_trash true st).
Proof.
  intros Htrash. rewrite ParseLine_unfold. cbv zeta. rewrite skipping_off.
  pose proof Htrash as Hprop. unfold is_trash_line in Hprop.
  apply andb_prop in Hprop as [Hprop _].
  fold (has_prop "TRASH FOLDER" line) in Hprop.
  destruct (has_prop_classes _ _ Hprop) as (-> & -> & _).
  rewrite (has_prop_other _ "UNIQUEID" _ Hprop), (has_prop_other _ "NAME" _ Hprop),
    (has_prop_other _ "CREATED" _ Hprop).
  unfold enter_trash. rewrite Htrash, andb_false_r. reflexivity.
Qed.

Lemma same_but_trash_enter (st1 st2 : ParseState) (l1 l2 : string) :
  same_but_trash st1 st2 -> same_but_trash (enter_trash l1 st1) (enter_trash l2 st2).
Proof.
  intros (Hn & Hf & Hi). unfold same_but_trash.
  now rewrite !enter_trash_notes, !enter_trash_folder_name, !enter_trash_in_folder.
Qed.

Lemma ParseLine_same_but_trash (st1 st2 : ParseState) (line : string) :
  same_but_trash st1 st2 ->
  Result_rel same_but_trash (ParseLine lexical_cast_uint32 options st1 line)
             (ParseLine lexical_cast_uint32 options st2 line).
Proof.
  intros HR. pose proof (same_but_trash_enter _ _ line line HR) as (Hn' & Hf' & Hi').
  destruct HR as (Hn & Hf & Hi).
  rewrite !ParseLine_unfold. cbv zeta. rewrite !skipping_off, Hn, Hf, Hi.
  destruct (is_folder_line line); [repeat split; assumption|].
  destruct (is_note_line line); [repeat split; assumption|].
  assert (Hset : forall m : Note -> Note,
             Result_rel same_but_trash
               (at_rbegin m (notes_ st2)
                  ≫= fun notes => Ok (set_notes notes (enter_trash line st1)))
               (at_rbegin m (notes_ st2)
                  ≫= fun notes => Ok (set_notes notes (enter_trash line st2)))).
  { intros m. destruct (at_rbegin m (notes_ st2)); [|reflexivity].
    repeat split; assumption. }
  destruct (negb (in_folder st2) && has_prop "UNIQUEID" line); [apply Hset|].
  destruct (has_prop "NAME" line).
  { destruct (in_folder st2).
    - destruct (ParseFolderName (GetLinePropertyValue line)); [|reflexivity].
      repeat split; assumption.
    - destruct (at_rbegin _ (notes_ st2)) as [notes|]; [|reflexivity].
      rewrite !bind_Ok. destruct (at_rbegin _ notes); [|reflexivity].
      repeat split; assumption. }
  destruct (has_prop "CREATED" line).
  { destruct (lexical_cast_uint32 (GetLinePropertyValue line)); [apply Hset | reflexivity]. }
  repeat split; assumption.
Qed.

Lemma ParseLoop_without_trash_lines (lines : list string) (st1 st2 : ParseState) :
  same_but_trash st1 st2 ->
  Result_rel same_but_trash
             (ParseLoop lexical_cast_uint32 options st1
                        (filter (fun l => is_trash_line l = false) lines))
             (ParseLoop lexical_cast_uint32 options st2 lines).
Proof.
  revert st1 st2. induction lines as [|l lines IH]; intros st1 st2 HR; [exact HR|].
  rewrite filter_cons. destruct (decide (is_trash_line l = false)) as [Hl|Hl].
  - rewrite !ParseLoop_cons. apply (bind_rel same_but_trash).
    + now apply ParseLine_same_but_trash.
    + exact IH.
  - apply not_false_is_true in Hl.
    rewrite (ParseLoop_cons _ _ st2), ParseLine_trash_line_exported, bind_Ok by assumption.
    apply IH. destruct HR as (Hn & Hf & Hi). repeat split; assumption.
Qed.

(** X12: with export-trash on, the [TRASH FOLDER=YES] lines of the input
    are without effect: the parse ends as it does on the input from which
    they have been removed, with the same notes or with the same failure. *)
Theorem exported_trash_lines_are_inert (lines : list string) :
  ParseLines lexical_cast_uint32 options (filter (fun l => is_trash_line l = false) lines)
  = ParseLines lexical_cast_uint32 options lines.
Proof.
  unfold ParseLines.
  pose proof (ParseLoop_without_trash_lines lines ParseState_init ParseState_init) as H.
  destruct (ParseLoop lexical_cast_uint32 options ParseState_init
              (filter (fun l => is_trash_line l = false) lines)) as [st1|f1],
      (ParseLoop lexical_cast_uint32 options ParseState_init lines) as [st2|f2];
    simpl in H.
  - destruct H as (Hn & _ & _); [repeat split|]. rewrite !bind_Ok. now rewrite Hn.
  - destruct H. repeat split.
  - destruct H. repeat split.
  - rewrite !bind_Fail. f_equal. apply H. repeat split.
Qed.

End ExportTrash.

Lemma exported_trash_lines_are_inert_witness :
  ParseLines Host.decimal_uint32
    {| default_tag := EmptyString; export_trash := true; input := "notes.adr";
       output := "exported"; convert_tags_to_notebooks := false |}
    (filter (fun l => is_trash_line l = false) Example.trashed_lines)
  = ParseLines Host.decimal_uint32
      {| default_tag := EmptyString; export_trash := true; input := "notes.adr";
         output := "exported"; convert_tags_to_notebooks := false |}
      Example.trashed_lines.
Proof.
  apply (exported_trash_lines_are_inert Host.decimal_uint32
           {| default_tag := EmptyString; export_trash := true; input := "notes.adr";
              output := "exported"; convert_tags_to_notebooks := false |} eq_refl).
Defined.

(** ** Property lines without a note *)

Section NoNoteYet.

Variable lexical_cast_uint32 : string -> option Z.
Variable format_ptime : ptime -> string.
Variable can_create : string -> bool.
Variable options : Options.

Lemma ParseLine_no_note (st : ParseState) (line : string) :
  notes_ st = [] ->
  skipping options st = false ->
  (has_prop "UNIQUEID" line = true /\ in_folder st = false)
  \/ (has_prop "NAME" line = true /\ in_folder st = false)
  \/ (has_prop "CREATED" line = true
      /\ exists t, lexical_cast_uint32 (GetLinePropertyValue line) = Some t) ->
  ParseLine lexical_cast_uint32 options st line = Fail rbegin_of_empty.
Proof.
  intros Hnotes Hskip Hcase. rewrite ParseLine_unfold. cbv zeta.
  destruct Hcase as [[Hprop Hin]|[[Hprop Hin]|[Hprop [t Ht]]]];
    destruct (has_prop_classes _ _ Hprop) as (-> & -> & Htrash);
    rewrite (enter_trash_not_trash _ _ Htrash), Hskip, Hnotes.
  - rewrite Hprop, Hin. reflexivity.
  - rewrite (has_prop_other _ "UNIQUEID" _ Hprop), Hprop, Hin. reflexivity.
  - rewrite (has_prop_other _ "UNIQUEID" _ Hprop), (has_prop_other _ "NAME" _ Hprop),
      Hprop, Ht, andb_false_r.
    reflexivity.
Qed.

(** X13: when no note has been started yet, a line that reaches the
    [UNIQUEID] handler, the [NAME] handler outside a folder header, or the
    [CREATED] handler with a value that [lexical_cast] accepts (in a folder
    header or not) makes the loop take the last element of the empty
    vector, and the behaviour of the run is undefined from there. *)
Theorem property_line_before_first_note
        (pre post : list string) (line : string) (st : ParseState) :
  ParseLoop lexical_cast_uint32 options ParseState_init pre = Ok st ->
  notes_ st = [] ->
  skipping options st = false ->
  (has_prop "UNIQUEID" line = true /\ in_folder st = false)
  \/ (has_prop "NAME" line = true /\ in_folder st = false)
  \/ (has_prop "CREATED" line = true
      /\ exists t, lexical_cast_uint32 (GetLinePropertyValue line) = Some t) ->
  ParseLines lexical_cast_uint32 options (pre ++ line :: post) = Fail rbegin_of_empty
  /\ forall fs content,
      fs !! input options = Some content ->
      getlines content = pre ++ line :: post ->
      main lexical_cast_uint32 format_ptime can_create options fs
      = Undefined rbegin_of_empty.
Proof.
  intros Hpre Hnotes Hskip Hcase.
  assert (Hparse : ParseLines lexical_cast_uint32 options (pre ++ line :: post)
                   = Fail rbegin_of_empty).
  { unfold ParseLines. rewrite ParseLoop_app, Hpre, bind_Ok, ParseLoop_cons.
    now rewrite ParseLine_no_note. }
  split; [exact Hparse|].
  intros fs content Hfile Hlines. unfold main, ParseFile.
  now rewrite Hfile, Hlines, Hparse.
Qed.

End NoNoteYet.

Lemma property_line_before_first_note_witness :
  ParseLines Host.decimal_uint32 Example.options
    (["#FOLDER"; tb +:+ "NAME=Work"] ++ (tb +:+ "CREATED=1000000000") :: ["#NOTE"])
  = Fail rbegin_of_empty
  /\ forall fs content,
      fs !! input Example.options = Some content ->
      getlines content
      = ["#FOLDER"; tb +:+ "NAME=Work"] ++ (tb +:+ "CREATED=1000000000") :: ["#NOTE"] ->
      main Host.decimal_uint32 Host.utc_format Host.writable Example.options fs
      = Undefined rbegin_of_empty.
Proof.
  apply (property_line_before_first_note Host.decimal_uint32 Host.utc_format Host.writable
           Example.options ["#FOLDER"; tb +:+ "NAME=Work"] ["#NOTE"]
           (tb +:+ "CREATED=1000000000")
           {| notes_ := []; current_folder_name := "Work";
              in_folder := true; in_trash := false |}).
  - reflexivity.
  - reflexivity.
  - reflexivity.
  - right. right. split; [reflexivity|]. exists 1000000000%Z. reflexivity.
Defined.

(** ** The lines of a folder header *)

Section FolderHeader.

Variable lexical_cast_uint32 : string -> option Z.
Variable options : Options.

(** X14: in a folder header that is not passed over as trash, a
    [UNIQUEID] line changes nothing, a [NAME] line with a token makes that
    token the current folder name and touches no note, and a [CREATED]
    line with a value that [lexical_cast] accepts sets the creation time
    of the note started last, the last note of the folder before. *)
Theorem folder_header_lines (st : ParseState) (line : string) :
  in_folder st = true ->
  skipping options st = false ->
  (has_prop "UNIQUEID" line = true ->
   ParseLine lexical_cast_uint32 options st line = Ok st)
  /\ (forall tok,
         has_prop "NAME" line = true ->
         tokens_begin stx_separator (GetLinePropertyValue line) = Some tok ->
         ParseLine lexical_cast_uint32 options st line
         = Ok (set_current_folder_name tok st))
  /\ (forall t init n,
         has_prop "CREATED" line = true ->
         lexical_cast_uint32 (GetLinePropertyValue line) = Some t ->
         notes_ st = init ++ [n] ->
         ParseLine lexical_cast_uint32 options st line
         = Ok (set_notes (init ++ [SetCreationTimeFromUnixTime t n]) st)).
Proof.
  intros Hin Hskip. split; [|split].
  - intros Hprop. rewrite ParseLine_unfold. cbv zeta.
    destruct (has_prop_classes _ _ Hprop) as (-> & -> & Htrash).
    rewrite (enter_trash_not_trash _ _ Htrash), Hskip, Hin.
    rewrite (has_prop_other _ "NAME" _ Hprop), (has_prop_other _ "CREATED" _ Hprop).
    reflexivity.
  - intros tok Hprop Htok. rewrite ParseLine_unfold. cbv zeta.
    destruct (has_prop_classes _ _ Hprop) as (-> & -> & Htrash).
    rewrite (enter_trash_not_trash _ _ Htrash), Hskip, Hin, Hprop.
    unfold ParseFolderName. rewrite Htok. reflexivity.
  - intros t init n Hprop Ht Hnotes. rewrite ParseLine_unfold. cbv zeta.
    destruct (has_prop_classes _ _ Hprop) as (-> & -> & Htrash).
    rewrite (enter_trash_not_trash _ _ Htrash), Hskip, Hin.
    rewrite (has_prop_other _ "UNIQUEID" _ Hprop), (has_prop_other _ "NAME" _ Hprop).
    rewrite Hprop, Ht, Hnotes, !at_rbegin_snoc. reflexivity.
Qed.

End FolderHeader.

Lemma folder_header_lines_witness :
  ParseLine Host.decimal_uint32 Example.options
    {| notes_ := [SetUid "w1" Note_new]; current_folder_name := "Work";
       in_folder := true; in_trash := false |}
    (tb +:+ "CREATED=1000000000")
  = Ok (set_notes ([] ++ [SetCreationTimeFromUnixTime 1000000000 (SetUid "w1" Note_new)])
          {| notes_ := [SetUid "w1" Note_new]; current_folder_name := "Work";
             in_folder := true; in_trash := false |}).
Proof.
  destruct (folder_header_lines Host.decimal_uint32 Example.options
              {| notes_ := [SetUid "w1" Note_new]; current_folder_name := "Work";
                 in_folder := true; in_trash := false |}
              (tb +:+ "CREATED=1000000000") eq_refl eq_refl) as (_ & _ & Hcreated).
  apply (Hcreated 1000000000%Z [] (SetUid "w1" Note_new)); reflexivity.
Defined.

(** ** What [WriteFiles] touches *)

Section WrittenFiles.

Variable format_ptime : ptime -> string.
Variable can_create : string -> bool.
Variable options : Options.

Lemma created_paths_one (n : Note) :
  created_paths can_create options [n]
  = if written can_create options n then {[out_fname options n]} else ∅.
Proof.
  unfold created_paths, written. rewrite filter_cons, filter_nil.
  destruct (negb (is_empty (note_ n)) && can_create (out_fname options n)).
  - rewrite decide_True by reflexivity. simpl. set_solver.
  - rewrite decide_False by discriminate. reflexivity.
Qed.

Lemma CreateTomboyNote_written (n : Note) (fs : gmap string string) :
  (CreateTomboyNote format_ptime can_create options n fs).1
  = if written can_create options n
    then <[out_fname options n := AsTomboyNote format_ptime options n +:+ nl]> fs
    else fs.
Proof.
  unfold CreateTomboyNote, written.
  destruct (is_empty (note_ n)); [reflexivity|].
  destruct (can_create (out_fname options n)); reflexivity.
Qed.

Lemma WriteFiles_loop_frame (notes : list Note) (fs : gmap string string)
      (log : list Message) (p : string) :
  p ∉ created_paths can_create options notes ->
  (WriteFiles_loop format_ptime can_create options notes fs log).1 !! p = fs !! p.
Proof.
  revert fs log. induction notes as [|n notes IH]; intros fs log Hp; [reflexivity|].
  rewrite created_paths_cons, created_paths_one in Hp.
  cbn [WriteFiles_loop].
  pose proof (CreateTomboyNote_written n fs) as Hn.
  destruct (CreateTomboyNote format_ptime can_create options n fs) as [fs' msgs].
  simpl in Hn. rewrite IH by set_solver. subst fs'.
  destruct (written can_create options n); [|reflexivity].
  apply lookup_insert_ne. set_solver.
Qed.

Lemma WriteFiles_loop_app (a b : list Note) (fs : gmap string string) (log : list Message) :
  WriteFiles_loop format_ptime can_create options (a ++ b) fs log
  = WriteFiles_loop format_ptime can_create options b
      (WriteFiles_loop format_ptime can_create options a fs log).1
      (WriteFiles_loop format_ptime can_create options a fs log).2.
Proof.
  revert fs log. induction a as [|n a IH]; intros fs log; [reflexivity|].
  cbn [app WriteFiles_loop].
  destruct (CreateTomboyNote format_ptime can_create options n fs) as [fs' msgs].
  apply IH.
Qed.

(** X15: [WriteFiles] leaves every path alone at which it creates no file:
    the content there, or the absence of a file, is as before; no file
    disappears; and when no note has both a body and a path that can be
    created, the file system is exactly as it was. *)
Theorem WriteFiles_touches_only_its_paths (notes : list Note) (fs : gmap string string) :
  (forall p, p ∉ created_paths can_create options notes ->
             (WriteFiles format_ptime can_create options notes fs).1 !! p = fs !! p)
  /\ dom fs ⊆ dom (WriteFiles format_ptime can_create options notes fs).1
  /\ (Forall (fun n => written can_create options n = false) notes ->
      (WriteFiles format_ptime can_create options notes fs).1 = fs).
Proof.
  unfold WriteFiles. split; [|split].
  - intros p Hp. now apply WriteFiles_loop_frame.
  - rewrite WriteFiles_loop_dom. set_solver.
  - intros Hnone. apply map_eq. intros p. apply WriteFiles_loop_frame.
    clear fs. induction Hnone as [|n notes Hn _ IH].
    + unfold created_paths. simpl. set_solver.
    + rewrite created_paths_cons, created_paths_one, Hn. set_solver.
Qed.

(** X16: when several notes are written to the same path, which happens
    when they share their identifier, the file holds the document of the
    last of them. *)
Theorem last_note_of_a_path_wins
        (pre rest : list Note) (n : Note) (fs : gmap string string) :
  written can_create options n = true ->
  out_fname options n ∉ created_paths can_create options rest ->
  (WriteFiles format_ptime can_create options (pre ++ n :: rest) fs).1
    !! out_fname options n
  = Some (AsTomboyNote format_ptime options n +:+ nl).
Proof.
  intros Hn Hrest. unfold WriteFiles.
  rewrite WriteFiles_loop_app. cbn [WriteFiles_loop].
  set (mid := WriteFiles_loop format_ptime can_create options pre fs []).
  pose proof (CreateTomboyNote_written n mid.1) as Hw. rewrite Hn in Hw.
  destruct (CreateTomboyNote format_ptime can_create options n mid.1) as [fs' msgs].
  simpl in Hw. rewrite WriteFiles_loop_frame by assumption. subst fs'.
  apply lookup_insert_eq.
Qed.

End WrittenFiles.

Lemma WriteFiles_touches_only_its_paths_witness :
  (WriteFiles Host.utc_format Host.writable Example.options
              [SetUid "w1" Note_new] (<["notes.adr" := "#NOTE"]> ∅)).1
  = <["notes.adr" := "#NOTE"]> ∅.
Proof.
  destruct (WriteFiles_touches_only_its_paths Host.utc_format Host.writable Example.options
              [SetUid "w1" Note_new] (<["notes.adr" := "#NOTE"]> ∅)) as (_ & _ & Hnone).
  apply Hnone. constructor; [reflexivity | constructor].
Defined.

Lemma last_note_of_a_path_wins_witness :
  (WriteFiles Host.utc_format Host.writable Example.options
              ([SetNote "first" (SetUid "w1" Note_new)]
               ++ SetNote "second" (SetUid "w1" Note_new)
               :: [SetNote "other" (SetUid "w2" Note_new)]) ∅).1
    !! out_fname Example.options (SetNote "second" (SetUid "w1" Note_new))
  = Some (AsTomboyNote Host.utc_format Example.options
                       (SetNote "second" (SetUid "w1" Note_new)) +:+ nl).
Proof.
  apply (last_note_of_a_path_wins Host.utc_format Host.writable Example.options
           [SetNote "first" (SetUid "w1" Note_new)]
           [SetNote "other" (SetUid "w2" Note_new)]
           (SetNote "second" (SetUid "w1" Note_new)) ∅).
  - reflexivity.
  - rewrite created_paths_one.
    change (written Host.writable Example.options (SetNote "other" (SetUid "w2" Note_new)))
      with true.
    cbv beta iota. intros Hin. apply elem_of_singleton in Hin. discriminate Hin.
Defined.

(** ** How [main] ends *)

Section Outcomes.

Variable lexical_cast_uint32 : string -> option Z.
Variable format_ptime : ptime -> string.
Variable can_create : string -> bool.
Variable options : Options.

(** X17: [main] leaves with status 255 and an untouched file system when
    the input file cannot be opened; it returns 0 exactly when the input
    file opens and the parse pass completes; and however it ends short of
    undefined behaviour, no file that was there before is gone. *)
Theorem main_outcomes (fs : gmap string string) :
  (fs !! input options = None ->
   main lexical_cast_uint32 format_ptime can_create options fs
   = Returned 255 fs [cerr "Failed to open input file"])
  /\ (exited_zero (main lexical_cast_uint32 format_ptime can_create options fs) = true
      <-> exists content notes,
          fs !! input options = Some content
          /\ ParseLines lexical_cast_uint32 options (getlines content) = Ok notes)
  /\ (forall fs',
         files_after (main lexical_cast_uint32 format_ptime can_create options fs) = Some fs' ->
         dom fs ⊆ dom fs').
Proof.
  unfold main, ParseFile.
  destruct (fs !! input options) as [content|] eqn:Hfile.
  - destruct (ParseLines lexical_cast_uint32 options (getlines content))
      as [notes|f] eqn:Hparse.
    + pose proof (WriteFiles_loop_dom format_ptime can_create options notes fs []) as Hdom.
      unfold WriteFiles.
      destruct (WriteFiles_loop format_ptime can_create options notes fs []) as [fs1 log].
      simpl in Hdom. split; [discriminate|]. split.
      * split; [eauto | reflexivity].
      * intros fs' [= <-]. rewrite Hdom. set_solver.
    + split; [discriminate|]. split.
      * split; [destruct f; discriminate|]. intros (c & ns & Hc & Hns). congruence.
      * destruct f; simpl; intros fs' H; try discriminate.
        injection H as <-. reflexivity.
  - split; [reflexivity|]. split.
    + split; [discriminate|]. intros (c & ns & Hc & _). discriminate.
    + intros fs' [= <-]. reflexivity.
Qed.

End Outcomes.

Lemma main_outcomes_witness :
  main Host.decimal_uint32 Host.utc_format Host.writable Example.options ∅
  = Returned 255 ∅ [cerr "Failed to open input file"].
Proof.
  destruct (main_outcomes Host.decimal_uint32 Host.utc_format Host.writable
              Example.options ∅) as (Hclosed & _ & _).
  apply Hclosed. apply lookup_empty.
Defined.

(** ** Lines inside the trash *)

Section InsideTrash.

Variable lexical_cast_uint32 : string -> option Z.
Variable options : Options.

(** X18: with export-trash off, once the trash flag is up the lines up to
    the next [#FOLDER] line leave notes, folder name and flags as they
    are and cannot make the parse fail, whatever they hold: a [CREATED]
    value that cannot be read or a property line without a note among
    them is never looked at. *)
Theorem trashed_lines_change_nothing (lines rest : list string) (st : ParseState) :
  export_trash options = false ->
  in_trash st = true ->
  Forall (fun l => is_folder_line l = false) lines ->
  ParseLoop lexical_cast_uint32 options st lines = Ok st
  /\ ParseLoop lexical_cast_uint32 options st (lines ++ rest)
     = ParseLoop lexical_cast_uint32 options st rest.
Proof.
  intros Hexport Htrash Hlines.
  pose proof (ParseLoop_in_trash lexical_cast_uint32 options Hexport lines st Hlines Htrash)
    as Hloop.
  split; [exact Hloop|].
  now rewrite ParseLoop_app, Hloop, bind_Ok.
Qed.

End InsideTrash.

Lemma trashed_lines_change_nothing_witness :
  ParseLoop Host.decimal_uint32 Example.options
    {| notes_ := []; current_folder_name := "Trash"; in_folder := true; in_trash := true |}
    ["UNIQUEID=t1"; "CREATED=yesterday"; "#NOTE"; "NAME=Old"]
  = Ok {| notes_ := []; current_folder_name := "Trash"; in_folder := true; in_trash := true |}
  /\ ParseLoop Host.decimal_uint32 Example.options
       {| notes_ := []; current_folder_name := "Trash"; in_folder := true; in_trash := true |}
       (["UNIQUEID=t1"; "CREATED=yesterday"; "#NOTE"; "NAME=Old"] ++ ["#FOLDER"; "#NOTE"])
     = ParseLoop Host.decimal_uint32 Example.options
         {| notes_ := []; current_folder_name := "Trash"; in_folder := true; in_trash := true |}
         ["#FOLDER"; "#NOTE"].
Proof.
  apply (trashed_lines_change_nothing Host.decimal_uint32 Example.options
           ["UNIQUEID=t1"; "CREATED=yesterday"; "#NOTE"; "NAME=Old"] ["#FOLDER"; "#NOTE"]
           {| notes_ := []; current_folder_name := "Trash";
              in_folder := true; in_trash := true |}).
  - reflexivity.
  - reflexivity.
  - repeat (constructor; [reflexivity|]). constructor.
Defined.

(** ** Instances of the statements above *)

Lemma EscapeXml_fixes_plain_text_witness :
  EscapeXml "Boil and serve" = "Boil and serve".
Proof.
  destruct (EscapeXml_fixes_plain_text "Boil and serve") as [[_ Hplain] _].
  apply Hplain. repeat split.
Defined.

Lemma titles_and_folder_names_witness :
  ParseFolderName (str1 Chars.stx +:+ str1 Chars.stx) = Fail deref_end_token
  /\ ParseNoteTitle ("Recipes" +:+ str1 Chars.stx) = "Recipes".
Proof.
  split.
  - destruct (titles_and_folder_names (str1 Chars.stx +:+ str1 Chars.stx))
      as (_ & _ & [_ Hfail] & _).
    apply Hfail. reflexivity.
  - destruct (titles_and_folder_names ("Recipes" +:+ str1 Chars.stx))
      as (_ & _ & _ & Hname).
    apply (Hname "Recipes"). reflexivity.
Defined.

(** * Timestamps, folders and files *)

(** ** The numerals [lexical_cast] reads *)

Section Numerals.

Lemma decimal_loop_value (s : string) (acc : Z) :
  Host.decimal_loop s acc
  = if all_digits s
    then Some (acc * 10 ^ Z.of_nat (String.length s) + positional_value s)%Z
    else None.
Proof.
  revert acc. induction s as [|c s IH]; intros acc.
  - simpl. f_equal. lia.
  - cbn [Host.decimal_loop all_digits positional_value String.length]. unfold is_digit.
    destruct (Host.digit c) as [d|] eqn:Hd; [|reflexivity].
    cbn [andb]. rewrite IH. destruct (all_digits s); [|reflexivity].
    f_equal. unfold Host.digit in Hd.
    destruct ((48 <=? Z.of_nat (nat_of_ascii c))%Z && (Z.of_nat (nat_of_ascii c) <=? 57)%Z);
      [|discriminate].
    injection Hd as <-. rewrite Nat2Z.inj_succ, Z.pow_succ_r by lia. ring.
Qed.

Lemma unsigned_digits_spec (s : string) :
  Host.unsigned_digits s
  = if is_uint32_decimal s then Some (positional_value s) else None.
Proof.
  unfold Host.unsigned_digits, is_uint32_decimal.
  destruct (is_empty s); [reflexivity|]. cbn [negb andb].
  rewrite decimal_loop_value. destruct (all_digits s); [|reflexivity].
  cbn [andb]. rewrite Z.mul_0_l, Z.add_0_l. reflexivity.
Qed.

Lemma digits_start_with_digit (c : ascii) (s : string) :
  is_uint32_decimal (String c s) = true -> is_digit c = true.
Proof.
  unfold is_uint32_decimal. cbn [is_empty negb all_digits andb].
  destruct (is_digit c); [reflexivity | discriminate].
Qed.

Lemma signed_uint32_decimal_read (v : string) :
  signed_uint32_decimal v <-> exists n, Host.decimal_uint32 v = Some n.
Proof.
  split.
  - intros (sign & digits & -> & Hsign & Hdigits).
    destruct Hsign as [-> | [-> | ->]].
    + change (EmptyString +:+ digits) with digits.
      destruct digits as [|c digits]; [discriminate|].
      pose proof (digits_start_with_digit _ _ Hdigits) as Hc.
      unfold Host.decimal_uint32.
      destruct (Ascii.eqb_spec c "-") as [->|_]; [discriminate|].
      destruct (Ascii.eqb_spec c "+") as [->|_]; [discriminate|].
      rewrite unsigned_digits_spec, Hdigits. eauto.
    + change ("+" +:+ digits) with (String "+" digits). unfold Host.decimal_uint32.
      cbn [Ascii.eqb Bool.eqb]. rewrite unsigned_digits_spec, Hdigits. eauto.
    + change ("-" +:+ digits) with (String "-" digits). unfold Host.decimal_uint32.
      cbn [Ascii.eqb Bool.eqb]. rewrite unsigned_digits_spec, Hdigits. eauto.
  - intros [n Hn]. destruct v as [|c v]; [discriminate|].
    unfold Host.decimal_uint32 in Hn.
    destruct (Ascii.eqb_spec c "-") as [->|_].
    { rewrite unsigned_digits_spec in Hn.
      destruct (is_uint32_decimal v) eqn:Hv; [|discriminate].
      exists "-", v. auto. }
    destruct (Ascii.eqb_spec c "+") as [->|_].
    { rewrite unsigned_digits_spec in Hn.
      destruct (is_uint32_decimal v) eqn:Hv; [|discriminate].
      exists "+", v. auto. }
    rewrite unsigned_digits_spec in Hn.
    destruct (is_uint32_decimal (String c v)) eqn:Hv; [|discriminate].
    exists EmptyString, (String c v). auto.
Qed.

Lemma decimal_uint32_rejects (v : string) :
  ~ signed_uint32_decimal v -> Host.decimal_uint32 v = None.
Proof.
  intros Hv. destruct (Host.decimal_uint32 v) as [n|] eqn:E; [|reflexivity].
  exfalso. apply Hv. apply signed_uint32_decimal_read. eauto.
Qed.

End Numerals.

(** ** A timestamp that [lexical_cast] rejects *)

Section RejectedTimestamp.

Variable format_ptime : ptime -> string.
Variable can_create : string -> bool.
Variable options : Options.

Lemma rejected_timestamp_terminates
      (lexical_cast_uint32 : string -> option Z)
      (fs : gmap string string) (content : string)
      (pre post : list string) (line : string) (st : ParseState) :
  fs !! input options = Some content ->
  getlines content = pre ++ line :: post ->
  ParseLoop lexical_cast_uint32 options ParseState_init pre = Ok st ->
  has_prop "CREATED" line = true ->
  skipping options st = false ->
  lexical_cast_uint32 (GetLinePropertyValue line) = None ->
  main lexical_cast_uint32 format_ptime can_create options fs = Terminated fs [].
Proof.
  intros Hfile Hlines Hpre Hcreated Hskip Hcast.
  unfold main, ParseFile, ParseLines. rewrite Hfile, Hlines.
  rewrite ParseLoop_app, Hpre, bind_Ok, ParseLoop_cons.
  rewrite ParseLine_created_unreadable by assumption. reflexivity.
Qed.

End RejectedTimestamp.

(** C8, as the program has it: [lexical_cast] reads an optional sign
    followed by an unsigned decimal integer representable in 32 bits, and
    nothing else.  When the loop gets to a [CREATED] line that is not
    passed over as trash and whose value is not of that form, the process
    is terminated by the uncaught exception: it does not exit with status
    zero, and since nothing has been written yet the file system is as it
    was. *)
Theorem unreadable_timestamp_is_fatal :
  (forall v, signed_uint32_decimal v <-> exists n, Host.decimal_uint32 v = Some n)
  /\ (forall format_ptime can_create options
             (fs : gmap string string) content pre post line st,
         fs !! input options = Some content ->
         getlines content = pre ++ line :: post ->
         ParseLoop Host.decimal_uint32 options ParseState_init pre = Ok st ->
         has_prop "CREATED" line = true ->
         skipping options st = false ->
         ~ signed_uint32_decimal (GetLinePropertyValue line) ->
         main Host.decimal_uint32 format_ptime can_create options fs = Terminated fs []
         /\ exited_zero (main Host.decimal_uint32 format_ptime can_create options fs) = false
         /\ files_after (main Host.decimal_uint32 format_ptime can_create options fs)
            = Some fs).
Proof.
  split; [exact signed_uint32_decimal_read|].
  intros format can_create options fs content pre post line st
         Hfile Hlines Hpre Hcreated Hskip Hvalue.
  rewrite (rejected_timestamp_terminates format can_create options Host.decimal_uint32
             fs content pre post line st)
    by (assumption || now apply decimal_uint32_rejects).
  auto.
Qed.

Lemma unreadable_timestamp_is_fatal_witness :
  main Host.decimal_uint32 Host.utc_format Host.writable Example.options
       (<["notes.adr" :=
            Example.unlines ["#NOTE"; "UNIQUEID=abc123"; "NAME=Soup"; "CREATED=1 000"]]> ∅)
  = Terminated
      (<["notes.adr" :=
           Example.unlines ["#NOTE"; "UNIQUEID=abc123"; "NAME=Soup"; "CREATED=1 000"]]> ∅) []
  /\ exited_zero
       (main Host.decimal_uint32 Host.utc_format Host.writable Example.options
             (<["notes.adr" :=
                  Example.unlines ["#NOTE"; "UNIQUEID=abc123"; "NAME=Soup"; "CREATED=1 000"]]>
                ∅)) = false
  /\ files_after
       (main Host.decimal_uint32 Host.utc_format Host.writable Example.options
             (<["notes.adr" :=
                  Example.unlines ["#NOTE"; "UNIQUEID=abc123"; "NAME=Soup"; "CREATED=1 000"]]>
                ∅))
     = Some (<["notes.adr" :=
                 Example.unlines ["#NOTE"; "UNIQUEID=abc123"; "NAME=Soup"; "CREATED=1 000"]]>
               ∅).
Proof.
  destruct unreadable_timestamp_is_fatal as [Hread Hfatal].
  apply (Hfatal Host.utc_format Host.writable Example.options _
           (Example.unlines ["#NOTE"; "UNIQUEID=abc123"; "NAME=Soup"; "CREATED=1 000"])
           ["#NOTE"; "UNIQUEID=abc123"; "NAME=Soup"] [] "CREATED=1 000"
           {| notes_ := [SetNote "Soup" (SetTitle "Soup" (SetUid "abc123" Note_new))];
              current_folder_name := EmptyString; in_folder := false; in_trash := false |}).
  - apply lookup_insert_eq.
  - reflexivity.
  - reflexivity.
  - reflexivity.
  - reflexivity.
  - intros Hv. apply Hread in Hv as [n Hn]. discriminate Hn.
Defined.

(** C8 as worded fails: [-1] is not an unsigned decimal integer, yet a
    [CREATED=-1] line that the loop handles does not stop the run, which
    returns 0. *)
Lemma signed_timestamp_counterexample :
  ~ (forall (options : Options) (fs : gmap string string) content pre post line st,
        fs !! input options = Some content ->
        getlines content = pre ++ line :: post ->
        ParseLoop Host.decimal_uint32 options ParseState_init pre = Ok st ->
        has_prop "CREATED" line = true ->
        skipping options st = false ->
        is_uint32_decimal (GetLinePropertyValue line) = false ->
        exited_zero (main Host.decimal_uint32 Host.utc_format Host.writable options fs)
        = false).
Proof.
  intros Hclaim.
  specialize (Hclaim Example.options
                (<["notes.adr" :=
                     Example.unlines ["#NOTE"; "UNIQUEID=abc123"; "NAME=Soup"; "CREATED=-1"]]> ∅)
                (Example.unlines ["#NOTE"; "UNIQUEID=abc123"; "NAME=Soup"; "CREATED=-1"])
                ["#NOTE"; "UNIQUEID=abc123"; "NAME=Soup"] [] "CREATED=-1"
                {| notes_ := [SetNote "Soup" (SetTitle "Soup" (SetUid "abc123" Note_new))];
                   current_folder_name := EmptyString;
                   in_folder := false; in_trash := false |}
                (lookup_insert_eq _ _ _) eq_refl eq_refl eq_refl eq_refl eq_refl).
  unfold main, ParseFile in Hclaim.
  change (input Example.options) with "notes.adr" in Hclaim.
  rewrite lookup_insert_eq in Hclaim.
  replace (ParseLines Host.decimal_uint32 Example.options
             (getlines (Example.unlines
                          ["#NOTE"; "UNIQUEID=abc123"; "NAME=Soup"; "CREATED=-1"])))
    with (Ok [SetCreationTimeFromUnixTime 4294967295
                (SetNote "Soup" (SetTitle "Soup" (SetUid "abc123" Note_new)))])
    in Hclaim by reflexivity.
  destruct (WriteFiles _ _ _ _ _) as [fs' log] in Hclaim.
  discriminate Hclaim.
Qed.

(** ** A note under a named folder *)

Section UnderFolder.

Variable lexical_cast_uint32 : string -> option Z.
Variable options : Options.

Lemma Step_plain_header (st st' : ParseState) (line : string) :
  Step lexical_cast_uint32 options st line st' ->
  in_folder st = true ->
  in_trash st = false ->
  is_folder_line line = false ->
  is_note_line line = false ->
  is_trash_line line = false ->
  in_folder st' = true /\ in_trash st' = false
  /\ length (notes_ st') = length (notes_ st)
  /\ (has_prop "NAME" line = false -> current_folder_name st' = current_folder_name st).
Proof.
  intros Hstep Hin Htrash Hfolder Hnote Hline.
  pose proof (enter_trash_not_trash line st Hline) as Henter.
  destruct Hstep; rewrite ?Henter in *;
    cbn [notes_ in_folder in_trash current_folder_name
         set_notes set_in_folder set_in_trash set_current_folder_name];
    try congruence.
  - unfold skipping in *. rewrite Htrash in *. discriminate.
  - repeat split; try assumption. congruence.
  - repeat split; try assumption.
    match goal with H : notes_ _ = _ ++ _ |- _ => rewrite H end.
    now rewrite !length_app.
  - repeat split; assumption.
Qed.

Lemma ParseLoop_plain_header (lines : list string) (st st' : ParseState) :
  Forall (fun l => is_folder_line l = false /\ is_note_line l = false
                   /\ is_trash_line l = false) lines ->
  in_folder st = true ->
  in_trash st = false ->
  ParseLoop lexical_cast_uint32 options st lines = Ok st' ->
  in_folder st' = true /\ in_trash st' = false
  /\ length (notes_ st') = length (notes_ st)
  /\ (Forall (fun l => has_prop "NAME" l = false) lines ->
      current_folder_name st' = current_folder_name st).
Proof.
  intros Hlines. revert st.
  induction Hlines as [|l lines (Hf & Hn & Ht) _ IH]; intros st Hin Htrash H.
  - injection H as <-. auto.
  - rewrite ParseLoop_cons in H. apply bind_Ok_inv in H as (st1 & H1 & H2).
    apply ParseLine_Step in H1.
    destruct (Step_plain_header _ _ _ H1 Hin Htrash Hf Hn Ht) as (Hin1 & Htrash1 & Hlen1 & Hname1).
    destruct (IH _ Hin1 Htrash1 H2) as (Hin' & Htrash' & Hlen' & Hname').
    repeat split; try assumption; [congruence|].
    intros Hnames. inversion Hnames; subst. rewrite Hname', Hname1 by assumption.
    reflexivity.
Qed.

Lemma Step_in_named_folder (st st' : ParseState) (line : string) :
  Step lexical_cast_uint32 options st line st' ->
  in_trash st = false ->
  is_folder_line line = false ->
  is_trash_line line = false ->
  (in_folder st = true -> is_note_line line = false -> has_prop "NAME" line = false) ->
  in_trash st' = false
  /\ current_folder_name st' = current_folder_name st
  /\ length (notes_ st') = length (notes_ st) + (if is_note_line line then 1 else 0)
  /\ (in_folder st' = true -> in_folder st = true /\ is_note_line line = false).
Proof.
  intros Hstep Htrash Hfolder Hline Hname.
  pose proof (enter_trash_not_trash line st Hline) as Henter.
  destruct Hstep; rewrite ?Henter in *;
    cbn [notes_ in_folder in_trash current_folder_name
         set_notes set_in_folder set_in_trash set_current_folder_name];
    try congruence.
  all: try (unfold skipping in *; rewrite Htrash in *; discriminate).
  all: try (match goal with
            | H : has_prop "NAME" ?l = true, H1 : in_folder ?s = true,
              H2 : is_note_line ?l = false |- _ =>
                rewrite (Hname H1 H2) in H; discriminate H
            end).
  all: try match goal with H : is_note_line _ = _ |- _ => rewrite H end;
    try match goal with H : notes_ _ = _ ++ _ |- _ => rewrite H end;
    rewrite ?length_app; simpl; repeat split; auto; try lia; try discriminate.
Qed.

(** Between the [NAME] line of a folder header and the next [#FOLDER]
    line the folder name stays, and each [#NOTE] line adds one note. *)
Lemma ParseLoop_in_named_folder (lines : list string) (st st' : ParseState) :
  Forall (fun l => is_folder_line l = false /\ is_trash_line l = false) lines ->
  in_trash st = false ->
  (in_folder st = true -> no_name_before_note lines = true) ->
  ParseLoop lexical_cast_uint32 options st lines = Ok st' ->
  in_trash st' = false
  /\ current_folder_name st' = current_folder_name st
  /\ length (notes_ st') = length (notes_ st) + count_lines is_note_line lines.
Proof.
  intros Hlines. revert st.
  induction Hlines as [|l lines (Hf & Ht) _ IH]; intros st Htrash Hnames H.
  - injection H as <-. simpl. repeat split; [assumption | lia].
  - rewrite ParseLoop_cons in H. apply bind_Ok_inv in H as (st1 & H1 & H2).
    apply ParseLine_Step in H1.
    destruct (Step_in_named_folder _ _ _ H1 Htrash Hf Ht) as (Htrash1 & Hname1 & Hlen1 & Hin1).
    { intros Hin Hnote. specialize (Hnames Hin). cbn [no_name_before_note] in Hnames.
      rewrite Hnote in Hnames. apply andb_prop in Hnames as [Hnames _].
      now apply negb_true_iff in Hnames. }
    destruct (IH st1 Htrash1) as (Htrash' & Hname' & Hlen'); [|exact H2|].
    { intros Hin. destruct (Hin1 Hin) as [Hin0 Hnote]. specialize (Hnames Hin0).
      cbn [no_name_before_note] in Hnames. rewrite Hnote in Hnames.
      now apply andb_prop in Hnames as [_ Hnames]. }
    repeat split; [assumption | congruence |].
    rewrite Hlen', Hlen1. simpl. lia.
Qed.

Lemma ParseLoop_Ok_prefix (pre post : list string) (st st' : ParseState) :
  ParseLoop lexical_cast_uint32 options st (pre ++ post) = Ok st' ->
  exists mid, ParseLoop lexical_cast_uint32 options st pre = Ok mid
              /\ ParseLoop lexical_cast_uint32 options mid post = Ok st'.
Proof. rewrite ParseLoop_app. apply bind_Ok_inv. Qed.

(** A note that a [#NOTE] line starts in the folder whose header names
    it [name]: [between] holds what is left of the header and the lines
    of the folder's earlier notes. *)
Lemma note_under_folder
      (pre before between rest : list string) (folder name_line note : string)
      (name : string) (notes : list Note) :
  is_folder_line folder = true ->
  Forall (fun l => is_folder_line l = false /\ is_note_line l = false
                   /\ is_trash_line l = false) before ->
  has_prop "NAME" name_line = true ->
  ParseFolderName (GetLinePropertyValue name_line) = Ok name ->
  Forall (fun l => is_folder_line l = false /\ is_trash_line l = false) between ->
  no_name_before_note between = true ->
  is_note_line note = true ->
  ParseLines lexical_cast_uint32 options
             (pre ++ folder :: before ++ name_line :: between ++ note :: rest) = Ok notes ->
  exists notes_pre,
    ParseLines lexical_cast_uint32 options pre = Ok notes_pre
    /\ tags_ <$> notes !! (length notes_pre + count_lines is_note_line between)
       = Some (note_tags options name).
Proof.
  intros Hfolder Hbefore Hname Hvalue Hbetween Hnames Hnote Hparse.
  unfold ParseLines in Hparse. apply bind_Ok_inv in Hparse as (final & Hloop & [= <-]).
  apply ParseLoop_Ok_prefix in Hloop as (st0 & Hpre & Hloop).
  exists (notes_ st0). split; [unfold ParseLines; now rewrite Hpre|].
  rewrite ParseLoop_cons, ParseLine_folder, bind_Ok in Hloop by assumption.
  apply ParseLoop_Ok_prefix in Hloop as (st1 & Hhead & Hloop).
  apply ParseLoop_plain_header in Hhead as (Hin1 & Htrash1 & Hlen1 & _);
    [|assumption|reflexivity|reflexivity].
  cbn [notes_ set_in_trash set_in_folder] in Hlen1.
  rewrite ParseLoop_cons in Hloop. apply bind_Ok_inv in Hloop as (st2 & Hline & Hloop).
  assert (Hst2 : st2 = set_current_folder_name name st1).
  { rewrite ParseLine_unfold in Hline. cbv zeta in Hline.
    destruct (has_prop_classes _ _ Hname) as (Hf & Hn & Ht).
    rewrite Hf, Hn, (enter_trash_not_trash _ _ Ht) in Hline.
    unfold skipping in Hline.
    rewrite Htrash1, Hin1, Hname, Hvalue in Hline. cbn in Hline. congruence. }
  subst st2.
  apply ParseLoop_Ok_prefix in Hloop as (st3 & Htail & Hloop).
  apply ParseLoop_in_named_folder in Htail as (Htrash3 & Hname3 & Hlen3);
    [|assumption|assumption|intros _; assumption].
  cbn [notes_ current_folder_name set_current_folder_name] in Hlen3, Hname3.
  rewrite ParseLoop_cons, ParseLine_note, bind_Ok in Hloop
    by (assumption || (unfold skipping; now rewrite Htrash3)).
  apply ParseLoop_tags in Hloop as (extra & Htags).
  cbn [notes_ set_notes] in Htags.
  rewrite <- list_lookup_fmap, Htags, fmap_app.
  rewrite lookup_app_l by (rewrite length_app, length_fmap; simpl; lia).
  rewrite lookup_app_r by (rewrite length_fmap; lia).
  replace (length (notes_ st0) + count_lines is_note_line between
           - length (tags_ <$> notes_ st3)) with 0
    by (rewrite length_fmap; lia).
  cbn. now rewrite fresh_note_tags, Hname3.
Qed.

End UnderFolder.

(** C7: with the default tag [Imported], a note that a [#NOTE] line
    starts in the folder whose header names it [Work] (the first note
    after the header or a later one, up to the next [#FOLDER] line) ends
    the parse with the tags [Imported], [Work] in that order; with
    tags-to-notebooks on, the document carries one tag element per tag
    whose text is [system:notebook:] followed by the escaped tag, and
    putting the prefix in front before escaping would give the same
    text. *)
Theorem tags_default_then_folder :
  (forall lexical_cast_uint32 options pre before between rest folder name_line note notes,
      default_tag options = "Imported" ->
      is_folder_line folder = true ->
      Forall (fun l => is_folder_line l = false /\ is_note_line l = false
                       /\ is_trash_line l = false) before ->
      has_prop "NAME" name_line = true ->
      ParseFolderName (GetLinePropertyValue name_line) = Ok "Work" ->
      Forall (fun l => is_folder_line l = false /\ is_trash_line l = false) between ->
      no_name_before_note between = true ->
      is_note_line note = true ->
      ParseLines lexical_cast_uint32 options
                 (pre ++ folder :: before ++ name_line :: between ++ note :: rest) = Ok notes ->
      exists notes_pre,
        ParseLines lexical_cast_uint32 options pre = Ok notes_pre
        /\ tags_ <$> notes !! (length notes_pre + count_lines is_note_line between)
           = Some ["Imported"; "Work"])
  /\ (forall format_ptime options n,
        convert_tags_to_notebooks options = true ->
        AsTomboyNote format_ptime options n
        = document_head format_ptime n
          +:+ concat_strings
                ((fun tag => tb +:+ tb +:+ "<tag>" +:+ "system:notebook:"
                             +:+ EscapeXml tag +:+ "</tag>" +:+ nl) <$> tags_ n)
          +:+ document_tail)
  /\ (forall tag,
        "system:notebook:" +:+ EscapeXml tag = EscapeXml ("system:notebook:" +:+ tag)).
Proof.
  split; [|split].
  - intros lex options pre before between rest folder name_line note notes
           Hdefault Hfolder Hbefore Hname Hvalue Hbetween Hnames Hnote Hparse.
    destruct (note_under_folder lex options pre before between rest folder name_line note
                "Work" notes Hfolder Hbefore Hname Hvalue Hbetween Hnames Hnote Hparse)
      as (notes_pre & Hpre & Htags).
    exists notes_pre. split; [assumption|].
    rewrite Htags. unfold note_tags. now rewrite Hdefault.
  - intros format options n Hflag. rewrite AsTomboyNote_document.
    unfold tag_element. rewrite Hflag. reflexivity.
  - intros tag. rewrite EscapeXml_app. reflexivity.
Qed.

Lemma tags_default_then_folder_witness :
  exists notes,
    ParseLines Host.decimal_uint32
      {| default_tag := "Imported"; export_trash := false; input := "notes.adr";
         output := "exported"; convert_tags_to_notebooks := true |}
      (["#NOTE"; tb +:+ "UNIQUEID=first"]
       ++ "#FOLDER" :: [tb +:+ "ID=12"] ++ (tb +:+ "NAME=Work")
       :: [tb +:+ "UNIQUEID=F1"; "#NOTE"; tb +:+ "UNIQUEID=w1"; tb +:+ "NAME=Plan"]
       ++ "#NOTE" :: [tb +:+ "UNIQUEID=abc123"; tb +:+ "NAME=Soup"])
    = Ok notes
    /\ (exists notes_pre,
           ParseLines Host.decimal_uint32
             {| default_tag := "Imported"; export_trash := false; input := "notes.adr";
                output := "exported"; convert_tags_to_notebooks := true |}
             ["#NOTE"; tb +:+ "UNIQUEID=first"] = Ok notes_pre
           /\ tags_ <$> notes !! (length notes_pre + 1) = Some ["Imported"; "Work"])
    /\ AsTomboyNote Host.utc_format
         {| default_tag := "Imported"; export_trash := false; input := "notes.adr";
            output := "exported"; convert_tags_to_notebooks := true |}
         (AddTag "Work" (AddTag "Imported" Note_new))
       = document_head Host.utc_format (AddTag "Work" (AddTag "Imported" Note_new))
         +:+ (tb +:+ tb +:+ "<tag>system:notebook:Imported</tag>" +:+ nl
              +:+ tb +:+ tb +:+ "<tag>system:notebook:Work</tag>" +:+ nl)
         +:+ document_tail.
Proof.
  destruct tags_default_then_folder as (Hparse & Hdoc & _).
  eexists. split; [vm_compute; reflexivity|]. split.
  - apply (Hparse Host.decimal_uint32
             {| default_tag := "Imported"; export_trash := false; input := "notes.adr";
                output := "exported"; convert_tags_to_notebooks := true |}
             ["#NOTE"; tb +:+ "UNIQUEID=first"] [tb +:+ "ID=12"]
             [tb +:+ "UNIQUEID=F1"; "#NOTE"; tb +:+ "UNIQUEID=w1"; tb +:+ "NAME=Plan"]
             [tb +:+ "UNIQUEID=abc123"; tb +:+ "NAME=Soup"]
             "#FOLDER" (tb +:+ "NAME=Work") "#NOTE").
    + reflexivity.
    + reflexivity.
    + repeat (constructor; [repeat split|]). constructor.
    + reflexivity.
    + reflexivity.
    + repeat (constructor; [repeat split|]). constructor.
    + reflexivity.
    + reflexivity.
    + vm_compute. reflexivity.
  - rewrite Hdoc by reflexivity. reflexivity.
Defined.

(** ** The tags of every note *)

Section TagsOfEveryNote.

Variable lexical_cast_uint32 : string -> option Z.
Variable options : Options.

(** The note that a [#NOTE] line starts keeps to the end the tags it is
    given at that line: the default tag and the folder name of the
    moment. *)
Lemma note_at_line (pre post : list string) (line : string) (st : ParseState)
      (notes : list Note) :
  ParseLoop lexical_cast_uint32 options ParseState_init pre = Ok st ->
  is_note_line line = true ->
  skipping options st = false ->
  ParseLines lexical_cast_uint32 options (pre ++ line :: post) = Ok notes ->
  tags_ <$> notes !! length (notes_ st)
  = Some (note_tags options (current_folder_name st)).
Proof.
  intros Hpre Hnote Hskip Hparse.
  unfold ParseLines in Hparse. apply bind_Ok_inv in Hparse as (final & Hloop & [= <-]).
  rewrite ParseLoop_app, Hpre, bind_Ok in Hloop.
  rewrite ParseLoop_cons, ParseLine_note, bind_Ok in Hloop by assumption.
  apply ParseLoop_tags in Hloop as (extra & Htags).
  cbn [notes_ set_notes] in Htags.
  rewrite <- list_lookup_fmap, Htags, fmap_app.
  rewrite lookup_app_l by (rewrite length_app, length_fmap; simpl; lia).
  rewrite lookup_app_r by (rewrite length_fmap; lia).
  rewrite length_fmap, Nat.sub_diag. cbn. now rewrite fresh_note_tags.
Qed.

(** X10: the tags of the notes of a completed parse.  Every note carries
    the default tag, when one is set, followed by the name of one folder,
    when there was one, and nothing else: at most two tags.  The note
    that a [#NOTE] line starts carries the folder name the loop holds
    when it reaches that line, which is there exactly when it is not
    empty.  And for a [#NOTE] line of the folder whose header names it
    [name], the first after the header or a later one, the folder name
    is [name]. *)
Theorem every_note_tags :
  (forall lines notes,
      ParseLines lexical_cast_uint32 options lines = Ok notes ->
      Forall (fun n => (exists folder, tags_ n = note_tags options folder)
                       /\ length (tags_ n) <= 2) notes)
  /\ (forall pre line post st notes,
         ParseLoop lexical_cast_uint32 options ParseState_init pre = Ok st ->
         is_note_line line = true ->
         skipping options st = false ->
         ParseLines lexical_cast_uint32 options (pre ++ line :: post) = Ok notes ->
         tags_ <$> notes !! length (notes_ st)
         = Some ((if is_empty (default_tag options) then [] else [default_tag options])
                 ++ (if is_empty (current_folder_name st) then []
                     else [current_folder_name st])))
  /\ (forall pre before between rest folder name_line note name notes,
         is_folder_line folder = true ->
         Forall (fun l => is_folder_line l = false /\ is_note_line l = false
                          /\ is_trash_line l = false) before ->
         has_prop "NAME" name_line = true ->
         ParseFolderName (GetLinePropertyValue name_line) = Ok name ->
         Forall (fun l => is_folder_line l = false /\ is_trash_line l = false) between ->
         no_name_before_note between = true ->
         is_note_line note = true ->
         ParseLines lexical_cast_uint32 options
                    (pre ++ folder :: before ++ name_line :: between ++ note :: rest)
         = Ok notes ->
         exists notes_pre,
           ParseLines lexical_cast_uint32 options pre = Ok notes_pre
           /\ tags_ <$> notes !! (length notes_pre + count_lines is_note_line between)
              = Some ((if is_empty (default_tag options) then [] else [default_tag options])
                      ++ [name])).
Proof.
  split; [|split].
  - intros lines notes Hparse. unfold ParseLines in Hparse.
    apply bind_Ok_inv in Hparse as (final & Hloop & [= <-]).
    assert (Hall : Forall (fun n => exists folder, tags_ n = note_tags options folder)
                          (notes_ final)).
    { apply (ParseLoop_ind lexical_cast_uint32 options
               (fun st st' =>
                  Forall (fun n => exists folder, tags_ n = note_tags options folder)
                         (notes_ st) ->
                  Forall (fun n => exists folder, tags_ n = note_tags options folder)
                         (notes_ st'))
               (fun s H => H)
               (fun s l s1 s2 Hstep H2 H => H2 (Step_note_tags _ _ _ _ _ Hstep H))
               lines ParseState_init final Hloop).
      constructor. }
    eapply Forall_impl; [exact Hall|].
    intros n [folder Htags]. split; [eauto|].
    rewrite Htags. unfold note_tags.
    destruct (is_empty (default_tag options)), (is_empty folder); simpl; lia.
  - intros pre line post st notes Hpre Hnote Hskip Hparse.
    exact (note_at_line pre post line st notes Hpre Hnote Hskip Hparse).
  - intros pre before between rest folder name_line note name notes
           Hfolder Hbefore Hname Hvalue Hbetween Hnames Hnote Hparse.
    destruct (note_under_folder lexical_cast_uint32 options
                pre before between rest folder name_line note name notes
                Hfolder Hbefore Hname Hvalue Hbetween Hnames Hnote Hparse)
      as (notes_pre & Hpre & Htags).
    exists notes_pre. split; [assumption|].
    rewrite Htags. unfold note_tags.
    assert (Hne : is_empty name = false).
    { unfold ParseFolderName in Hvalue.
      destruct (tokens_begin stx_separator (GetLinePropertyValue name_line)) as [t|] eqn:Ht;
        [|discriminate].
      injection Hvalue as <-.
      apply tokens_begin_Some in Ht as (Hne & _ & _). now apply is_empty_false. }
    now rewrite Hne.
Qed.

End TagsOfEveryNote.

Lemma every_note_tags_witness :
  Forall (fun n => (exists folder,
                       tags_ n = note_tags (default_options "notes.adr" "exported") folder)
                   /\ length (tags_ n) <= 2)
         Example.normal_notes
  /\ tags_ <$> Example.normal_notes !! 1 = Some ["Work"]
  /\ (exists notes_pre,
         ParseLines Host.decimal_uint32 (default_options "notes.adr" "exported")
                    Example.trashed_lines = Ok notes_pre
         /\ tags_ <$> Example.normal_notes !! (length notes_pre + 1) = Some ["Work"]).
Proof.
  destruct (every_note_tags Host.decimal_uint32 (default_options "notes.adr" "exported"))
    as (Hall & Hline & Hunder).
  split; [|split].
  - apply (Hall Example.normal_lines Example.normal_notes). reflexivity.
  - exact (Hline (take 5 Example.normal_lines) "#NOTE" (drop 6 Example.normal_lines)
                 _ Example.normal_notes eq_refl eq_refl eq_refl eq_refl).
  - apply (Hunder Example.trashed_lines [] (take 3 (drop 2 Example.normal_lines))
                  (drop 6 Example.normal_lines)
                  "#FOLDER" (tb +:+ "NAME=Work") "#NOTE" "Work"
                  Example.normal_notes);
      try reflexivity; repeat (constructor; [repeat split|]); constructor.
Defined.

(** ** The files of the untrashed folder *)

Section FolderFiles.

Variable lexical_cast_uint32 : string -> option Z.
Variable format_ptime : ptime -> string.
Variable can_create : string -> bool.
Variable options : Options.

Lemma out_fname_note_path (n : Note) : out_fname options n = note_path options (uid_ n).
Proof. reflexivity. Qed.

Lemma append_cancel_r (a b s : string) : a +:+ s = b +:+ s -> a = b.
Proof.
  revert b. induction a as [|c a IH]; intros [|d b] H.
  - reflexivity.
  - apply (f_equal String.length) in H. rewrite !append_length in H. simpl in H. lia.
  - apply (f_equal String.length) in H. rewrite !append_length in H. simpl in H. lia.
  - injection H as -> H. f_equal. now apply IH.
Qed.

Lemma append_cancel_l (s a b : string) : s +:+ a = s +:+ b -> a = b.
Proof. induction s as [|c s IH]; [auto|]. intros [= H]. auto. Qed.

Lemma note_path_inj (u u' : string) :
  note_path options u = note_path options u' -> u = u'.
Proof.
  unfold note_path. intros H.
  apply append_cancel_l, append_cancel_l in H. now apply append_cancel_r in H.
Qed.

Lemma written_well_formed (n : Note) :
  uid_ n <> EmptyString ->
  written can_create options n = well_formed can_create options n.
Proof.
  intros Huid. unfold written, well_formed. rewrite out_fname_note_path.
  apply is_empty_false in Huid. rewrite Huid.
  now destruct (is_empty (note_ n)).
Qed.

Lemma created_paths_elem (notes : list Note) (p : string) :
  p ∈ created_paths can_create options notes ->
  exists j m, notes !! j = Some m /\ p = note_path options (uid_ m)
              /\ written can_create options m = true.
Proof.
  unfold created_paths. rewrite elem_of_list_to_set, list_elem_of_fmap.
  intros (m & -> & Hm). apply list_elem_of_filter in Hm as [Hw Hm].
  apply list_elem_of_lookup in Hm as [j Hj].
  exists j, m. auto.
Qed.

(** A well-formed note that no later note shares its identifier with has
    its document in its file when [WriteFiles] is done. *)
Lemma WriteFiles_own_file (notes : list Note) (fs : gmap string string) (i : nat) (n : Note) :
  notes !! i = Some n ->
  well_formed can_create options n = true ->
  (forall j m, i < j -> notes !! j = Some m -> uid_ m <> uid_ n) ->
  (WriteFiles format_ptime can_create options notes fs).1 !! note_path options (uid_ n)
  = Some (AsTomboyNote format_ptime options n +:+ nl).
Proof.
  intros Hi Hwf Hlater.
  pose proof (take_drop_middle notes i n Hi) as Hsplit.
  assert (Hlen : length (take i notes) = i).
  { apply length_take_le. apply lookup_lt_Some in Hi. lia. }
  rewrite <- Hsplit. unfold WriteFiles.
  rewrite WriteFiles_loop_app. cbn [WriteFiles_loop].
  set (mid := WriteFiles_loop format_ptime can_create options (take i notes) fs []).
  assert (Huid : uid_ n <> EmptyString).
  { unfold well_formed in Hwf. apply andb_prop in Hwf as [Hwf _].
    apply andb_prop in Hwf as [_ Hwf]. apply negb_true_iff in Hwf.
    now apply is_empty_false. }
  pose proof (CreateTomboyNote_written format_ptime can_create options n mid.1) as Hw.
  rewrite (written_well_formed n Huid), Hwf in Hw.
  destruct (CreateTomboyNote format_ptime can_create options n mid.1) as [fs' msgs].
  simpl in Hw. subst fs'.
  rewrite WriteFiles_loop_frame.
  - rewrite out_fname_note_path. apply lookup_insert_eq.
  - intros Hin. apply created_paths_elem in Hin as (j & m & Hj & Hpath & _).
    apply note_path_inj in Hpath.
    apply (Hlater (S (i + j)) m); [lia| |congruence].
    rewrite <- Hsplit, lookup_app_r by lia.
    rewrite Hlen. replace (S (i + j) - i) with (S j) by lia. exact Hj.
Qed.

Lemma filter_written_well_formed (notes : list Note) :
  Forall (fun n => note_ n = EmptyString \/ uid_ n <> EmptyString) notes ->
  filter (fun n => negb (is_empty (note_ n)) && can_create (out_fname options n) = true) notes
  = filter (fun n => well_formed can_create options n = true) notes.
Proof.
  induction 1 as [|n notes Hn _ IH]; [reflexivity|].
  rewrite !filter_cons, IH.
  assert (Heq : negb (is_empty (note_ n)) && can_create (out_fname options n)
                = well_formed can_create options n).
  { destruct Hn as [Hn|Hn].
    - unfold well_formed. now rewrite Hn.
    - now apply written_well_formed. }
  rewrite Heq. destruct (decide _); reflexivity.
Qed.

(** The files [WriteFiles] adds when every note with a body has an
    identifier. *)
Lemma WriteFiles_new_files (notes : list Note) (fs : gmap string string) :
  Forall (fun n => note_ n = EmptyString \/ uid_ n <> EmptyString) notes ->
  dom (WriteFiles format_ptime can_create options notes fs).1
  = dom fs ∪ list_to_set
               (note_path options <$>
                  (uid_ <$> filter (fun n => well_formed can_create options n = true) notes)).
Proof.
  intros Huid. unfold WriteFiles. rewrite WriteFiles_loop_dom. f_equal.
  unfold created_paths. rewrite filter_written_well_formed by assumption.
  now rewrite <- list_fmap_compose.
Qed.

Lemma WriteFiles_count (notes : list Note) (fs : gmap string string) :
  Forall (fun n => note_ n = EmptyString \/ uid_ n <> EmptyString) notes ->
  NoDup (uid_ <$> filter (fun n => well_formed can_create options n = true) notes) ->
  (forall n, n ∈ notes -> well_formed can_create options n = true ->
             fs !! note_path options (uid_ n) = None) ->
  size (dom (WriteFiles format_ptime can_create options notes fs).1)
  = size (dom fs)
    + length (filter (fun n => well_formed can_create options n = true) notes).
Proof.
  intros Huid Hnodup Hfresh. rewrite WriteFiles_new_files by assumption.
  rewrite size_union.
  - f_equal. rewrite size_list_to_set.
    + now rewrite !length_fmap.
    + apply NoDup_fmap_2; [|assumption]. intros u u'. apply note_path_inj.
  - intros p Hp Hin. apply elem_of_list_to_set, list_elem_of_fmap in Hin as (u & -> & Hu).
    apply list_elem_of_fmap in Hu as (n & -> & Hn).
    apply list_elem_of_filter in Hn as [Hwf Hn].
    apply elem_of_dom in Hp as [x Hx]. rewrite (Hfresh n Hn Hwf) in Hx. discriminate.
Qed.

End FolderFiles.

Section UntrashedFolder.

Variable lexical_cast_uint32 : string -> option Z.
Variable format_ptime : ptime -> string.
Variable can_create : string -> bool.
Variable options : Options.

Lemma Returned_files (s s' : Z) (fs fs' : gmap string string) (log log' : list Message) :
  Returned s fs log = Returned s' fs' log' -> fs = fs'.
Proof. intros H. apply (f_equal files_after) in H. simpl in H. congruence. Qed.

Lemma main_of_parse (fs : gmap string string) (content : string) (notes : list Note) :
  fs !! input options = Some content ->
  ParseLines lexical_cast_uint32 options (getlines content) = Ok notes ->
  main lexical_cast_uint32 format_ptime can_create options fs
  = Returned 0 (WriteFiles format_ptime can_create options notes fs).1
             (WriteFiles format_ptime can_create options notes fs).2.
Proof.
  intros Hfile Hparse. unfold main, ParseFile. rewrite Hfile, Hparse.
  now destruct (WriteFiles format_ptime can_create options notes fs).
Qed.

(** C3: take a folder block that carries [TRASH FOLDER=YES] and one
    without any such line, in either order, with export-trash off, in a
    run whose parse pass completes.  The notes of the run are those of
    the untrashed block, one per [#NOTE] line of it, so the trashed
    block gives rise to no note.  The run returns 0, and in the files it
    leaves: a note with a body, an identifier and a file that can be
    created has its document at [<output>/<uid>.note], unless a later
    note has the same identifier; when every note with a body has an
    identifier, the files are the earlier ones and those of the
    well-formed notes, and when these notes have pairwise distinct
    identifiers and none of their files was there before, there is
    exactly one more file per well-formed note.  A [#FOLDER] line is
    acted upon in every state, trash or not, and clears the trash
    flag. *)
Theorem trash_folder_filtered
        (trashed normal lines : list string) (content : string)
        (fs : gmap string string) (notes : list Note) :
  export_trash options = false ->
  trashed_block trashed ->
  untrashed_block normal ->
  lines = trashed ++ normal \/ lines = normal ++ trashed ->
  fs !! input options = Some content ->
  getlines content = lines ->
  ParseLines lexical_cast_uint32 options lines = Ok notes ->
  exists notes_normal fs' log,
    ParseLines lexical_cast_uint32 options normal = Ok notes_normal
    /\ Forall2 same_record notes notes_normal
    /\ length notes = count_lines is_note_line normal
    /\ main lexical_cast_uint32 format_ptime can_create options fs = Returned 0 fs' log
    /\ (forall i n,
           notes !! i = Some n ->
           well_formed can_create options n = true ->
           (forall j m, i < j -> notes !! j = Some m -> uid_ m <> uid_ n) ->
           fs' !! note_path options (uid_ n)
           = Some (AsTomboyNote format_ptime options n +:+ nl))
    /\ (Forall (fun n => note_ n = EmptyString \/ uid_ n <> EmptyString) notes ->
        dom fs'
        = dom fs ∪ list_to_set
                     (note_path options <$>
                        (uid_ <$> filter (fun n => well_formed can_create options n = true)
                                         notes))
        /\ (NoDup (uid_ <$> filter (fun n => well_formed can_create options n = true) notes) ->
            (forall n, n ∈ notes -> well_formed can_create options n = true ->
                       fs !! note_path options (uid_ n) = None) ->
            size (dom fs')
            = size (dom fs)
              + length (filter (fun n => well_formed can_create options n = true) notes)))
    /\ (forall st line,
           is_folder_line line = true ->
           ParseLine lexical_cast_uint32 options st line
           = Ok (set_in_trash false (set_in_folder true st))).
Proof.
  intros Hexport Htrashed Hnormal Horder Hfile Hlines Hparse.
  destruct (ParseLines_two_blocks lexical_cast_uint32 options Hexport
              _ _ _ _ Htrashed Hnormal Horder Hparse)
    as (notes_normal & Hnormal_parse & Hsame).
  exists notes_normal,
    (WriteFiles format_ptime can_create options notes fs).1,
    (WriteFiles format_ptime can_create options notes fs).2.
  split; [assumption|]. split; [assumption|]. split.
  { rewrite (Forall2_length _ _ _ Hsame).
    eapply ParseLines_untrashed_count; eassumption. }
  split.
  { apply (main_of_parse fs content notes Hfile). now rewrite Hlines. }
  split.
  { intros i n Hi Hwf Hlater. now apply (WriteFiles_own_file format_ptime can_create options notes fs i n). }
  split.
  { intros Huid. split.
    - now apply WriteFiles_new_files.
    - intros Hnodup Hfresh. now apply WriteFiles_count. }
  intros st line Hfolder. now apply ParseLine_folder.
Qed.

End UntrashedFolder.

Lemma trash_folder_filtered_witness :
  exists fs' log,
    main Host.decimal_uint32 Host.utc_format Host.writable Example.options
         (<["notes.adr" :=
              Example.unlines (Example.trashed_lines ++ Example.normal_lines)]> ∅)
    = Returned 0 fs' log
    /\ fs' !! "exported/w1.note"
       = (fun n => AsTomboyNote Host.utc_format Example.options n +:+ nl)
           <$> Example.normal_notes !! 0
    /\ fs' !! "exported/w2.note"
       = (fun n => AsTomboyNote Host.utc_format Example.options n +:+ nl)
           <$> Example.normal_notes !! 1
    /\ size (dom fs') = 3.
Proof.
  destruct (trash_folder_filtered Host.decimal_uint32 Host.utc_format Host.writable
              Example.options
              Example.trashed_lines Example.normal_lines
              (Example.trashed_lines ++ Example.normal_lines)
              (Example.unlines (Example.trashed_lines ++ Example.normal_lines))
              (<["notes.adr" :=
                   Example.unlines (Example.trashed_lines ++ Example.normal_lines)]> ∅)
              Example.normal_notes)
    as (notes_normal & fs' & log & _ & _ & _ & Hmain & Hown & Hdom & _).
  - reflexivity.
  - exists "#FOLDER", [tb +:+ "NAME=Trash"], (tb +:+ "TRASH FOLDER=YES"),
      ["#NOTE"; tb +:+ "UNIQUEID=t1"; tb +:+ "NAME=Old"].
    repeat split; repeat (constructor; [first [reflexivity | split; reflexivity]|]);
      constructor.
  - exists "#FOLDER", (tail Example.normal_lines).
    repeat split; repeat (constructor; [first [reflexivity | split; reflexivity]|]);
      constructor.
  - left. reflexivity.
  - apply lookup_insert_eq.
  - reflexivity.
  - reflexivity.
  - exists fs', log. split; [exact Hmain|]. split; [|split].
    + apply (Hown 0 _ eq_refl eq_refl).
      intros [|[|j]] m Hlt [= <-]; [lia | discriminate].
    + apply (Hown 1 _ eq_refl eq_refl).
      intros [|[|j]] m Hlt Hm; [lia | lia | discriminate].
    + destruct Hdom as [_ Hsize].
      { repeat (apply Forall_cons_2; [right; discriminate|]). apply Forall_nil_2. }
      rewrite Hsize.
      * rewrite dom_insert_L, dom_empty_L, union_empty_r_L, size_singleton. reflexivity.
      * clear. vm_compute. apply NoDup_cons_2; [|apply NoDup_singleton].
        intros Hin. apply elem_of_cons in Hin as [Hin | Hin]; [discriminate | inversion Hin].
      * intros n Hn _. apply lookup_insert_None. split; [apply lookup_empty|].
        apply elem_of_cons in Hn as [-> | Hn]; [discriminate|].
        apply elem_of_cons in Hn as [-> | Hn]; [discriminate|].
        inversion Hn.
Defined.

(** C3 as worded fails twice over.  Two well-formed notes of the
    untrashed folder that share the identifier [w1] leave one file
    between them, not one each; and a well-formed note followed by
    [CREATED=soon] leaves none, the run ending at that line. *)
Lemma trash_folder_counterexample :
  ~ (forall (normal : list string) (notes : list Note) (fs : gmap string string),
        untrashed_block normal ->
        fs !! "notes.adr" = Some (Example.unlines (Example.trashed_lines ++ normal)) ->
        ParseLines Host.decimal_uint32 Example.options normal = Ok notes ->
        Forall (fun n => well_formed Host.writable Example.options n = true) notes ->
        (forall n, n ∈ notes -> fs !! note_path Example.options (uid_ n) = None) ->
        exists fs' log,
          main Host.decimal_uint32 Host.utc_format Host.writable Example.options fs
          = Returned 0 fs' log
          /\ size (dom fs') = size (dom fs) + length notes)
  /\ ~ (forall (record rest : list string) (n : Note) (fs : gmap string string),
          untrashed_block ("#FOLDER" :: record ++ rest) ->
          fs !! "notes.adr"
          = Some (Example.unlines (Example.trashed_lines ++ "#FOLDER" :: record ++ rest)) ->
          ParseLines Host.decimal_uint32 Example.options ("#FOLDER" :: record) = Ok [n] ->
          well_formed Host.writable Example.options n = true ->
          exists fs',
            files_after
              (main Host.decimal_uint32 Host.utc_format Host.writable Example.options fs)
            = Some fs'
            /\ is_Some (fs' !! note_path Example.options (uid_ n))).
Proof.
  split.
  - intros H.
    destruct (H Scenario.shared_uid_lines Scenario.shared_uid_notes
                (<["notes.adr" :=
                     Example.unlines (Example.trashed_lines ++ Scenario.shared_uid_lines)]> ∅))
      as (fs' & log & Hmain & Hsize).
    + exists "#FOLDER", (tail Scenario.shared_uid_lines).
      repeat split; repeat (constructor; [first [reflexivity | split; reflexivity]|]);
        constructor.
    + apply lookup_insert_eq.
    + reflexivity.
    + repeat constructor.
    + intros n Hn. apply lookup_insert_None. split; [apply lookup_empty|].
      apply elem_of_cons in Hn as [-> | Hn]; [discriminate|].
      apply elem_of_cons in Hn as [-> | Hn]; [discriminate|].
      inversion Hn.
    + rewrite (main_of_parse Host.decimal_uint32 Host.utc_format Host.writable
                 Example.options _ _ Scenario.shared_uid_notes (lookup_insert_eq _ _ _))
        in Hmain by reflexivity.
      apply Returned_files in Hmain. subst fs'.
      rewrite WriteFiles_new_files in Hsize
        by (repeat (apply Forall_cons_2; [right; discriminate|]); apply Forall_nil_2).
      rewrite dom_insert_L, dom_empty_L, union_empty_r_L in Hsize.
      revert Hsize. vm_compute. discriminate.
  - intros H.
    destruct (H Scenario.record_lines [tb +:+ "CREATED=soon"] Scenario.record_note
                (<["notes.adr" :=
                     Example.unlines
                       (Example.trashed_lines
                          ++ "#FOLDER" :: Scenario.record_lines ++ [tb +:+ "CREATED=soon"])]> ∅))
      as (fs' & Hfiles & Hfile).
    + exists "#FOLDER", (Scenario.record_lines ++ [tb +:+ "CREATED=soon"]).
      repeat split; repeat (constructor; [first [reflexivity | split; reflexivity]|]);
        constructor.
    + apply lookup_insert_eq.
    + reflexivity.
    + reflexivity.
    + unfold main, ParseFile in Hfiles. rewrite lookup_insert_eq in Hfiles.
      injection Hfiles as <-.
      destruct Hfile as [doc Hdoc].
      apply lookup_insert_Some in Hdoc as [[Heq _] | [_ Hdoc]]; [discriminate Heq|].
      now rewrite lookup_empty in Hdoc.
Qed.
